(** * The ledger and inventory engine of enhanced_pos.py

    A shallow embedding of the accounting core of [src/enhanced_pos.py]:
    the numeric coercion helpers ([safe_float], [safe_int]), the SQLite
    store of [DatabaseManager] ([add_or_update_customer], [add_sale],
    [calculate_daily_inventory], ...) and the entry forms of
    [EnhancedPOSApp] that feed it ([calculate_totals], [save_transaction],
    ...), followed by the properties of the written specification.

    Numbers.  Python floats and SQLite REAL columns are modelled by exact
    rationals ([Qc]): finite values are kept exact and the rounding error
    of binary floating point is left out.  The one place where the range
    of a double matters to control flow, the overflow of [float(text)] to
    infinity, is kept (see [PyNum.float_of_decimal]).

    Tables.  A table with a PRIMARY KEY or UNIQUE key read by that key is
    a [gmap] from the key to the remaining columns; the append-only logs
    are lists in rowid order. *)

From Stdlib Require Import ZArith QArith Qcanon String Ascii List.
From Stdlib Require DecimalPos DecimalN.
From stdpp Require Import base option list gmap strings numbers fin_maps.

Local Open Scope Z_scope.
Local Open Scope Qc_scope.

(** ** Python exceptions and results *)

Inductive exn : Type :=
  | ValueError
  | TypeError
  | OverflowError
  | OperationalError.

Inductive res (A : Type) : Type :=
  | Ret (a : A)
  | Raise (e : exn).
Arguments Ret {A} a.
Arguments Raise {A} e.

#[global] Instance exn_eq_dec : EqDecision exn.
Proof. solve_decision. Defined.

#[global] Instance res_eq_dec {A : Type} `{EqDecision A} : EqDecision (res A).
Proof. solve_decision. Defined.

(** ** Python numbers and text *)

Module PyNum.

(** A Python float: a finite value, kept exact, or one of the special
    values.  Both zeros are [Finite 0]. *)
Inductive pyfloat : Type :=
  | Finite (q : Qc)
  | Infinity (negative : bool)
  | NaN.

#[global] Instance pyfloat_eq_dec : EqDecision pyfloat.
Proof. solve_decision. Defined.

(** Text is a string of code points below 256. *)
Definition code (c : ascii) : N := N_of_ascii c.

(** [0-9]: what [\d] and [float] take for a digit below 256. *)
Definition is_digit (c : ascii) : bool :=
  (48 <=? code c)%N && (code c <=? 57)%N.

Definition digit_value (c : ascii) : N := (code c - 48)%N.

(** The white space of [str.strip()] below 256. *)
Definition is_space (c : ascii) : bool :=
  bool_decide (code c ∈ [9; 10; 11; 12; 13; 28; 29; 30; 31; 32; 133; 160]%N).

(** The white space [float] skips around a number below 256. *)
Definition is_float_space (c : ascii) : bool :=
  bool_decide (code c ∈ [9; 10; 11; 12; 13; 32; 133; 160]%N).

Fixpoint lstrip (space : ascii → bool) (s : string) : string :=
  match s with
  | String c s' => if space c then lstrip space s' else s
  | EmptyString => EmptyString
  end.

Fixpoint rstrip (space : ascii → bool) (s : string) : string :=
  match s with
  | String c s' =>
      match rstrip space s' with
      | EmptyString => if space c then EmptyString else String c EmptyString
      | r => String c r
      end
  | EmptyString => EmptyString
  end.

(** [s.strip()] *)
Definition strip (s : string) : string := rstrip is_space (lstrip is_space s).

(** [re.sub(r'[^\d.-]+', '', s)]: every run of other characters is
    removed, so digits, dots and minus signs are what remains. *)
Fixpoint re_sub_non_numeric (s : string) : string :=
  match s with
  | String c s' =>
      if is_digit c || bool_decide (c = "."%char) || bool_decide (c = "-"%char)
      then String c (re_sub_non_numeric s')
      else re_sub_non_numeric s'
  | EmptyString => EmptyString
  end.

Definition lower (c : ascii) : ascii :=
  if (65 <=? code c)%N && (code c <=? 90)%N
  then ascii_of_N (code c + 32) else c.

Fixpoint lower_string (s : string) : string :=
  match s with
  | String c s' => String (lower c) (lower_string s')
  | EmptyString => EmptyString
  end.

(** *** [float(text)] *)

(** The digits after the first of a digitpart, "digit (["_"] digit)*":
    the value read so far, the number of digits, and the rest. *)
Fixpoint more_digits (acc : N) (n : nat) (s : string) : N * nat * string :=
  match s with
  | String c s' =>
      if is_digit c then more_digits (10 * acc + digit_value c) (S n) s'
      else if bool_decide (c = "_"%char) then
        match s' with
        | String c' s'' =>
            if is_digit c'
            then more_digits (10 * acc + digit_value c') (S n) s''
            else (acc, n, s)
        | EmptyString => (acc, n, s)
        end
      else (acc, n, s)
  | EmptyString => (acc, n, s)
  end.

Definition digitpart (s : string) : option (N * nat * string) :=
  match s with
  | String c s' =>
      if is_digit c then Some (more_digits (digit_value c) 1 s') else None
  | EmptyString => None
  end.

Definition sign_of (s : string) : bool * string :=
  match s with
  | String "+" r => (false, r)
  | String "-" r => (true, r)
  | _ => (false, s)
  end.

(** mantissa x 10 ^ exponent *)
Definition scale (mantissa : N) (exponent : Z) : Qc :=
  if (0 <=? exponent)%Z
  then Qc_of_Z (Z.of_N mantissa * 10 ^ exponent)
  else Q2Qc (Z.of_N mantissa # Z.to_pos (10 ^ (- exponent))).

(** After the mantissa: the end of the text, or an exponent and the end. *)
Definition exponent_and_end (mantissa : N) (decimals : nat) (s : string)
    : option Qc :=
  match s with
  | EmptyString => Some (scale mantissa (- Z.of_nat decimals))
  | String c s' =>
      if bool_decide (c = "e"%char) || bool_decide (c = "E"%char) then
        let '(negative, r) := sign_of s' in
        match digitpart r with
        | Some (e, _, EmptyString) =>
            Some (scale mantissa
                    ((if negative then - Z.of_N e else Z.of_N e)
                     - Z.of_nat decimals))
        | _ => None
        end
      else None
  end.

(** "digitpart ["." [digitpart]] [exponent]" or "." digitpart [exponent] *)
Definition float_number (s : string) : option Qc :=
  match digitpart s with
  | Some (whole, _, String "." rest) =>
      match digitpart rest with
      | Some (fraction, decimals, rest') =>
          exponent_and_end (whole * 10 ^ N.of_nat decimals + fraction)
            decimals rest'
      | None => exponent_and_end whole 0 rest
      end
  | Some (whole, _, rest) => exponent_and_end whole 0 rest
  | None =>
      match s with
      | String "." rest =>
          match digitpart rest with
          | Some (fraction, decimals, rest') =>
              exponent_and_end fraction decimals rest'
          | None => None
          end
      | _ => None
      end
  end.

(** The least magnitude that rounds to infinity: half-way between the
    largest double and 2^1024. *)
Definition overflow_threshold : Qc := Qc_of_Z (2 ^ 1024 - 2 ^ 970).

(** The float of a decimal numeral of magnitude [q]. *)
Definition float_of_decimal (negative : bool) (q : Qc) : pyfloat :=
  if decide (overflow_threshold ≤ q) then Infinity negative
  else Finite (if negative then - q else q).

(** [float(s)] for a str [s]; raises ValueError on anything else than
    "[sign] (inf | infinity | nan | floatnumber)" between white space. *)
Definition py_float (s : string) : res pyfloat :=
  let '(negative, body) :=
    sign_of (rstrip is_float_space (lstrip is_float_space s)) in
  let word := lower_string body in
  if bool_decide (word = "inf"%string) || bool_decide (word = "infinity"%string)
  then Ret (Infinity negative)
  else if bool_decide (word = "nan"%string) then Ret NaN
  else match float_number body with
       | Some q => Ret (float_of_decimal negative q)
       | None => Raise ValueError
       end.

(** [int(x)] for a float [x]: truncation towards zero. *)
Definition py_int (x : pyfloat) : res Z :=
  match x with
  | Finite q => Ret (Z.quot (Qnum q) (Z.pos (Qden q)))
  | Infinity _ => Raise OverflowError
  | NaN => Raise ValueError
  end.

(** [try: body except (e1, ...): handler] *)
Definition try_except {A : Type} (body : res A) (handled : list exn)
    (handler : res A) : res A :=
  match body with
  | Ret a => Ret a
  | Raise e => if bool_decide (e ∈ handled) then handler else Raise e
  end.

Definition res_bind {A B : Type} (m : res A) (k : A → res B) : res B :=
  match m with
  | Ret a => k a
  | Raise e => Raise e
  end.

(** *** [safe_float] and [safe_int]

    [value] is None or a str, as the forms pass it. *)

Definition safe_float (value : option string) (default : pyfloat)
    : res pyfloat :=
  try_except
    (match value with
     | None => Ret default
     | Some text =>
         if bool_decide (strip text = ""%string) then Ret default
         else
           let cleaned_value := re_sub_non_numeric text in
           if negb (bool_decide (cleaned_value = ""%string))
              && negb (bool_decide (cleaned_value = "-"%string))
           then py_float cleaned_value
           else Ret default
     end)
    [ValueError; TypeError]
    (Ret default).

(** [safe_float] never returns None, so [float_val is not None] holds. *)
Definition safe_int (value : option string) (default : Z) : res Z :=
  try_except
    (match value with
     | None => Ret default
     | Some text =>
         if bool_decide (strip text = ""%string) then Ret default
         else res_bind (safe_float value (Finite 0)) py_int
     end)
    [ValueError; TypeError]
    (Ret default).

(** *** Arithmetic and formatting

    Finite operands give the exact result; the special values follow
    IEEE 754. *)

Definition fneg (x : pyfloat) : pyfloat :=
  match x with
  | Finite a => Finite (- a)
  | Infinity negative => Infinity (negb negative)
  | NaN => NaN
  end.

Definition fadd (x y : pyfloat) : pyfloat :=
  match x, y with
  | Finite a, Finite b => Finite (a + b)
  | NaN, _ | _, NaN => NaN
  | Infinity s, Finite _ | Finite _, Infinity s => Infinity s
  | Infinity s, Infinity s' => if eqb s s' then Infinity s else NaN
  end.

Definition fsub (x y : pyfloat) : pyfloat := fadd x (fneg y).

Definition fmul (x y : pyfloat) : pyfloat :=
  match x, y with
  | Finite a, Finite b => Finite (a * b)
  | NaN, _ | _, NaN => NaN
  | Infinity s, Finite a | Finite a, Infinity s =>
      if decide (a = 0) then NaN
      else Infinity (xorb s (bool_decide (a < 0)))
  | Infinity s, Infinity s' => Infinity (xorb s s')
  end.

(** [x <= 0] *)
Definition fle_zero (x : pyfloat) : bool :=
  match x with
  | Finite a => bool_decide (a ≤ 0)
  | Infinity negative => negative
  | NaN => false
  end.

(** The integer nearest to [q], ties to the even one. *)
Definition round_half_even (q : Qc) : Z :=
  let n := Qnum q in
  let d := Z.pos (Qden q) in
  let below := (n / d)%Z in
  let twice := (2 * (n mod d))%Z in
  if (twice <? d)%Z then below
  else if (d <? twice)%Z then (below + 1)%Z
  else if Z.even below then below else (below + 1)%Z.

(** [q] rounded to two decimals. *)
Definition round2 (q : Qc) : Qc :=
  Q2Qc (round_half_even (q * Qc_of_Z 100) # 100).

Fixpoint string_of_uint (d : Decimal.uint) : string :=
  match d with
  | Decimal.Nil => EmptyString
  | Decimal.D0 d => String "0" (string_of_uint d)
  | Decimal.D1 d => String "1" (string_of_uint d)
  | Decimal.D2 d => String "2" (string_of_uint d)
  | Decimal.D3 d => String "3" (string_of_uint d)
  | Decimal.D4 d => String "4" (string_of_uint d)
  | Decimal.D5 d => String "5" (string_of_uint d)
  | Decimal.D6 d => String "6" (string_of_uint d)
  | Decimal.D7 d => String "7" (string_of_uint d)
  | Decimal.D8 d => String "8" (string_of_uint d)
  | Decimal.D9 d => String "9" (string_of_uint d)
  end.



(** The decimal numeral of a natural number. *)
Definition numeral (n : N) : string := string_of_uint (N.to_uint n).

Definition digit_char (d : N) : ascii := ascii_of_N (48 + d).

Definition two_digits (k : N) : string :=
  String (digit_char (k / 10)) (String (digit_char (k mod 10)) EmptyString).

(** [f"{x:.2f}"].  The sign is the sign of [x], also when [x] rounds to
    zero ("-0.00"); a tie between two neighbours is broken on the exact
    value of [x]. *)
Definition format_2f (x : pyfloat) : string :=
  match x with
  | Finite q =>
      let hundredths := Z.abs_N (round_half_even (q * Qc_of_Z 100)) in
      ((if decide (q < 0) then "-" else "")
       +:+ numeral (hundredths / 100) +:+ "." +:+ two_digits (hundredths mod 100))%string
  | Infinity negative => if negative then "-inf"%string else "inf"%string
  | NaN => "nan"%string
  end.

(** The numeral 1 followed by 309 zeros: 10^309, beyond every double. *)
Definition ten_to_the_309 : string :=
  String "1" (string_of_list_ascii (repeat "0"%char 309)).

End PyNum.

(** ** The store: [DatabaseManager] *)

Module Store.

(** *** Rows as [create_tables] declares them *)

(** products(id PRIMARY KEY, name UNIQUE, price, current_stock, active) *)
Record product : Type := {
  p_name : string;
  p_price : Qc;
  p_current_stock : Qc;
  p_active : Z }.

(** customers(id PRIMARY KEY, name UNIQUE, contact, credit_balance,
    active, is_supplier) *)
Record customer : Type := {
  c_name : string;
  c_contact : string;
  c_credit_balance : Qc;
  c_active : Z;
  c_is_supplier : Z }.

(** transactions(id, date, customer_id, transaction_type, total_amount,
    cash_received, previous_credit, updated_credit, notes, synced) *)
Record transaction : Type := {
  t_id : Z;
  t_date : string;
  t_customer_id : Z;
  t_transaction_type : string;
  t_total_amount : Qc;
  t_cash_received : Qc;
  t_previous_credit : Qc;
  t_updated_credit : Qc;
  t_notes : string;
  t_synced : Z }.

(** transaction_items(transaction_id, product_id, quantity, unit_price,
    subtotal); the rowid is the position in the list. *)
Record transaction_item : Type := {
  ti_transaction_id : Z;
  ti_product_id : Z;
  ti_quantity : Qc;
  ti_unit_price : Qc;
  ti_subtotal : Qc }.

(** stock_movements(date, product_id, quantity_change, transaction_id,
    movement_type, notes).  The note is the text
    [f"{transaction_type} of {quantity} units"], kept as the pair it is
    formatted from. *)
Record stock_movement : Type := {
  sm_date : string;
  sm_product_id : Z;
  sm_quantity_change : Qc;
  sm_transaction_id : Z;
  sm_movement_type : string;
  sm_notes : string * Qc }.

(** daily_stock(date, product_id, opening_stock, purchases, sales,
    adjustments, closing_stock), UNIQUE (date, product_id): the two key
    columns are the key of the map. *)
Record daily_stock_row : Type := {
  ds_opening_stock : Qc;
  ds_purchases : Qc;
  ds_sales : Qc;
  ds_adjustments : Qc;
  ds_closing_stock : Qc }.

#[global] Instance product_eq_dec : EqDecision product.
Proof. solve_decision. Defined.
#[global] Instance customer_eq_dec : EqDecision customer.
Proof. solve_decision. Defined.
#[global] Instance transaction_eq_dec : EqDecision transaction.
Proof. solve_decision. Defined.
#[global] Instance transaction_item_eq_dec : EqDecision transaction_item.
Proof. solve_decision. Defined.
#[global] Instance stock_movement_eq_dec : EqDecision stock_movement.
Proof. solve_decision. Defined.
#[global] Instance daily_stock_row_eq_dec : EqDecision daily_stock_row.
Proof. solve_decision. Defined.

(** The database file.  [products_seq], [customers_seq] and
    [transactions_seq] are the AUTOINCREMENT counters of sqlite_sequence.
    [clients] and [suppliers] are the legacy partner tables that
    [add_sale] looks for in sqlite_master; [create_tables] never creates
    them, so they are optional, and only the column that [add_sale]
    writes (credit_balance, by id) is kept.  daily_summary and
    customer_prices are not touched by the functions below. *)
Record db : Type := {
  products : gmap Z product;
  products_seq : Z;
  customers : gmap Z customer;
  customers_seq : Z;
  clients : option (gmap Z Qc);
  suppliers : option (gmap Z Qc);
  transactions : list transaction;
  transactions_seq : Z;
  transaction_items : list transaction_item;
  stock_movements : list stock_movement;
  daily_stock : gmap (string * Z) daily_stock_row }.

#[global] Instance db_eq_dec : EqDecision db.
Proof. solve_decision. Defined.

Definition with_products (v : gmap Z product) (d : db) : db :=
  {| products := v; products_seq := products_seq d;
     customers := customers d; customers_seq := customers_seq d;
     clients := clients d; suppliers := suppliers d;
     transactions := transactions d; transactions_seq := transactions_seq d;
     transaction_items := transaction_items d;
     stock_movements := stock_movements d; daily_stock := daily_stock d |}.

Definition with_products_seq (v : Z) (d : db) : db :=
  {| products := products d; products_seq := v;
     customers := customers d; customers_seq := customers_seq d;
     clients := clients d; suppliers := suppliers d;
     transactions := transactions d; transactions_seq := transactions_seq d;
     transaction_items := transaction_items d;
     stock_movements := stock_movements d; daily_stock := daily_stock d |}.

Definition with_customers (v : gmap Z customer) (d : db) : db :=
  {| products := products d; products_seq := products_seq d;
     customers := v; customers_seq := customers_seq d;
     clients := clients d; suppliers := suppliers d;
     transactions := transactions d; transactions_seq := transactions_seq d;
     transaction_items := transaction_items d;
     stock_movements := stock_movements d; daily_stock := daily_stock d |}.

Definition with_customers_seq (v : Z) (d : db) : db :=
  {| products := products d; products_seq := products_seq d;
     customers := customers d; customers_seq := v;
     clients := clients d; suppliers := suppliers d;
     transactions := transactions d; transactions_seq := transactions_seq d;
     transaction_items := transaction_items d;
     stock_movements := stock_movements d; daily_stock := daily_stock d |}.

Definition with_clients (v : option (gmap Z Qc)) (d : db) : db :=
  {| products := products d; products_seq := products_seq d;
     customers := customers d; customers_seq := customers_seq d;
     clients := v; suppliers := suppliers d;
     transactions := transactions d; transactions_seq := transactions_seq d;
     transaction_items := transaction_items d;
     stock_movements := stock_movements d; daily_stock := daily_stock d |}.

Definition with_suppliers (v : option (gmap Z Qc)) (d : db) : db :=
  {| products := products d; products_seq := products_seq d;
     customers := customers d; customers_seq := customers_seq d;
     clients := clients d; suppliers := v;
     transactions := transactions d; transactions_seq := transactions_seq d;
     transaction_items := transaction_items d;
     stock_movements := stock_movements d; daily_stock := daily_stock d |}.

Definition with_transactions (v : list transaction) (s : Z) (d : db) : db :=
  {| products := products d; products_seq := products_seq d;
     customers := customers d; customers_seq := customers_seq d;
     clients := clients d; suppliers := suppliers d;
     transactions := v; transactions_seq := s;
     transaction_items := transaction_items d;
     stock_movements := stock_movements d; daily_stock := daily_stock d |}.

Definition with_transaction_items (v : list transaction_item) (d : db) : db :=
  {| products := products d; products_seq := products_seq d;
     customers := customers d; customers_seq := customers_seq d;
     clients := clients d; suppliers := suppliers d;
     transactions := transactions d; transactions_seq := transactions_seq d;
     transaction_items := v;
     stock_movements := stock_movements d; daily_stock := daily_stock d |}.

Definition with_stock_movements (v : list stock_movement) (d : db) : db :=
  {| products := products d; products_seq := products_seq d;
     customers := customers d; customers_seq := customers_seq d;
     clients := clients d; suppliers := suppliers d;
     transactions := transactions d; transactions_seq := transactions_seq d;
     transaction_items := transaction_items d;
     stock_movements := v; daily_stock := daily_stock d |}.

Definition with_daily_stock (v : gmap (string * Z) daily_stock_row) (d : db) : db :=
  {| products := products d; products_seq := products_seq d;
     customers := customers d; customers_seq := customers_seq d;
     clients := clients d; suppliers := suppliers d;
     transactions := transactions d; transactions_seq := transactions_seq d;
     transaction_items := transaction_items d;
     stock_movements := stock_movements d; daily_stock := v |}.


(** *** Statements on a connection

    [cursor.execute] either raises or runs its statement on the working
    copy of the open transaction.  Which statements fail is not decided
    by the program: [faults n] tells whether the [n]-th statement issued
    since BEGIN raises sqlite3.OperationalError (disk, lock, schema). *)

Record cursor : Type := {
  executed : nat;
  working : db }.

Definition sql (A : Type) : Type := cursor → res (A * cursor).

Definition sql_ret {A : Type} (a : A) : sql A := λ c, Ret (a, c).

Definition sql_bind {A B : Type} (m : sql A) (k : A → sql B) : sql B := λ c,
  match m c with
  | Ret (a, c') => k a c'
  | Raise e => Raise e
  end.

Notation "'let*' x ':=' m 'in' k" := (sql_bind m (λ x, k))
  (at level 10, x name, m at level 100, k at level 200,
   format "'let*'  x  :=  m  'in'  '/' k").

Section statements.
Variable faults : nat → bool.

(** A statement that writes: [stmt] maps the working copy to the value
    the cursor holds afterwards (lastrowid) and the new working copy. *)
Definition execute {A : Type} (stmt : db → A * db) : sql A := λ c,
  if faults (executed c) then Raise OperationalError
  else let (a, d) := stmt (working c) in
       Ret (a, {| executed := S (executed c); working := d |}).

(** A SELECT (or PRAGMA) followed by its fetch. *)
Definition query {A : Type} (q : db → A) : sql A :=
  execute (λ d, (q d, d)).

(** [for x in xs: body] *)
Fixpoint for_each {A : Type} (xs : list A) (body : A → sql ()) : sql () :=
  match xs with
  | [] => sql_ret ()
  | x :: xs' => let* _ := body x in for_each xs' body
  end.

(** *** Schema introspection *)

(** "SELECT name FROM sqlite_master WHERE type='table' AND name=?",
    truth value of the fetched row.  The tables of [create_tables] exist
    in every database the program opens ([DatabaseManager.__init__] runs
    CREATE TABLE IF NOT EXISTS for each of them). *)
Definition table_exists (name : string) (d : db) : bool :=
  if decide (name = "clients"%string) then bool_decide (is_Some (clients d))
  else if decide (name = "suppliers"%string) then bool_decide (is_Some (suppliers d))
  else bool_decide (name ∈ ["products"; "customers"; "transactions";
                            "transaction_items"; "customer_prices";
                            "daily_summary"; "stock_movements";
                            "daily_stock"]%string).

(** "PRAGMA table_info(products)", [info[1]] of every row. *)
Definition products_columns (d : db) : list string :=
  ["id"; "name"; "price"; "current_stock"; "active"]%string.

(** *** Master data *)

Definition rows_named {R : Type} (col : R → string) (name : string)
    (t : gmap Z R) : gmap Z R :=
  filter (λ kr, col kr.2 = name) t.

(** "INSERT INTO products (name, price) VALUES (?, ?)
     ON CONFLICT(name) DO UPDATE SET price = ?" *)
Definition upsert_product (name : string) (price : Qc) (d : db) : () * db :=
  if decide (rows_named p_name name (products d) = ∅) then
    let id := (products_seq d + 1)%Z in
    (tt, with_products_seq id
           (with_products
              (<[id := {| p_name := name; p_price := price;
                          p_current_stock := 0; p_active := 1 |}]>
                 (products d)) d))
  else
    (tt, with_products
           ((λ r, if decide (p_name r = name)
                  then {| p_name := p_name r; p_price := price;
                          p_current_stock := p_current_stock r;
                          p_active := p_active r |}
                  else r) <$> products d) d).

(** [add_or_update_product]: the statement and its commit are one step;
    on an exception the method prints and returns False. *)
Definition add_or_update_product (conn : db) (name : string) (price : Qc)
    : bool * db :=
  match execute (upsert_product name price) {| executed := 0; working := conn |} with
  | Ret (_, c) => (true, working c)
  | Raise _ => (false, conn)
  end.

(** "INSERT INTO customers (name, contact, credit_balance, is_supplier)
     VALUES (?, ?, ?, ?)
     ON CONFLICT(name) DO UPDATE SET contact = ?, credit_balance = ?,
     is_supplier = ?" *)
Definition upsert_customer (name contact : string) (credit_balance : Qc)
    (is_supplier : Z) (d : db) : () * db :=
  if decide (rows_named c_name name (customers d) = ∅) then
    let id := (customers_seq d + 1)%Z in
    (tt, with_customers_seq id
           (with_customers
              (<[id := {| c_name := name; c_contact := contact;
                          c_credit_balance := credit_balance;
                          c_active := 1; c_is_supplier := is_supplier |}]>
                 (customers d)) d))
  else
    (tt, with_customers
           ((λ r, if decide (c_name r = name)
                  then {| c_name := c_name r; c_contact := contact;
                          c_credit_balance := credit_balance;
                          c_active := c_active r;
                          c_is_supplier := is_supplier |}
                  else r) <$> customers d) d).

(** [add_or_update_customer(name, contact="", credit_balance=0,
    is_supplier=0)]; the defaults are [add_or_update_customer_default]. *)
Definition add_or_update_customer (conn : db) (name contact : string)
    (credit_balance : Qc) (is_supplier : Z) : bool * db :=
  match execute (upsert_customer name contact credit_balance is_supplier)
          {| executed := 0; working := conn |} with
  | Ret (_, c) => (true, working c)
  | Raise _ => (false, conn)
  end.

Definition add_or_update_customer_default (conn : db) (name : string)
    : bool * db :=
  add_or_update_customer conn name "" 0 0.

(** *** [add_sale] *)

(** One entry of [items]: [item['product_id']], [item['quantity']],
    [item['price']]. *)
Record sale_item : Type := {
  product_id : Z;
  quantity : Qc;
  price : Qc }.

(** "INSERT INTO transactions (date, customer_id, transaction_type,
     total_amount, cash_received, previous_credit, updated_credit, notes)
     VALUES (...)" and [cursor.lastrowid]; synced takes its DEFAULT 0. *)
Definition insert_transaction (date : string) (customer_id : Z)
    (transaction_type : string)
    (total_amount cash_received previous_credit updated_credit : Qc)
    (notes : string) (d : db) : Z * db :=
  let id := (transactions_seq d + 1)%Z in
  (id, with_transactions
         (transactions d ++
          [{| t_id := id; t_date := date; t_customer_id := customer_id;
              t_transaction_type := transaction_type;
              t_total_amount := total_amount;
              t_cash_received := cash_received;
              t_previous_credit := previous_credit;
              t_updated_credit := updated_credit;
              t_notes := notes; t_synced := 0 |}]) id d).

(** "INSERT INTO transaction_items (transaction_id, product_id, quantity,
     unit_price, subtotal) VALUES (?, ?, ?, ?, ?)" *)
Definition insert_transaction_item (transaction_id product_id : Z)
    (quantity price subtotal : Qc) (d : db) : () * db :=
  (tt, with_transaction_items
         (transaction_items d ++
          [{| ti_transaction_id := transaction_id;
              ti_product_id := product_id; ti_quantity := quantity;
              ti_unit_price := price; ti_subtotal := subtotal |}]) d).

(** "SELECT current_stock FROM products WHERE id = ?", [fetchone()] *)
Definition select_current_stock (product_id : Z) (d : db) : option Qc :=
  p_current_stock <$> products d !! product_id.

(** "INSERT INTO stock_movements (date, product_id, quantity_change,
     transaction_id, movement_type, notes) VALUES (...)" *)
Definition insert_stock_movement (date : string) (product_id : Z)
    (quantity_change : Qc) (transaction_id : Z) (transaction_type : string)
    (quantity : Qc) (d : db) : () * db :=
  (tt, with_stock_movements
         (stock_movements d ++
          [{| sm_date := date; sm_product_id := product_id;
              sm_quantity_change := quantity_change;
              sm_transaction_id := transaction_id;
              sm_movement_type := transaction_type;
              sm_notes := (transaction_type, quantity) |}]) d).

(** "SELECT * FROM daily_stock WHERE date = ? AND product_id = ?",
    [fetchone()] *)
Definition select_daily_stock (date : string) (product_id : Z) (d : db)
    : option daily_stock_row :=
  daily_stock d !! (date, product_id).

(** "UPDATE daily_stock SET sales = ?, closing_stock = ?
     WHERE date = ? AND product_id = ?" *)
Definition update_daily_sales (new_sales new_stock : Qc) (date : string)
    (product_id : Z) (d : db) : () * db :=
  (tt, with_daily_stock
         (alter (λ r, {| ds_opening_stock := ds_opening_stock r;
                         ds_purchases := ds_purchases r;
                         ds_sales := new_sales;
                         ds_adjustments := ds_adjustments r;
                         ds_closing_stock := new_stock |})
            (date, product_id) (daily_stock d)) d).

(** "UPDATE daily_stock SET purchases = ?, closing_stock = ?
     WHERE date = ? AND product_id = ?" *)
Definition update_daily_purchases (new_purchases new_stock : Qc)
    (date : string) (product_id : Z) (d : db) : () * db :=
  (tt, with_daily_stock
         (alter (λ r, {| ds_opening_stock := ds_opening_stock r;
                         ds_purchases := new_purchases;
                         ds_sales := ds_sales r;
                         ds_adjustments := ds_adjustments r;
                         ds_closing_stock := new_stock |})
            (date, product_id) (daily_stock d)) d).

(** "INSERT INTO daily_stock (date, product_id, opening_stock, sales,
     purchases, adjustments, closing_stock) VALUES (?, ?, ?, ?, ?, ?, ?)" *)
Definition insert_daily_stock (date : string) (product_id : Z)
    (opening_stock sales purchases adjustments closing_stock : Qc) (d : db)
    : () * db :=
  (tt, with_daily_stock
         (<[(date, product_id) :=
              {| ds_opening_stock := opening_stock;
                 ds_purchases := purchases; ds_sales := sales;
                 ds_adjustments := adjustments;
                 ds_closing_stock := closing_stock |}]> (daily_stock d)) d).

(** "UPDATE products SET current_stock = ? WHERE id = ?" *)
Definition update_current_stock (new_stock : Qc) (product_id : Z) (d : db)
    : () * db :=
  (tt, with_products
         (alter (λ r, {| p_name := p_name r; p_price := p_price r;
                         p_current_stock := new_stock;
                         p_active := p_active r |})
            product_id (products d)) d).

Definition set_credit (updated_credit : Qc) (r : customer) : customer :=
  {| c_name := c_name r; c_contact := c_contact r;
     c_credit_balance := updated_credit; c_active := c_active r;
     c_is_supplier := c_is_supplier r |}.

(** "UPDATE customers SET credit_balance = ? WHERE id = ?" *)
Definition update_customers_credit (updated_credit : Qc) (customer_id : Z)
    (d : db) : () * db :=
  (tt, with_customers (alter (set_credit updated_credit) customer_id (customers d)) d).

(** "UPDATE clients SET credit_balance = ? WHERE id = ?" *)
Definition update_clients_credit (updated_credit : Qc) (customer_id : Z)
    (d : db) : () * db :=
  (tt, with_clients (alter (λ _, updated_credit) customer_id <$> clients d) d).

(** "UPDATE suppliers SET credit_balance = ? WHERE id = ?" *)
Definition update_suppliers_credit (updated_credit : Qc) (customer_id : Z)
    (d : db) : () * db :=
  (tt, with_suppliers (alter (λ _, updated_credit) customer_id <$> suppliers d) d).

(** The body of the loop [for item in items]. *)
Definition add_sale_item (date : string) (transaction_type : string)
    (transaction_id : Z) (item : sale_item) : sql () :=
  let product_id := product_id item in
  let quantity := quantity item in
  let price := price item in
  let* _ := execute (insert_transaction_item transaction_id product_id quantity
                 price (quantity * price)) in
  let* result := query (select_current_stock product_id) in
  let current_stock := match result with Some s => s | None => 0 end in
  let '(new_stock, quantity_change) :=
    if decide (transaction_type = "sale"%string)
    then (current_stock - quantity, - quantity)
    else (current_stock + quantity, quantity) in
  let* has_movements := query (table_exists "stock_movements") in
  let* _ := (if has_movements
       then execute (insert_stock_movement date product_id quantity_change
                       transaction_id transaction_type quantity)
       else sql_ret ()) in
  let* has_daily := query (table_exists "daily_stock") in
  let* _ := (if has_daily then
         let* daily_stock := query (select_daily_stock date product_id) in
         match daily_stock with
         | Some row =>
             if decide (transaction_type = "sale"%string) then
               let new_sales := ds_sales row + quantity in
               execute (update_daily_sales new_sales new_stock date product_id)
             else
               let new_purchases := ds_purchases row + quantity in
               execute (update_daily_purchases new_purchases new_stock date
                          product_id)
         | None =>
             if decide (transaction_type = "sale"%string) then
               execute (insert_daily_stock date product_id current_stock
                          quantity 0 0 new_stock)
             else
               execute (insert_daily_stock date product_id current_stock
                          0 quantity 0 new_stock)
         end
       else sql_ret ()) in
  let* columns := query products_columns in
  if bool_decide ("current_stock"%string ∈ columns)
  then execute (update_current_stock new_stock product_id)
  else sql_ret ().

(** The [try] block of [add_sale], from BEGIN TRANSACTION to
    [conn.commit()]; BEGIN and the commit are statements that change no
    row but may fail like any other. *)
Definition add_sale_try (date : string) (customer_id : Z)
    (items : list sale_item)
    (total_amount cash_received previous_credit updated_credit : Qc)
    (notes : string) (transaction_type : string) : sql Z :=
  let* _ := execute (λ d, (tt, d)) in
  let* transaction_id := execute (insert_transaction date customer_id
                              transaction_type total_amount cash_received
                              previous_credit updated_credit notes) in
  let* _ := for_each items (add_sale_item date transaction_type transaction_id) in
  let* _ := (if decide (transaction_type = "sale"%string) then
         let* has_clients := query (table_exists "clients") in
         if has_clients
         then execute (update_clients_credit updated_credit customer_id)
         else execute (update_customers_credit updated_credit customer_id)
       else
         let* has_suppliers := query (table_exists "suppliers") in
         if has_suppliers
         then execute (update_suppliers_credit updated_credit customer_id)
         else execute (update_customers_credit updated_credit customer_id)) in
  let* _ := execute (λ d, (tt, d)) in
  sql_ret transaction_id.

(** [add_sale(date, customer_id, items, total_amount, cash_received,
    previous_credit, updated_credit, notes="", transaction_type="sale")].
    [conn] is the database as the connection sees it when the method is
    entered; no write is pending then, since every writer of the program
    commits before it returns.  The result is the returned value
    ([None] for Python's None) and the database afterwards:
    the [except] branch is [conn.rollback()] followed by [return None]. *)
Definition add_sale (conn : db) (date : string) (customer_id : Z)
    (items : list sale_item)
    (total_amount cash_received previous_credit updated_credit : Qc)
    (notes : string) (transaction_type : string) : option Z * db :=
  match add_sale_try date customer_id items total_amount cash_received
          previous_credit updated_credit notes transaction_type
          {| executed := 0; working := conn |} with
  | Ret (transaction_id, c) => (Some transaction_id, working c)
  | Raise _ => (None, conn)
  end.

(** [add_purchase] *)
Definition add_purchase (conn : db) (date : string) (supplier_id : Z)
    (items : list sale_item)
    (total_amount cash_paid previous_credit updated_credit : Qc)
    (notes : string) : option Z * db :=
  add_sale conn date supplier_id items total_amount cash_paid
    previous_credit updated_credit notes "purchase".

End statements.

(** [get_customer_credit]: "SELECT credit_balance FROM customers WHERE
    id = ?", 0 when no row is fetched. *)
Definition get_customer_credit (conn : db) (customer_id : Z) : Qc :=
  match customers conn !! customer_id with
  | Some r => c_credit_balance r
  | None => 0
  end.

(** *** [calculate_daily_inventory] *)

(** One value of the dict [inventory_summary]. *)
Record inventory_entry : Type := {
  e_product_name : string;
  e_price : Qc;
  e_opening_stock : Qc;
  e_purchases : Qc;
  e_sales : Qc;
  e_adjustments : Qc;
  e_closing_stock : Qc;
  e_net_change : Qc }.

#[global] Instance inventory_entry_eq_dec : EqDecision inventory_entry.
Proof. solve_decision. Defined.

(** The returned dict: 'products' and the five totals. *)
Record inventory_report : Type := {
  r_products : gmap Z inventory_entry;
  r_total_opening_value : Qc;
  r_total_closing_value : Qc;
  r_total_purchased_value : Qc;
  r_total_sold_value : Qc;
  r_net_value_change : Qc }.

#[global] Instance inventory_report_eq_dec : EqDecision inventory_report.
Proof. solve_decision. Defined.

(** "SELECT ds.*, p.name as product_name, p.price FROM daily_stock ds
     JOIN products p ON ds.product_id = p.id WHERE ds.date = ?
     ORDER BY p.name" and the loop that stores one entry per fetched row
    under its product_id.  A product has at most one daily_stock row for
    the date (UNIQUE), so the join is read product by product. *)
Definition daily_stock_summary (d : db) (date : string)
    : gmap Z inventory_entry :=
  map_imap
    (λ product_id p,
       match daily_stock d !! (date, product_id) with
       | Some row =>
           Some {| e_product_name := p_name p;
                   e_price := p_price p;
                   e_opening_stock := ds_opening_stock row;
                   e_purchases := ds_purchases row;
                   e_sales := ds_sales row;
                   e_adjustments := ds_adjustments row;
                   e_closing_stock := ds_closing_stock row;
                   e_net_change := ds_closing_stock row - ds_opening_stock row |}
       | None => None
       end)
    (products d).

(** "SUM(CASE WHEN ... THEN ... ELSE 0 END)" over the stock_movements rows
    joined to product [p] for [date] ("ON p.id = sm.product_id AND
    sm.date = ?").  The LEFT JOIN gives a product without movement one
    row of NULLs, for which every CASE takes its ELSE branch: the sum is 0
    then, never NULL. *)
Definition sum_case (value : stock_movement → Qc) (date : string) (p : Z)
    (ms : list stock_movement) : Qc :=
  foldr (λ m acc, if decide (sm_product_id m = p ∧ sm_date m = date)
                  then value m + acc else acc) 0 ms.

(** CASE WHEN sm.movement_type = 'purchase' THEN sm.quantity_change ELSE 0 *)
Definition case_purchase (m : stock_movement) : Qc :=
  if decide (sm_movement_type m = "purchase"%string)
  then sm_quantity_change m else 0.

(** CASE WHEN sm.movement_type = 'sale' THEN -sm.quantity_change ELSE 0 *)
Definition case_sale (m : stock_movement) : Qc :=
  if decide (sm_movement_type m = "sale"%string)
  then - sm_quantity_change m else 0.

(** CASE WHEN sm.movement_type NOT IN ('sale', 'purchase')
    THEN sm.quantity_change ELSE 0 *)
Definition case_adjustment (m : stock_movement) : Qc :=
  if decide (sm_movement_type m ∉ ["sale"; "purchase"]%string)
  then sm_quantity_change m else 0.

(** [x or 0] on a number *)
Definition or_zero (x : Qc) : Qc := if decide (x = 0) then 0 else x.

(** The fallback query over products LEFT JOIN stock_movements,
    "WHERE p.active = 1 GROUP BY p.id", and its loop. *)
Definition movements_summary (d : db) (date : string)
    : gmap Z inventory_entry :=
  map_imap
    (λ product_id p,
       if decide (p_active p = 1%Z) then
         let purchases := sum_case case_purchase date product_id (stock_movements d) in
         let sales := sum_case case_sale date product_id (stock_movements d) in
         let adjustments := sum_case case_adjustment date product_id (stock_movements d) in
         let opening_stock := p_current_stock p - (purchases - sales + adjustments) in
         let closing_stock := p_current_stock p in
         Some {| e_product_name := p_name p;
                 e_price := p_price p;
                 e_opening_stock := opening_stock;
                 e_purchases := or_zero purchases;
                 e_sales := or_zero sales;
                 e_adjustments := or_zero adjustments;
                 e_closing_stock := closing_stock;
                 e_net_change := closing_stock - opening_stock |}
       else None)
    (products d).

(** [total += price * data[field]] over the entries; the sum of exact
    numbers does not depend on the order of the dict. *)
Definition total_value (field : inventory_entry → Qc)
    (summary : gmap Z inventory_entry) : Qc :=
  map_fold (λ _ data total, total + e_price data * field data) 0 summary.

Definition calculate_daily_inventory (conn : db) (date : string)
    : inventory_report :=
  let inventory_summary := daily_stock_summary conn date in
  let inventory_summary :=
    if decide (inventory_summary = ∅)
    then movements_summary conn date
    else inventory_summary in
  let total_opening_value := total_value e_opening_stock inventory_summary in
  let total_closing_value := total_value e_closing_stock inventory_summary in
  let total_purchased_value := total_value e_purchases inventory_summary in
  let total_sold_value := total_value e_sales inventory_summary in
  {| r_products := inventory_summary;
     r_total_opening_value := total_opening_value;
     r_total_closing_value := total_closing_value;
     r_total_purchased_value := total_purchased_value;
     r_total_sold_value := total_sold_value;
     r_net_value_change := total_closing_value - total_opening_value |}.

(** The same ledger without its DailyStock rows ("historical data
    migrated without snapshots"). *)
Definition without_snapshots (d : db) : db := with_daily_stock ∅ d.

(** *** What a transaction writes

    The per-item algorithm of the specification (4.1, 4.2) as functions
    on the tables: [add_sale] is compared with them below. *)

(** signed_delta = +quantity for purchase, -quantity for sale *)
Definition signed_delta (transaction_type : string) (quantity : Qc) : Qc :=
  if decide (transaction_type = "sale"%string) then - quantity else quantity.

(** The product's current_stock as the loop reads it. *)
Definition stock_of (ps : gmap Z product) (product_id : Z) : Qc :=
  match ps !! product_id with
  | Some r => p_current_stock r
  | None => 0
  end.

Definition set_stock (new_stock : Qc) (r : product) : product :=
  {| p_name := p_name r; p_price := p_price r;
     p_current_stock := new_stock; p_active := p_active r |}.

(** The row StockTracker.apply leaves for (date, product): created when
    there is none, accumulated otherwise. *)
Definition tracked_row (transaction_type : string)
    (quantity preStock postStock : Qc) (old : option daily_stock_row)
    : daily_stock_row :=
  let is_sale := bool_decide (transaction_type = "sale"%string) in
  match old with
  | None =>
      {| ds_opening_stock := preStock;
         ds_purchases := if is_sale then 0 else quantity;
         ds_sales := if is_sale then quantity else 0;
         ds_adjustments := 0;
         ds_closing_stock := postStock |}
  | Some r =>
      {| ds_opening_stock := ds_opening_stock r;
         ds_purchases := if is_sale then ds_purchases r
                         else ds_purchases r + quantity;
         ds_sales := if is_sale then ds_sales r + quantity
                     else ds_sales r;
         ds_adjustments := ds_adjustments r;
         ds_closing_stock := postStock |}
  end.

(** StockTracker.apply(date, product, kind, quantity, preStock, postStock) *)
Definition StockTracker_apply (date : string) (product_id : Z)
    (transaction_type : string) (quantity preStock postStock : Qc)
    (t : gmap (string * Z) daily_stock_row) : gmap (string * Z) daily_stock_row :=
  <[(date, product_id) :=
      tracked_row transaction_type quantity preStock postStock
        (t !! (date, product_id))]> t.

(** Steps 1-3, 5 and 6 for one item, on products and daily_stock. *)
Definition apply_movement (date transaction_type : string)
    (st : gmap Z product * gmap (string * Z) daily_stock_row)
    (item : sale_item)
    : gmap Z product * gmap (string * Z) daily_stock_row :=
  let current_stock := stock_of st.1 (product_id item) in
  let new_stock := current_stock + signed_delta transaction_type (quantity item) in
  (alter (set_stock new_stock) (product_id item) st.1,
   StockTracker_apply date (product_id item) transaction_type (quantity item)
     current_stock new_stock st.2).

Definition apply_movements (date transaction_type : string)
    (items : list sale_item)
    (st : gmap Z product * gmap (string * Z) daily_stock_row)
    : gmap Z product * gmap (string * Z) daily_stock_row :=
  foldl (apply_movement date transaction_type) st items.

Definition item_row (transaction_id : Z) (item : sale_item) : transaction_item :=
  {| ti_transaction_id := transaction_id; ti_product_id := product_id item;
     ti_quantity := quantity item; ti_unit_price := price item;
     ti_subtotal := quantity item * price item |}.

(** Step 4: StockMovement(date, product, signed_delta, transactionId, kind) *)
Definition movement_row (date transaction_type : string) (transaction_id : Z)
    (item : sale_item) : stock_movement :=
  {| sm_date := date; sm_product_id := product_id item;
     sm_quantity_change := signed_delta transaction_type (quantity item);
     sm_transaction_id := transaction_id;
     sm_movement_type := transaction_type;
     sm_notes := (transaction_type, quantity item) |}.

Definition header_row (transaction_id : Z) (date : string) (customer_id : Z)
    (transaction_type : string)
    (total_amount cash_received previous_credit updated_credit : Qc)
    (notes : string) : transaction :=
  {| t_id := transaction_id; t_date := date; t_customer_id := customer_id;
     t_transaction_type := transaction_type; t_total_amount := total_amount;
     t_cash_received := cash_received; t_previous_credit := previous_credit;
     t_updated_credit := updated_credit; t_notes := notes; t_synced := 0 |}.

(** TransactionLedger.record: all the effects of one transaction.
    Partner.credit_balance = updatedCredit is written to the legacy
    clients (sale) or suppliers (purchase) table when the database has
    one, to customers otherwise. *)
Definition record (conn : db) (date : string) (customer_id : Z)
    (items : list sale_item)
    (total_amount cash_received previous_credit updated_credit : Qc)
    (notes : string) (transaction_type : string) : db :=
  let transaction_id := (transactions_seq conn + 1)%Z in
  let st := apply_movements date transaction_type items
              (products conn, daily_stock conn) in
  let is_sale := bool_decide (transaction_type = "sale"%string) in
  {| products := st.1;
     products_seq := products_seq conn;
     customers :=
       if (if is_sale then bool_decide (is_Some (clients conn))
           else bool_decide (is_Some (suppliers conn)))
       then customers conn
       else alter (set_credit updated_credit) customer_id (customers conn);
     customers_seq := customers_seq conn;
     clients :=
       if is_sale
       then alter (λ _, updated_credit) customer_id <$> clients conn
       else clients conn;
     suppliers :=
       if is_sale then suppliers conn
       else alter (λ _, updated_credit) customer_id <$> suppliers conn;
     transactions :=
       transactions conn ++
       [header_row transaction_id date customer_id transaction_type
          total_amount cash_received previous_credit updated_credit notes];
     transactions_seq := transaction_id;
     transaction_items :=
       transaction_items conn ++ map (item_row transaction_id) items;
     stock_movements :=
       stock_movements conn ++
       map (movement_row date transaction_type transaction_id) items;
     daily_stock := st.2 |}.

(** The sum of item.quantity over the items of a product. *)
Definition quantity_of (p : Z) (items : list sale_item) : Qc :=
  foldr (λ item acc, if decide (product_id item = p)
                     then quantity item + acc else acc) 0 items.

(** The items of a transaction that concern one product. *)
Definition items_of (p : Z) (items : list sale_item) : list sale_item :=
  filter (λ item, product_id item = p) items.


End Store.

(** ** Runs of statements *)

Section run_spec.
Import Store.
Variable faults : nat → bool.

(** No statement among the [n] issued from the [s]-th on fails. *)
Definition no_fault (s n : nat) : bool :=
  forallb (λ i, negb (faults i)) (seq s n).

(** From the working copy [d], [m] issues [n] statements; when none of
    them fails it returns [a] and leaves [d'] as working copy, otherwise
    it raises. *)
Definition runs {A : Type} (m : Store.sql A) (d : db) (n : nat) (a : A)
    (d' : db) : Prop :=
  ∀ e, m {| executed := e; working := d |}
       = if no_fault e n
         then Ret (a, {| executed := e + n; working := d' |})
         else Raise OperationalError.

(** One item of a transaction, as [record] writes it. *)
Definition record_item (date transaction_type : string) (transaction_id : Z)
    (item : sale_item) (d : db) : db :=
  let st := apply_movement date transaction_type (products d, daily_stock d) item in
  {| products := st.1;
     products_seq := products_seq d;
     customers := customers d;
     customers_seq := customers_seq d;
     clients := clients d;
     suppliers := suppliers d;
     transactions := transactions d;
     transactions_seq := transactions_seq d;
     transaction_items := transaction_items d ++ [item_row transaction_id item];
     stock_movements :=
       stock_movements d ++ [movement_row date transaction_type transaction_id item];
     daily_stock := st.2 |}.

Definition record_items (date transaction_type : string) (transaction_id : Z)
    (items : list sale_item) (d : db) : db :=
  foldl (λ d item, record_item date transaction_type transaction_id item d)
    d items.

(** The number of statements [add_sale] issues for [items]: BEGIN, the
    header, nine per item, two for the credit balance, the commit. *)
Definition statements (items : list sale_item) : nat :=
  2 + 9 * length items + 3.

End run_spec.

(** ** Sequences of calls *)

Module History.
Import Store.

(** One call of [add_sale], with the failures its statements meet. *)
Record call : Type := {
  call_faults : nat → bool;
  call_date : string;
  call_customer_id : Z;
  call_items : list sale_item;
  call_total_amount : Qc;
  call_cash_received : Qc;
  call_previous_credit : Qc;
  call_updated_credit : Qc;
  call_notes : string;
  call_transaction_type : string }.

Definition place (conn : db) (c : call) : option Z * db :=
  add_sale (call_faults c) conn (call_date c) (call_customer_id c)
    (call_items c) (call_total_amount c) (call_cash_received c)
    (call_previous_credit c) (call_updated_credit c) (call_notes c)
    (call_transaction_type c).

(** The database after the calls, made one after the other, when each of
    them succeeds. *)
Definition replay (conn : db) (calls : list call) : option db :=
  foldl (λ state c,
           match state with
           | Some d => match place d c with
                       | (Some _, d') => Some d'
                       | (None, _) => None
                       end
           | None => None
           end)
        (Some conn) calls.







End History.

(** ** The entry forms: [EnhancedPOSApp] *)

Module App.
Import PyNum Store.

(** One row of a Treeview of items:
    [values=(product_name, quantity, f"{price:.2f}", f"{total:.2f}")].
    The quantity is handed over as a float and read back with
    [float(values[1])], which returns it unchanged. *)
Record tree_row : Type := {
  row_product_name : string;
  row_quantity : pyfloat;
  row_price : string;
  row_total : string }.

(** The variables of one entry tab.  The sales tab and the purchases tab
    have the same ones under different names: [partner_var] is
    customer_var or supplier_var, [cash_var] is cash_received_var or
    purchase_cash_paid_var, [date_entry] is the chosen date as
    [strftime("%Y-%m-%d")] prints it. *)
Record form : Type := {
  date_entry : string;
  partner_var : string;
  prev_credit_var : string;
  items_tree : list tree_row;
  total_amount_var : string;
  cash_var : string;
  updated_credit_var : string;
  new_product_var : string;
  new_quantity_var : string;
  new_price_var : string }.

Record app : Type := {
  conn : db;
  sales_tab : form;
  purchases_tab : form }.

(** The message boxes a handler opens. *)
Inductive dialog : Type :=
  | showwarning (title message : string)
  | showerror (title message : string)
  | showerror_exception (e : exn)
  | showinfo (title message : string).

Definition with_items_tree (v : list tree_row) (f : form) : form :=
  {| date_entry := date_entry f; partner_var := partner_var f;
     prev_credit_var := prev_credit_var f; items_tree := v;
     total_amount_var := total_amount_var f; cash_var := cash_var f;
     updated_credit_var := updated_credit_var f;
     new_product_var := new_product_var f;
     new_quantity_var := new_quantity_var f;
     new_price_var := new_price_var f |}.

Definition with_total_amount_var (v : string) (f : form) : form :=
  {| date_entry := date_entry f; partner_var := partner_var f;
     prev_credit_var := prev_credit_var f; items_tree := items_tree f;
     total_amount_var := v; cash_var := cash_var f;
     updated_credit_var := updated_credit_var f;
     new_product_var := new_product_var f;
     new_quantity_var := new_quantity_var f;
     new_price_var := new_price_var f |}.

Definition with_cash_var (v : string) (f : form) : form :=
  {| date_entry := date_entry f; partner_var := partner_var f;
     prev_credit_var := prev_credit_var f; items_tree := items_tree f;
     total_amount_var := total_amount_var f; cash_var := v;
     updated_credit_var := updated_credit_var f;
     new_product_var := new_product_var f;
     new_quantity_var := new_quantity_var f;
     new_price_var := new_price_var f |}.

Definition with_prev_credit_var (v : string) (f : form) : form :=
  {| date_entry := date_entry f; partner_var := partner_var f;
     prev_credit_var := v; items_tree := items_tree f;
     total_amount_var := total_amount_var f; cash_var := cash_var f;
     updated_credit_var := updated_credit_var f;
     new_product_var := new_product_var f;
     new_quantity_var := new_quantity_var f;
     new_price_var := new_price_var f |}.

Definition with_partner_var (v : string) (f : form) : form :=
  {| date_entry := date_entry f; partner_var := v;
     prev_credit_var := prev_credit_var f; items_tree := items_tree f;
     total_amount_var := total_amount_var f; cash_var := cash_var f;
     updated_credit_var := updated_credit_var f;
     new_product_var := new_product_var f;
     new_quantity_var := new_quantity_var f;
     new_price_var := new_price_var f |}.

Definition with_updated_credit_var (v : string) (f : form) : form :=
  {| date_entry := date_entry f; partner_var := partner_var f;
     prev_credit_var := prev_credit_var f; items_tree := items_tree f;
     total_amount_var := total_amount_var f; cash_var := cash_var f;
     updated_credit_var := v;
     new_product_var := new_product_var f;
     new_quantity_var := new_quantity_var f;
     new_price_var := new_price_var f |}.

Definition with_new_item_vars (product quantity price : string) (f : form)
    : form :=
  {| date_entry := date_entry f; partner_var := partner_var f;
     prev_credit_var := prev_credit_var f; items_tree := items_tree f;
     total_amount_var := total_amount_var f; cash_var := cash_var f;
     updated_credit_var := updated_credit_var f;
     new_product_var := product;
     new_quantity_var := quantity;
     new_price_var := price |}.

(** The form after a successful save: the tree is emptied and the
    variables are set back. *)
Definition cleared (f : form) : form :=
  {| date_entry := date_entry f; partner_var := "";
     prev_credit_var := "0.00"; items_tree := [];
     total_amount_var := "0.00"; cash_var := "0.00";
     updated_credit_var := "0.00";
     new_product_var := new_product_var f;
     new_quantity_var := new_quantity_var f;
     new_price_var := new_price_var f |}.

(** *** Totals *)

(** [calculate_totals]:
    updated credit = previous credit + total amount - cash received,
    shown with two decimals; a ValueError is passed over. *)
Definition calculate_totals (f : form) : res form :=
  try_except
    (res_bind (py_float (total_amount_var f)) (λ total_amount,
     res_bind (safe_float (Some (cash_var f)) (Finite 0)) (λ cash_received,
     res_bind (safe_float (Some (prev_credit_var f)) (Finite 0)) (λ previous_credit,
     let updated_credit := fsub (fadd previous_credit total_amount) cash_received in
     Ret (with_updated_credit_var (format_2f updated_credit) f)))))
    [ValueError]
    (Ret f).

(** [calculate_purchase_totals]: the same statements on the variables of
    the purchases tab (cash paid for cash received). *)
Definition calculate_purchase_totals (f : form) : res form :=
  try_except
    (res_bind (py_float (total_amount_var f)) (λ total_amount,
     res_bind (safe_float (Some (cash_var f)) (Finite 0)) (λ cash_paid,
     res_bind (safe_float (Some (prev_credit_var f)) (Finite 0)) (λ previous_credit,
     let updated_credit := fsub (fadd previous_credit total_amount) cash_paid in
     Ret (with_updated_credit_var (format_2f updated_credit) f)))))
    [ValueError]
    (Ret f).

(** [total += float(values[3])] over the rows of the tree *)
Fixpoint sum_of_totals (total : pyfloat) (rows : list tree_row) : res pyfloat :=
  match rows with
  | [] => Ret total
  | row :: rows' =>
      res_bind (py_float (row_total row)) (λ t,
      sum_of_totals (fadd total t) rows')
  end.

(** [update_sales_total] *)
Definition update_sales_total (f : form) : res form :=
  res_bind (sum_of_totals (Finite 0) (items_tree f)) (λ total,
  calculate_totals (with_total_amount_var (format_2f total) f)).

(** [update_purchase_total] *)
Definition update_purchase_total (f : form) : res form :=
  res_bind (sum_of_totals (Finite 0) (items_tree f)) (λ total,
  calculate_purchase_totals (with_total_amount_var (format_2f total) f)).

(** *** Adding an item *)

Definition input_error (message : string) : dialog :=
  showwarning "Input Error" message.

(** [add_item_inline]: the handler of the inline form of the sales tab.
    The ValueError of a text that is no number, wherever it is raised in
    the [try] block, is answered by a warning; the tree keeps the row it
    may already have received. *)
Definition add_item_inline (f : form) : res (form * list dialog) :=
  let product_name := new_product_var f in
  if bool_decide (product_name = ""%string) then
    Ret (f, [input_error "Please select a product"])
  else
    match py_float (new_quantity_var f) with
    | Raise ValueError =>
        Ret (f, [input_error "Please enter valid numbers for quantity and price"])
    | Raise e => Raise e
    | Ret quantity =>
        match py_float (new_price_var f) with
        | Raise ValueError =>
            Ret (f, [input_error "Please enter valid numbers for quantity and price"])
        | Raise e => Raise e
        | Ret price =>
            if fle_zero quantity then
              Ret (f, [input_error "Quantity must be greater than zero"])
            else
              let total := fmul quantity price in
              let f1 :=
                with_new_item_vars "" "1" "0.00"
                  (with_items_tree
                     (items_tree f ++
                      [{| row_product_name := product_name;
                          row_quantity := quantity;
                          row_price := format_2f price;
                          row_total := format_2f total |}]) f) in
              match update_sales_total f1 with
              | Ret f2 => Ret (f2, [])
              | Raise ValueError =>
                  Ret (f1, [input_error "Please enter valid numbers for quantity and price"])
              | Raise e => Raise e
              end
        end
    end.

(** [add_purchase_item_inline]: the same handler on the purchases tab. *)
Definition add_purchase_item_inline (f : form) : res (form * list dialog) :=
  let product_name := new_product_var f in
  if bool_decide (product_name = ""%string) then
    Ret (f, [input_error "Please select a product"])
  else
    match py_float (new_quantity_var f) with
    | Raise ValueError =>
        Ret (f, [input_error "Please enter valid numbers for quantity and price"])
    | Raise e => Raise e
    | Ret quantity =>
        match py_float (new_price_var f) with
        | Raise ValueError =>
            Ret (f, [input_error "Please enter valid numbers for quantity and price"])
        | Raise e => Raise e
        | Ret price =>
            if fle_zero quantity then
              Ret (f, [input_error "Quantity must be greater than zero"])
            else
              let total := fmul quantity price in
              let f1 :=
                with_new_item_vars "" "1" "0.00"
                  (with_items_tree
                     (items_tree f ++
                      [{| row_product_name := product_name;
                          row_quantity := quantity;
                          row_price := format_2f price;
                          row_total := format_2f total |}]) f) in
              match update_purchase_total f1 with
              | Ret f2 => Ret (f2, [])
              | Raise ValueError =>
                  Ret (f1, [input_error "Please enter valid numbers for quantity and price"])
              | Raise e => Raise e
              end
        end
    end.

(** The [add_item] button of [add_item_dialog], on the texts of the
    dialog's own product, quantity and price variables; [update] is
    [update_sales_total] there and [update_purchase_total] in
    [add_purchase_item_dialog]. *)
Definition add_item_dialog_with (update : form → res form)
    (product_var quantity_var price_var : string) (f : form)
    : res (form * list dialog) :=
  let product_name := product_var in
  if bool_decide (product_name = ""%string) then
    Ret (f, [input_error "Please select a product"])
  else
    match py_float quantity_var with
    | Raise ValueError =>
        Ret (f, [input_error "Please enter valid numbers for quantity and price"])
    | Raise e => Raise e
    | Ret quantity =>
        match py_float price_var with
        | Raise ValueError =>
            Ret (f, [input_error "Please enter valid numbers for quantity and price"])
        | Raise e => Raise e
        | Ret price =>
            if fle_zero quantity then
              Ret (f, [input_error "Quantity must be greater than zero"])
            else
              let total := fmul quantity price in
              let f1 :=
                with_items_tree
                  (items_tree f ++
                   [{| row_product_name := product_name;
                       row_quantity := quantity;
                       row_price := format_2f price;
                       row_total := format_2f total |}]) f in
              match update f1 with
              | Ret f2 => Ret (f2, [])
              | Raise ValueError =>
                  Ret (f1, [input_error "Please enter valid numbers for quantity and price"])
              | Raise e => Raise e
              end
        end
    end.

Definition add_item_dialog := add_item_dialog_with update_sales_total.
Definition add_purchase_item_dialog := add_item_dialog_with update_purchase_total.

(** Every row of the item list has a positive quantity. *)
Definition positive_quantities (f : form) : Prop :=
  Forall (λ row, fle_zero (row_quantity row) = false) (items_tree f).

(** *** Saving a transaction *)

(** What a save handler leaves behind: the application and the message
    boxes it opened.  [NotModelled] stands for a run in which an infinity
    or a NaN would be handed to the store, whose columns hold finite
    numbers here. *)
Inductive outcome : Type :=
  | Done (a : app) (dialogs : list dialog)
  | NotModelled.

(** The progress of the [try] block of a save handler: it goes on with
    the database [d], the [k] store methods called so far and a value,
    or it has raised, or it has left the model. *)
Inductive progress (A : Type) : Type :=
  | Next (d : db) (k : nat) (a : A)
  | Raised (d : db) (e : exn)
  | Beyond.
Arguments Next {A} d k a.
Arguments Raised {A} d e.
Arguments Beyond {A}.

Definition to_real (x : pyfloat) : option Qc :=
  match x with
  | Finite q => Some q
  | _ => None
  end.

(** "SELECT id FROM <table> WHERE name = ? [AND ...]", [fetchone()]:
    the id of a row that satisfies the condition, if there is one. *)
Definition select_id {R : Type} (condition : R → bool) (t : gmap Z R)
    : option Z :=
  fst <$> head (map_to_list (filter (λ kr, condition kr.2 = true) t)).

Section saving.
(** [plans k n]: whether the [n]-th statement of the [k]-th store method
    the handler calls fails. *)
Variable plans : nat → nat → bool.

(** One turn of the loop that prepares [items_list]: the product of the
    row is looked up by name and added when it is missing. *)
Definition resolve_item (d : db) (k : nat) (row : tree_row)
    : progress sale_item :=
  let product_name := row_product_name row in
  match py_float (row_price row) with
  | Raise e => Raised d e
  | Ret price =>
      match to_real (row_quantity row), to_real price with
      | Some quantity, Some price =>
          let named := λ r, bool_decide (p_name r = product_name) in
          match select_id named (products d) with
          | Some id =>
              Next d k {| product_id := id; quantity := quantity;
                          price := price |}
          | None =>
              let d' := (add_or_update_product (plans k) d product_name price).2 in
              match select_id named (products d') with
              | Some id =>
                  Next d' (S k) {| product_id := id; quantity := quantity;
                                   price := price |}
              | None => Raised d' TypeError
              end
          end
      | _, _ => Beyond
      end
  end.

Fixpoint resolve_items (d : db) (k : nat) (rows : list tree_row)
    (items_list : list sale_item) : progress (list sale_item) :=
  match rows with
  | [] => Next d k items_list
  | row :: rows' =>
      match resolve_item d k row with
      | Next d' k' item => resolve_items d' k' rows' (items_list ++ [item])
      | Raised d' e => Raised d' e
      | Beyond => Beyond
      end
  end.

(** The amounts a save handler reads from the variables of its tab:
    total_amount, cash, previous_credit, updated_credit. *)
Definition read_amounts (f : form)
    : res (pyfloat * pyfloat * pyfloat * pyfloat) :=
  res_bind (py_float (total_amount_var f)) (λ total_amount,
  res_bind (safe_float (Some (cash_var f)) (Finite 0)) (λ cash,
  res_bind (safe_float (Some (prev_credit_var f)) (Finite 0)) (λ previous_credit,
  res_bind (py_float (updated_credit_var f)) (λ updated_credit,
  Ret (total_amount, cash, previous_credit, updated_credit))))).

(** The partner of a tab is looked up by name ([is_partner] adds the
    condition on is_supplier of the purchases tab) and added with the
    previous credit of the form when it is missing. *)
Definition resolve_partner (is_partner : customer → bool) (is_supplier : Z)
    (d : db) (name : string) (previous_credit : Qc) : progress Z :=
  let named := λ r, bool_decide (c_name r = name) && is_partner r in
  match select_id named (customers d) with
  | Some id => Next d 0 id
  | None =>
      let d' := (add_or_update_customer (plans 0) d name "" previous_credit
                   is_supplier).2 in
      match select_id named (customers d') with
      | Some id => Next d' 1 id
      | None => Raised d' TypeError
      end
  end.

(** [save_transaction].  The upload to the remote sheet that follows a
    successful save in online mode is left to its collaborator. *)
Definition save_transaction (a : app) : outcome :=
  let f := sales_tab a in
  let customer_name := partner_var f in
  if bool_decide (customer_name = ""%string) then
    Done a [input_error "Please select a customer"]
  else if bool_decide (items_tree f = []) then
    Done a [input_error "Please add at least one item"]
  else
    match read_amounts f with
    | Raise e => Done a [showerror_exception e]
    | Ret (total_amount, cash_received, previous_credit, updated_credit) =>
        match to_real total_amount, to_real cash_received,
              to_real previous_credit, to_real updated_credit with
        | Some total_amount, Some cash_received, Some previous_credit,
          Some updated_credit =>
            match resolve_partner (λ _, true) 0 (conn a) customer_name
                    previous_credit with
            | Beyond => NotModelled
            | Raised d e =>
                Done {| conn := d; sales_tab := f;
                        purchases_tab := purchases_tab a |}
                     [showerror_exception e]
            | Next d k customer_id =>
                match resolve_items d k (items_tree f) [] with
                | Beyond => NotModelled
                | Raised d e =>
                    Done {| conn := d; sales_tab := f;
                            purchases_tab := purchases_tab a |}
                         [showerror_exception e]
                | Next d k items_list =>
                    match add_sale (plans k) d (date_entry f) customer_id
                            items_list total_amount cash_received
                            previous_credit updated_credit "" "sale" with
                    | (Some sale_id, d') =>
                        if bool_decide (sale_id ≠ 0%Z) then
                          Done {| conn := d'; sales_tab := cleared f;
                                  purchases_tab := purchases_tab a |}
                               [showinfo "Success" "Transaction saved successfully"]
                        else
                          Done {| conn := d'; sales_tab := f;
                                  purchases_tab := purchases_tab a |}
                               [showerror "Error" "Failed to save transaction. Please check the logs."]
                    | (None, d') =>
                        Done {| conn := d'; sales_tab := f;
                                purchases_tab := purchases_tab a |}
                             [showerror "Error" "Failed to save transaction. Please check the logs."]
                    end
                end
            end
        | _, _, _, _ => NotModelled
        end
    end.

(** [save_purchase_transaction] *)
Definition save_purchase_transaction (a : app) : outcome :=
  let f := purchases_tab a in
  let supplier_name := partner_var f in
  if bool_decide (supplier_name = ""%string) then
    Done a [input_error "Please select a supplier"]
  else if bool_decide (items_tree f = []) then
    Done a [input_error "Please add at least one item"]
  else
    match read_amounts f with
    | Raise e => Done a [showerror_exception e]
    | Ret (total_amount, cash_paid, previous_credit, updated_credit) =>
        match to_real total_amount, to_real cash_paid,
              to_real previous_credit, to_real updated_credit with
        | Some total_amount, Some cash_paid, Some previous_credit,
          Some updated_credit =>
            match resolve_partner (λ r, bool_decide (c_is_supplier r = 1%Z)) 1
                    (conn a) supplier_name previous_credit with
            | Beyond => NotModelled
            | Raised d e =>
                Done {| conn := d; sales_tab := sales_tab a;
                        purchases_tab := f |}
                     [showerror_exception e]
            | Next d k supplier_id =>
                match resolve_items d k (items_tree f) [] with
                | Beyond => NotModelled
                | Raised d e =>
                    Done {| conn := d; sales_tab := sales_tab a;
                            purchases_tab := f |}
                         [showerror_exception e]
                | Next d k items_list =>
                    match add_purchase (plans k) d (date_entry f) supplier_id
                            items_list total_amount cash_paid
                            previous_credit updated_credit "" with
                    | (Some purchase_id, d') =>
                        if bool_decide (purchase_id ≠ 0%Z) then
                          Done {| conn := d'; sales_tab := sales_tab a;
                                  purchases_tab := cleared f |}
                               [showinfo "Success" "Purchase transaction saved successfully"]
                        else
                          Done {| conn := d'; sales_tab := sales_tab a;
                                  purchases_tab := f |}
                               [showerror "Error" "Failed to save purchase transaction. Please check the logs."]
                    | (None, d') =>
                        Done {| conn := d'; sales_tab := sales_tab a;
                                purchases_tab := f |}
                             [showerror "Error" "Failed to save purchase transaction. Please check the logs."]
                    end
                end
            end
        | _, _, _, _ => NotModelled
        end
    end.

End saving.

(** *** Choosing a customer *)

(** "SELECT id, credit_balance FROM customers WHERE name = ?",
    [fetchone()]: the balance of the row of that name, if there is one. *)
Definition select_credit_balance (name : string) (t : gmap Z customer)
    : option Qc :=
  (λ kr, c_credit_balance kr.2)
    <$> head (map_to_list (filter (λ kr, c_name kr.2 = name) t)).

(** [update_customer_credit], bound to the choice of a customer in the
    sales tab: the previous credit shown becomes the balance of the
    customer.  The updated credit shown is left as it is. *)
Definition update_customer_credit (a : app) : app :=
  let f := sales_tab a in
  let customer_name := partner_var f in
  let shown :=
    if bool_decide (customer_name = ""%string) then "0.00"%string
    else match select_credit_balance customer_name (customers (conn a)) with
         | Some credit_balance => format_2f (Finite credit_balance)
         | None => "0.00"%string
         end in
  {| conn := conn a; sales_tab := with_prev_credit_var shown f;
     purchases_tab := purchases_tab a |}.

End App.

(** ** A small shop

    The round-trip scenario of the specification (8): product A, price
    50.00, 20 units in stock, and a second product B that is not traded. *)

Module Shop.
Import Store History.

Definition day1 : string := "2024-03-01".
Definition day2 : string := "2024-03-02".

Definition product_A : product :=
  {| p_name := "A"; p_price := Qc_of_Z 50; p_current_stock := Qc_of_Z 20;
     p_active := 1 |}.

Definition product_B : product :=
  {| p_name := "B"; p_price := Qc_of_Z 10; p_current_stock := Qc_of_Z 5;
     p_active := 1 |}.

Definition customer_C : customer :=
  {| c_name := "C"; c_contact := ""; c_credit_balance := Qc_of_Z 100;
     c_active := 1; c_is_supplier := 0 |}.

Definition opening : db :=
  {| products := {[ 1%Z := product_A; 2%Z := product_B ]};
     products_seq := 2;
     customers := {[ 1%Z := customer_C ]};
     customers_seq := 1;
     clients := None;
     suppliers := None;
     transactions := [];
     transactions_seq := 0;
     transaction_items := [];
     stock_movements := [];
     daily_stock := ∅ |}.

Definition line (p q unit_price : Z) : sale_item :=
  {| product_id := p; quantity := Qc_of_Z q; price := Qc_of_Z unit_price |}.

(** No statement fails. *)
Definition sound : nat → bool := λ _, false.

(** The statement after the header insert fails. *)
Definition fails_after_header : nat → bool := λ n, bool_decide (n = 2%nat).

(** A purchase of 10 units of A at 45.00 on [day1]. *)
Definition after_purchase : option Z * db :=
  add_purchase sound opening day1 1 [line 1 10 45]
    (Qc_of_Z 450) (Qc_of_Z 450) 0 0 "".

(** Then a sale of 5 units of A at 50.00 on the same day. *)
Definition after_sale : option Z * db :=
  add_sale sound after_purchase.2 day1 1 [line 1 5 50]
    (Qc_of_Z 250) (Qc_of_Z 200) (Qc_of_Z 100) (Qc_of_Z 150) "" "sale".

(** The cursor of that sale before and after its only item. *)
Definition item_next : cursor :=
  {| executed := 2;
     working := (insert_transaction day1 1 "sale" (Qc_of_Z 250) (Qc_of_Z 200)
                   (Qc_of_Z 100) (Qc_of_Z 150) "" after_purchase.2).2 |}.

Definition item_done : cursor :=
  {| executed := 11;
     working := record_item day1 "sale" 2 (line 1 5 50) (working item_next) |}.

(** A sale with product A on two lines (2 and 3 units) around a line of
    B, and the same sale with A on one line of 5 units. *)
Definition twice : option Z * db :=
  add_sale sound opening day1 1 [line 1 2 50; line 2 1 10; line 1 3 50]
    (Qc_of_Z 260) (Qc_of_Z 260) 0 0 "" "sale".


(** The same transactions as calls, and a sale of 3 units of A on the
    next day. *)
Definition purchase_day1 : call :=
  {| call_faults := sound; call_date := day1; call_customer_id := 1;
     call_items := [line 1 10 45];
     call_total_amount := Qc_of_Z 450; call_cash_received := Qc_of_Z 450;
     call_previous_credit := 0; call_updated_credit := 0;
     call_notes := ""; call_transaction_type := "purchase" |}.

Definition sale_day1 : call :=
  {| call_faults := sound; call_date := day1; call_customer_id := 1;
     call_items := [line 1 5 50];
     call_total_amount := Qc_of_Z 250; call_cash_received := Qc_of_Z 200;
     call_previous_credit := Qc_of_Z 100; call_updated_credit := Qc_of_Z 150;
     call_notes := ""; call_transaction_type := "sale" |}.

Definition sale_day2 : call :=
  {| call_faults := sound; call_date := day2; call_customer_id := 1;
     call_items := [line 1 3 50];
     call_total_amount := Qc_of_Z 150; call_cash_received := Qc_of_Z 150;
     call_previous_credit := 0; call_updated_credit := 0;
     call_notes := ""; call_transaction_type := "sale" |}.

(** Calls in date order, and calls of which the last is back-dated. *)
Definition in_order : list call := [purchase_day1; sale_day1; sale_day2].
Definition back_dated : list call := [purchase_day1; sale_day2; sale_day1].

Definition back_dated_db : db := default opening (replay opening back_dated).


Definition in_order_db : db := default opening (replay opening in_order).

(** Customer C is entered again by name, with the default balance, after
    the sale that left its balance at 150. *)
Definition reentered : bool * db :=
  add_or_update_customer_default sound after_sale.2 "C".

End Shop.

(** ** At the till

    The credit example of the specification on the sales tab: customer C
    owes 100.00, buys 5 units of A for 250.00 and pays 200.00. *)

Module Till.
Import PyNum Store App.

(** No statement of any store method fails. *)
Definition sound : nat → nat → bool := λ _ _, false.

Definition five_of_A : tree_row :=
  {| row_product_name := "A"; row_quantity := Finite (Qc_of_Z 5);
     row_price := "50.00"; row_total := "250.00" |}.

(** The form after the item was added and before the cash is typed. *)
Definition entry : form :=
  {| date_entry := Shop.day1; partner_var := "C";
     prev_credit_var := "100.00"; items_tree := [five_of_A];
     total_amount_var := "250.00"; cash_var := "0.00";
     updated_credit_var := "350.00";
     new_product_var := ""; new_quantity_var := ""; new_price_var := "" |}.

(** The cash typed: 200.00, and 200.001. *)
Definition paid : form := with_cash_var "200.00" entry.

Definition blank : form := cleared entry.

(** A line of minus two units in the inline entries. *)
Definition minus_two : form := with_new_item_vars "A" "-2" "50" entry.

Definition till (f : form) : app :=
  {| conn := Shop.after_purchase.2; sales_tab := f; purchases_tab := f |}.

(** What [calculate_totals] leaves behind, the form itself when it
    raises. *)
Definition totalled (f : form) : form :=
  match calculate_totals f with
  | Ret f' => f'
  | Raise _ => f
  end.

(** The application after a save, unchanged when the run leaves the
    model. *)
Definition saved (a : app) : app :=
  match save_transaction sound a with
  | Done a' _ => a'
  | NotModelled => a
  end.

(** A second customer D, who owes nothing, chosen after the totals of C
    were computed. *)
Definition customer_D : customer :=
  {| c_name := "D"; c_contact := ""; c_credit_balance := 0;
     c_active := 1; c_is_supplier := 0 |}.

Definition two_customers : db :=
  with_customers (<[ 2%Z := customer_D ]> (customers Shop.after_purchase.2))
    Shop.after_purchase.2.

Definition rechosen : app :=
  update_customer_credit
    {| conn := two_customers;
       sales_tab := with_partner_var "D" (totalled paid);
       purchases_tab := blank |}.

End Till.

(** ** Master data and the shape of the ledger *)

Module Catalog.
Import PyNum Store App.

(** [get_all_products]: "SELECT * FROM products WHERE active = 1", the
    fetched rows by id. *)
Definition get_all_products (conn : db) : gmap Z product :=
  filter (λ kr, p_active kr.2 = 1%Z) (products conn).

(** [get_all_customers]: "SELECT * FROM customers WHERE active = 1 AND
    is_supplier = 0" *)
Definition get_all_customers (conn : db) : gmap Z customer :=
  filter (λ kr, c_active kr.2 = 1%Z ∧ c_is_supplier kr.2 = 0%Z)
    (customers conn).

(** [get_all_suppliers]: "SELECT * FROM customers WHERE active = 1 AND
    is_supplier = 1" *)
Definition get_all_suppliers (conn : db) : gmap Z customer :=
  filter (λ kr, c_active kr.2 = 1%Z ∧ c_is_supplier kr.2 = 1%Z)
    (customers conn).

(** "UPDATE products SET active = 0 WHERE id = ?" *)
Definition deactivate_product (product_id : Z) (d : db) : () * db :=
  (tt, with_products
         (alter (λ r, {| p_name := p_name r; p_price := p_price r;
                         p_current_stock := p_current_stock r;
                         p_active := 0 |})
            product_id (products d)) d).

(** [delete_product] of the products manager: [selected] is the id of
    the row chosen in the list, [confirmed] the answer to the question
    box.  The statement and its commit are one step; an exception is
    shown in an error box. *)
Definition delete_product (faults : nat → bool) (conn : db)
    (selected : option Z) (confirmed : bool) : db * list dialog :=
  match selected with
  | None =>
      (conn, [showwarning "Selection Required"
                "Please select a product to delete"])
  | Some product_id =>
      if confirmed then
        match execute faults (deactivate_product product_id)
                {| executed := 0; working := conn |} with
        | Ret (_, c) => (working c, [])
        | Raise e => (conn, [showerror_exception e])
        end
      else (conn, [])
  end.

(** [do_add] of the "Add Product" dialog of the products manager, on the
    texts of its two entries.  None stands for a run in which an infinite
    price would be handed to the store. *)
Definition add_product (faults : nat → bool) (conn : db)
    (name_var price_var : string) : option (db * list dialog) :=
  let name := strip name_var in
  match safe_float (Some price_var) (Finite 0) with
  | Raise e => Some (conn, [showerror_exception e])
  | Ret price =>
      if bool_decide (name = ""%string) then
        Some (conn, [input_error "Please enter a product name"])
      else
        match to_real price with
        | None => None
        | Some price =>
            match add_or_update_product faults conn name price with
            | (true, conn') => Some (conn', [])
            | (false, conn') =>
                Some (conn', [showerror "Error" "Failed to add product"])
            end
        end
  end.

(** "SELECT id, credit_balance FROM customers WHERE name = ? AND
    is_supplier = 1", [fetchone()] *)
Definition select_supplier_credit_balance (name : string)
    (t : gmap Z customer) : option Qc :=
  (λ kr, c_credit_balance kr.2)
    <$> head (map_to_list
                (filter (λ kr, c_name kr.2 = name ∧ c_is_supplier kr.2 = 1%Z)
                   t)).

(** [update_supplier_credit], bound to the choice of a supplier in the
    purchases tab. *)
Definition update_supplier_credit (a : app) : app :=
  let f := purchases_tab a in
  let supplier_name := partner_var f in
  let shown :=
    if bool_decide (supplier_name = ""%string) then "0.00"%string
    else match select_supplier_credit_balance supplier_name
                 (customers (conn a)) with
         | Some credit_balance => format_2f (Finite credit_balance)
         | None => "0.00"%string
         end in
  {| conn := conn a; sales_tab := sales_tab a;
     purchases_tab := with_prev_credit_var shown f |}.

(** *** The shape of the ledger *)

(** The transactions are listed by increasing id, and no id is beyond
    the AUTOINCREMENT counter. *)
Definition ids_in_order (d : db) : Prop :=
  (∀ i j t t', (i < j)%nat → transactions d !! i = Some t →
               transactions d !! j = Some t' → (t_id t < t_id t')%Z)
  ∧ Forall (λ t, (t_id t <= transactions_seq d)%Z) (transactions d).

(** Every row of transaction_items and of stock_movements refers to a
    row of transactions. *)
Definition rows_refer (d : db) : Prop :=
  Forall (λ i, ti_transaction_id i ∈ t_id <$> transactions d)
    (transaction_items d)
  ∧ Forall (λ m, sm_transaction_id m ∈ t_id <$> transactions d)
      (stock_movements d).


(** The ledger tables of [d'] are those of [d]: nothing was recorded. *)
Definition same_ledger (d d' : db) : Prop :=
  transactions d' = transactions d
  ∧ transactions_seq d' = transactions_seq d
  ∧ transaction_items d' = transaction_items d
  ∧ stock_movements d' = stock_movements d
  ∧ daily_stock d' = daily_stock d
  ∧ clients d' = clients d
  ∧ suppliers d' = suppliers d.


End Catalog.

(** ** More scenes at the till *)

Module Scenes.
Import PyNum Store App.

(** The purchases tab filled in like the sales tab of [Till.paid], under
    the name of customer C, and what its save handler leaves. *)
Definition purchase_entered : app := Till.till (Till.totalled Till.paid).

Definition purchase_saved : app :=
  match save_purchase_transaction Till.sound purchase_entered with
  | Done a' _ => a'
  | NotModelled => purchase_entered
  end.

Definition purchase_dialogs : list dialog :=
  match save_purchase_transaction Till.sound purchase_entered with
  | Done _ dialogs => dialogs
  | NotModelled => []
  end.



(** The shop after its purchase, in a database that still has the
    legacy clients table, and the sale of five units of A there. *)
Definition legacy_shop : db := with_clients (Some ∅) Shop.after_purchase.2.

Definition legacy_sale : option Z * db :=
  add_sale Shop.sound legacy_shop Shop.day1 1 [Shop.line 1 5 50]
    (Qc_of_Z 250) (Qc_of_Z 200) (Qc_of_Z 100) (Qc_of_Z 150) "" "sale".

(** Customer C, who owes 150 after the sale, chosen in the purchases
    tab. *)
Definition customer_chosen : app :=
  {| conn := Shop.after_sale.2; sales_tab := Till.blank;
     purchases_tab := with_partner_var "C" Till.blank |}.

End Scenes.

(** ** The daily detail queries *)

Module Reports.
Import PyNum Store.

(** One entry of 'items': product_id, product_name, quantity, price.
    The name is NULL when the LEFT JOIN finds no product. *)
Record detail_item : Type := {
  di_product_id : Z;
  di_product_name : option string;
  di_quantity : Qc;
  di_price : Qc }.

(** One element of the returned list: the dict of a sale or of a
    purchase ('customer_name' or 'supplier_name', 'cash_received' or
    'cash_paid'). *)
Record detail : Type := {
  dt_id : Z;
  dt_date : string;
  dt_partner_name : option string;
  dt_total_amount : Qc;
  dt_cash : Qc;
  dt_previous_credit : Qc;
  dt_updated_credit : Qc;
  dt_notes : string;
  dt_items : list detail_item }.

(** One fetched row of the join: the columns of the transaction, the
    name of the partner, and the columns of one item, NULL when the
    transaction has none. *)
Record fetched : Type := {
  f_transaction : transaction;
  f_partner_name : option string;
  f_item : option detail_item }.

#[global] Instance detail_item_eq_dec : EqDecision detail_item.
Proof. solve_decision. Defined.
#[global] Instance detail_eq_dec : EqDecision detail.
Proof. solve_decision. Defined.

(** "ORDER BY t.id": insertion into a list ordered by id, after the rows
    of the same id. *)
Fixpoint insert_by_id (t : transaction) (ts : list transaction)
    : list transaction :=
  match ts with
  | [] => [t]
  | t' :: ts' =>
      if decide (t_id t < t_id t')%Z then t :: ts
      else t' :: insert_by_id t ts'
  end.

Definition by_id (ts : list transaction) : list transaction :=
  foldr insert_by_id [] (reverse ts).

(** "LEFT JOIN transaction_items ti ON t.id = ti.transaction_id
     LEFT JOIN products p ON ti.product_id = p.id", in the order of
    ti.id. *)
Definition items_of_transaction (d : db) (id : Z) : list detail_item :=
  (λ ti, {| di_product_id := ti_product_id ti;
            di_product_name := p_name <$> products d !! ti_product_id ti;
            di_quantity := ti_quantity ti;
            di_price := ti_unit_price ti |})
    <$> filter (λ ti, ti_transaction_id ti = id) (transaction_items d).

Definition joined (partner_name : Z → option string) (d : db)
    (t : transaction) : list fetched :=
  match items_of_transaction d (t_id t) with
  | [] => [{| f_transaction := t;
              f_partner_name := partner_name (t_customer_id t);
              f_item := None |}]
  | items =>
      (λ item, {| f_transaction := t;
                  f_partner_name := partner_name (t_customer_id t);
                  f_item := Some item |}) <$> items
  end.

(** The detail query for one kind of transaction:
    "... WHERE t.date = ? AND t.transaction_type = ? ORDER BY t.id, ti.id".
    id is the PRIMARY KEY of transactions, so the rows of one id are
    those of one transaction, in the order of its items. *)
Definition select_details (partner_name : Z → option string) (d : db)
    (date kind : string) : list fetched :=
  t ← by_id (filter (λ t, t_date t = date ∧ t_transaction_type t = kind)
               (transactions d));
  joined partner_name d t.

(** [sales[sale_id] = {..., 'items': []}] *)
Definition detail_of_row (row : fetched) : detail :=
  let t := f_transaction row in
  {| dt_id := t_id t; dt_date := t_date t;
     dt_partner_name := f_partner_name row;
     dt_total_amount := t_total_amount t; dt_cash := t_cash_received t;
     dt_previous_credit := t_previous_credit t;
     dt_updated_credit := t_updated_credit t; dt_notes := t_notes t;
     dt_items := [] |}.

(** [sales[sale_id]['items'].append(item)] on the dict as a list of
    entries in insertion order. *)
Fixpoint append_item (sale_id : Z) (item : detail_item)
    (sales : list (Z * detail)) : list (Z * detail) :=
  match sales with
  | [] => []
  | (k, s) :: rest =>
      if decide (k = sale_id) then
        (k, {| dt_id := dt_id s; dt_date := dt_date s;
               dt_partner_name := dt_partner_name s;
               dt_total_amount := dt_total_amount s; dt_cash := dt_cash s;
               dt_previous_credit := dt_previous_credit s;
               dt_updated_credit := dt_updated_credit s;
               dt_notes := dt_notes s;
               dt_items := dt_items s ++ [item] |}) :: rest
      else (k, s) :: append_item sale_id item rest
  end.

(** The body of [for row in cursor.fetchall()]; [if row['product_id']]
    passes over NULL and over 0. *)
Definition collect (sales : list (Z * detail)) (row : fetched)
    : list (Z * detail) :=
  let sale_id := t_id (f_transaction row) in
  let sales :=
    if decide (sale_id ∈ sales.*1) then sales
    else sales ++ [(sale_id, detail_of_row row)] in
  match f_item row with
  | Some item =>
      if decide (di_product_id item = 0%Z) then sales
      else append_item sale_id item sales
  | None => sales
  end.

(** [list(sales.values())] *)
Definition details (rows : list fetched) : list detail :=
  (foldl collect [] rows).*2.

(** [get_daily_sales_detail].  With the transactions table the query
    joins the legacy clients table, whose name column by id is
    [client_name]; SQLite raises OperationalError ("no such table") when
    the database has no such table.  Without the transactions table the
    query reads the views and joins customers. *)
Definition get_daily_sales_detail (client_name : Z → option string)
    (conn : db) (date : string) : res (list detail) :=
  if table_exists "transactions" conn then
    match clients conn with
    | Some _ => Ret (details (select_details client_name conn date "sale"))
    | None => Raise OperationalError
    end
  else
    Ret (details (select_details (λ id, c_name <$> customers conn !! id)
                    conn date "sale")).

(** [get_daily_purchases_detail]: the same on the purchases, with the
    legacy suppliers table. *)
Definition get_daily_purchases_detail (supplier_name : Z → option string)
    (conn : db) (date : string) : res (list detail) :=
  if table_exists "transactions" conn then
    match suppliers conn with
    | Some _ =>
        Ret (details (select_details supplier_name conn date "purchase"))
    | None => Raise OperationalError
    end
  else
    Ret (details (select_details (λ id, c_name <$> customers conn !! id)
                    conn date "purchase")).

(** [get_daily_sales]: "SELECT t.*, c.name as customer_name FROM
    transactions t LEFT JOIN clients c ON t.customer_id = c.id
    WHERE t.date = ? AND t.transaction_type = 'sale'", or the rows of the
    sales view of the date joined to customers. *)
Definition get_daily_sales (client_name : Z → option string) (conn : db)
    (date : string) : res (list (transaction * option string)) :=
  if table_exists "transactions" conn then
    match clients conn with
    | Some _ =>
        Ret ((λ t, (t, client_name (t_customer_id t)))
               <$> filter (λ t, t_date t = date
                                ∧ t_transaction_type t = "sale"%string)
                     (transactions conn))
    | None => Raise OperationalError
    end
  else
    Ret ((λ t, (t, c_name <$> customers conn !! t_customer_id t))
           <$> filter (λ t, t_date t = date) (transactions conn)).

End Reports.

(** ** Rows for the remote sheet: [GoogleSheetsManager] *)

Module Sheets.
Import PyNum Store Reports.

(** A value appended to [row_data]: a str, a number or None. *)
Inductive cell : Type :=
  | CText (s : string)
  | CNumber (q : Qc)
  | CNone.

#[global] Instance cell_eq_dec : EqDecision cell.
Proof. solve_decision. Defined.

(** [", ".join(texts)] *)
Fixpoint join_comma (texts : list string) : string :=
  match texts with
  | [] => ""
  | [text] => text
  | text :: rest => text +:+ ", " +:+ join_comma rest
  end.

Section rows.
(** [str(x)] of a float, as an f-string prints a quantity. *)
Variable str_float : Qc → string.

(** [f"{item['product_name']}"]: the name, or the text of None. *)
Definition name_text (name : option string) : string :=
  match name with
  | Some s => s
  | None => "None"
  end.

(** The text of the "Extra" column. *)
Definition items_str (items : list detail_item) : string :=
  join_comma
    ((λ item, name_text (di_product_name item) +:+ ": "
              +:+ str_float (di_quantity item)) <$> items).

(** The loop over the items for a header that may be a product column:
    the quantity of the first item of that name, "" when there is
    none. *)
Fixpoint product_column (header : string) (items : list detail_item) : cell :=
  match items with
  | [] => CText ""
  | item :: rest =>
      if decide (di_product_name item = Some header)
      then CNumber (di_quantity item)
      else product_column header rest
  end.

Definition name_cell (name : option string) : cell :=
  match name with
  | Some s => CText s
  | None => CNone
  end.

(** The body of [for header in header_row] of [_convert_sale_to_row]. *)
Definition sale_cell (sale : detail) (header : string) : cell :=
  if decide (header = "Customer Name"%string) then
    name_cell (dt_partner_name sale)
  else if decide (header = "Total Amount for"%string) then
    CNumber (dt_total_amount sale)
  else if decide (header = "Previous Credit"%string) then
    CNumber (dt_previous_credit sale)
  else if decide (header = "Cash Received"%string) then
    CNumber (dt_cash sale)
  else if decide (header = "Updated Credit Balance"%string) then
    CNumber (dt_updated_credit sale)
  else if decide (header = "Extra"%string) then
    CText (items_str (dt_items sale))
  else product_column header (dt_items sale).

(** [_convert_sale_to_row(sale, header_row)], for a dict as
    [get_daily_sales_detail] builds it (every key is present). *)
Definition _convert_sale_to_row (sale : detail) (header_row : list string)
    : list cell :=
  sale_cell sale <$> header_row.

(** The body of the loop of [_convert_purchase_to_row]. *)
Definition purchase_cell (purchase : detail) (header : string) : cell :=
  if decide (header = "Supplier Name"%string) then
    name_cell (dt_partner_name purchase)
  else if decide (header = "Total Amount for"%string) then
    CNumber (dt_total_amount purchase)
  else if decide (header = "Previous Credit"%string) then
    CNumber (dt_previous_credit purchase)
  else if decide (header = "Cash Paid"%string) then
    CNumber (dt_cash purchase)
  else if decide (header = "Updated Credit Balance"%string) then
    CNumber (dt_updated_credit purchase)
  else if decide (header = "Extra"%string) then
    CText (items_str (dt_items purchase))
  else product_column header (dt_items purchase).

(** [_convert_purchase_to_row(purchase, header_row)] *)
Definition _convert_purchase_to_row (purchase : detail)
    (header_row : list string) : list cell :=
  purchase_cell purchase <$> header_row.

End rows.

(** The header row of the sales that [save_transaction] and
    [sync_with_sheets] pass. *)
Definition sales_header : list string :=
  ["Customer Name"; "Total Amount for"; "Previous Credit"; "Cash Received";
   "Updated Credit Balance"; "Extra"].

End Sheets.

(** ** A sale of product A on two lines, as the detail query returns it *)

Module Exported.
Import Store Reports.

Definition line_of_A (q : Z) : detail_item :=
  {| di_product_id := 1; di_product_name := Some "A"%string;
     di_quantity := Qc_of_Z q; di_price := Qc_of_Z 50 |}.

Definition two_lines : detail :=
  {| dt_id := 1; dt_date := Shop.day1; dt_partner_name := Some "C"%string;
     dt_total_amount := Qc_of_Z 250; dt_cash := Qc_of_Z 200;
     dt_previous_credit := Qc_of_Z 100; dt_updated_credit := Qc_of_Z 150;
     dt_notes := ""; dt_items := [line_of_A 2; line_of_A 3] |}.

End Exported.

(** * Properties *)

(** Closed goals over rationals are decided by evaluation. *)
Ltac splits := repeat match goal with |- _ ∧ _ => split end.

Ltac by_compute :=
  match goal with
  | |- ?P => apply (bool_decide_unpack P); vm_compute; exact I
  end.

(** ** Runs of statements *)

Section runs.
Import Store.
Variable faults : nat → bool.

Lemma no_fault_add s n1 n2 :
  no_fault faults s (n1 + n2) = no_fault faults s n1 && no_fault faults (s + n1) n2.
Proof. unfold no_fault. by rewrite seq_app, forallb_app. Qed.

Lemma runs_ret {A : Type} (a : A) d : runs faults (sql_ret a) d 0 a d.
Proof. intros e. unfold sql_ret, no_fault. simpl. by rewrite Nat.add_0_r. Qed.

Lemma runs_execute {A : Type} (stmt : db → A * db) d :
  runs faults (execute faults stmt) d 1 (stmt d).1 (stmt d).2.
Proof.
  intros e. unfold execute, no_fault. simpl.
  destruct (faults e); simpl; [done|].
  destruct (stmt d) as [a d']. simpl. by rewrite Nat.add_1_r.
Qed.

Lemma runs_query {A : Type} (q : db → A) d :
  runs faults (query faults q) d 1 (q d) d.
Proof. apply (runs_execute (λ d, (q d, d))). Qed.

Lemma runs_bind {A B : Type} (m : sql A) (k : A → sql B) d n1 a d1 n2 b d2 :
  runs faults m d n1 a d1 →
  runs faults (k a) d1 n2 b d2 →
  runs faults (sql_bind m k) d (n1 + n2) b d2.
Proof.
  intros Hm Hk e. unfold sql_bind. rewrite Hm, no_fault_add.
  destruct (no_fault faults e n1); simpl; [|done].
  rewrite Hk. by rewrite Nat.add_assoc.
Qed.

Lemma runs_eq {A : Type} (m : sql A) d n n' a a' d1 d1' :
  runs faults m d n a d1 → n = n' → a = a' → d1 = d1' →
  runs faults m d n' a' d1'.
Proof. by intros Hm <- <- <-. Qed.

Lemma alter_lookup_insert {K : Type} `{Countable K} {V : Type} (f : V → V)
    (k : K) (m : gmap K V) (r : V) :
  m !! k = Some r → alter f k m = <[k := f r]> m.
Proof.
  intros Hk. apply map_eq. intros j. rewrite lookup_alter, lookup_insert.
  destruct (decide (k = j)) as [->|]; [by rewrite Hk|done].
Qed.

Lemma table_exists_stock_movements d : table_exists "stock_movements" d = true.
Proof. reflexivity. Qed.

Lemma table_exists_daily_stock d : table_exists "daily_stock" d = true.
Proof. reflexivity. Qed.

Lemma current_stock_in_columns d :
  bool_decide ("current_stock"%string ∈ products_columns d) = true.
Proof. reflexivity. Qed.

Ltac run_step :=
  first [ eapply runs_bind; [apply runs_execute|]
        | eapply runs_bind; [apply runs_query|]
        | apply runs_execute
        | apply runs_query
        | apply runs_ret ];
  cbn [fst snd].

Lemma runs_add_sale_item date transaction_type transaction_id item d :
  runs faults (add_sale_item faults date transaction_type transaction_id item)
    d 9 () (record_item date transaction_type transaction_id item d).
Proof.
  unfold add_sale_item, record_item, apply_movement, StockTracker_apply,
    tracked_row, movement_row, signed_delta.
  destruct (decide (transaction_type = "sale"%string)) as [Hs|Hs].
  all: rewrite ?(bool_decide_eq_true_2 _ Hs), ?(bool_decide_eq_false_2 _ Hs).
  all: destruct (daily_stock d !! (date, product_id item)) as [row|] eqn:Hrow.
  all: eapply runs_eq;
    [ run_step; run_step; run_step; rewrite table_exists_stock_movements;
      run_step; run_step; rewrite table_exists_daily_stock;
      (eapply runs_bind;
        [ run_step; unfold select_daily_stock; simpl; rewrite Hrow;
          apply runs_execute |]);
      run_step; rewrite current_stock_in_columns; apply runs_execute
    | done | done | ].
  all: unfold update_current_stock, update_daily_sales, update_daily_purchases,
         insert_daily_stock, with_products, with_daily_stock, stock_of,
         select_current_stock; simpl.
  all: rewrite ?(alter_lookup_insert _ _ _ _ Hrow), ?Hrow.
  all: destruct (products d !! product_id item) as [r|]; reflexivity.
Qed.

Lemma runs_for_each date transaction_type transaction_id items d :
  runs faults
    (for_each items (add_sale_item faults date transaction_type transaction_id))
    d (9 * length items) ()
    (record_items date transaction_type transaction_id items d).
Proof.
  revert d. induction items as [|item items IH]; intros d.
  - apply runs_ret.
  - simpl for_each. eapply runs_eq.
    + eapply runs_bind; [apply runs_add_sale_item|apply IH].
    + simpl. lia.
    + done.
    + done.
Qed.

Lemma record_items_tables date transaction_type transaction_id items d :
  record_items date transaction_type transaction_id items d
  = {| products :=
         (apply_movements date transaction_type items
            (products d, daily_stock d)).1;
       products_seq := products_seq d;
       customers := customers d;
       customers_seq := customers_seq d;
       clients := clients d;
       suppliers := suppliers d;
       transactions := transactions d;
       transactions_seq := transactions_seq d;
       transaction_items :=
         transaction_items d ++ map (item_row transaction_id) items;
       stock_movements :=
         stock_movements d ++
         map (movement_row date transaction_type transaction_id) items;
       daily_stock :=
         (apply_movements date transaction_type items
            (products d, daily_stock d)).2 |}.
Proof.
  revert d. induction items as [|item items IH]; intros d.
  - destruct d. simpl. by rewrite !app_nil_r.
  - unfold record_items, apply_movements in *. simpl foldl. rewrite IH.
    unfold record_item. simpl.
    rewrite <- !app_assoc. reflexivity.
Qed.

Lemma runs_add_sale_try date customer_id items total_amount cash_received
    previous_credit updated_credit notes transaction_type d :
  runs faults
    (add_sale_try faults date customer_id items total_amount cash_received
       previous_credit updated_credit notes transaction_type)
    d (statements items) (transactions_seq d + 1)%Z
    (record d date customer_id items total_amount cash_received
       previous_credit updated_credit notes transaction_type).
Proof.
  unfold add_sale_try, statements, record.
  destruct (decide (transaction_type = "sale"%string)) as [Hs|Hs].
  all: rewrite ?(bool_decide_eq_true_2 _ Hs), ?(bool_decide_eq_false_2 _ Hs).
  all: destruct (clients d) as [cl|] eqn:Hcl;
       destruct (suppliers d) as [su|] eqn:Hsu.
  all: eapply runs_eq;
    [ run_step; run_step;
      (eapply runs_bind; [apply runs_for_each|]);
      (eapply runs_bind;
        [ run_step; rewrite record_items_tables;
          unfold table_exists, insert_transaction, with_transactions;
          simpl; rewrite ?Hcl, ?Hsu; simpl; apply runs_execute |]);
      run_step; apply runs_ret
    | simpl; lia | done | ].
  all: rewrite ?record_items_tables; simpl; rewrite ?Hcl, ?Hsu; reflexivity.
Qed.

(** [add_sale] either commits everything [record] writes and returns the
    new transaction id, or, as soon as one statement fails, rolls back to
    the database it started from and returns None. *)
Lemma add_sale_run conn date customer_id items total_amount cash_received
    previous_credit updated_credit notes transaction_type :
  add_sale faults conn date customer_id items total_amount cash_received
    previous_credit updated_credit notes transaction_type
  = if no_fault faults 0 (statements items)
    then (Some (transactions_seq conn + 1)%Z,
          record conn date customer_id items total_amount cash_received
            previous_credit updated_credit notes transaction_type)
    else (None, conn).
Proof.
  unfold add_sale. rewrite runs_add_sale_try.
  by destruct (no_fault faults 0 (statements items)).
Qed.

End runs.

(** ** Stock levels *)

Section stock.
Import Store.

Lemma signed_delta_add transaction_type a b :
  signed_delta transaction_type (a + b)
  = signed_delta transaction_type a + signed_delta transaction_type b.
Proof. unfold signed_delta. case_decide; ring. Qed.

Lemma signed_delta_0 transaction_type : signed_delta transaction_type 0 = 0.
Proof. unfold signed_delta. case_decide; ring. Qed.

Lemma apply_movements_cons date transaction_type item items st :
  apply_movements date transaction_type (item :: items) st
  = apply_movements date transaction_type items
      (apply_movement date transaction_type st item).
Proof. reflexivity. Qed.

Lemma apply_movements_app date transaction_type items1 items2 st :
  apply_movements date transaction_type (items1 ++ items2) st
  = apply_movements date transaction_type items2
      (apply_movements date transaction_type items1 st).
Proof. apply foldl_app. Qed.

Lemma apply_movement_products date transaction_type st item p :
  (apply_movement date transaction_type st item).1 !! p
  = if decide (product_id item = p)
    then set_stock (stock_of st.1 p
                    + signed_delta transaction_type (quantity item))
         <$> st.1 !! p
    else st.1 !! p.
Proof.
  unfold apply_movement. simpl. rewrite lookup_alter.
  case_decide; by subst.
Qed.

(** Name, price and active flag of a product never change, and its stock
    moves by the signed sum of the quantities of its items. *)
Lemma apply_movements_products date transaction_type items st p r :
  st.1 !! p = Some r →
  ∃ r', (apply_movements date transaction_type items st).1 !! p = Some r'
        ∧ p_name r' = p_name r ∧ p_price r' = p_price r
        ∧ p_active r' = p_active r
        ∧ p_current_stock r'
          = p_current_stock r
            + signed_delta transaction_type (quantity_of p items).
Proof.
  revert st r. induction items as [|item items IH]; intros st r Hr.
  - exists r. simpl. rewrite signed_delta_0. repeat split; [done|ring].
  - rewrite apply_movements_cons.
    pose proof (apply_movement_products date transaction_type st item p) as Hstep.
    simpl quantity_of. destruct (decide (product_id item = p)) as [Hp|Hp].
    + unfold stock_of in Hstep. rewrite Hr in Hstep. simpl in Hstep.
      destruct (IH (apply_movement date transaction_type st item) _ Hstep)
        as (r' & Hr' & Hn & Hpr & Ha & Hs).
      exists r'. repeat split; try done.
      rewrite Hs, signed_delta_add. simpl. ring.
    + rewrite Hr in Hstep.
      destruct (IH (apply_movement date transaction_type st item) _ Hstep)
        as (r' & Hr' & Hn & Hpr & Ha & Hs).
      by exists r'.
Qed.

Lemma apply_movements_products_None date transaction_type items st p :
  st.1 !! p = None →
  (apply_movements date transaction_type items st).1 !! p = None.
Proof.
  revert st. induction items as [|item items IH]; intros st Hp; [done|].
  rewrite apply_movements_cons. apply IH.
  rewrite apply_movement_products, Hp. by case_decide.
Qed.

Lemma apply_movement_daily date transaction_type st item k :
  (apply_movement date transaction_type st item).2 !! k
  = if decide ((date, product_id item) = k)
    then Some (tracked_row transaction_type (quantity item)
                 (stock_of st.1 (product_id item))
                 (stock_of st.1 (product_id item)
                  + signed_delta transaction_type (quantity item))
                 (st.2 !! k))
    else st.2 !! k.
Proof.
  unfold apply_movement, StockTracker_apply. simpl. rewrite lookup_insert.
  case_decide; by subst.
Qed.








Lemma items_of_app p items1 items2 :
  items_of p (items1 ++ items2) = items_of p items1 ++ items_of p items2.
Proof. apply filter_app. Qed.


Section combine.
Variables (date transaction_type : string).
Variables (l1 l2 l3 : list sale_item) (a b ab : sale_item).
Hypothesis Hb : product_id b = product_id a.
Hypothesis Hab : product_id ab = product_id a.
Hypothesis Hq : quantity ab = quantity a + quantity b.



Lemma combine_touched p :
  p ∈ product_id <$> (l1 ++ a :: l2 ++ b :: l3)
  ↔ p ∈ product_id <$> (l1 ++ ab :: l2 ++ l3).
Proof.
  rewrite !fmap_app, !fmap_cons, !fmap_app, !fmap_cons, Hb, Hab.
  set_solver.
Qed.


End combine.

End stock.

(** ** The transaction ledger *)

Section ledger.
Import Store.

(** The round trip of the specification (8): stock 20, purchase of 10,
    sale of 5 on the same day. *)
Example round_trip :
  Shop.after_purchase.1 = Some 1%Z
  ∧ products Shop.after_purchase.2 !! 1%Z
    = Some (set_stock (Qc_of_Z 30) Shop.product_A)
  ∧ daily_stock Shop.after_purchase.2 !! (Shop.day1, 1%Z)
    = Some {| ds_opening_stock := Qc_of_Z 20; ds_purchases := Qc_of_Z 10;
              ds_sales := 0; ds_adjustments := 0;
              ds_closing_stock := Qc_of_Z 30 |}
  ∧ Shop.after_sale.1 = Some 2%Z
  ∧ products Shop.after_sale.2 !! 1%Z
    = Some (set_stock (Qc_of_Z 25) Shop.product_A)
  ∧ daily_stock Shop.after_sale.2 !! (Shop.day1, 1%Z)
    = Some {| ds_opening_stock := Qc_of_Z 20; ds_purchases := Qc_of_Z 10;
              ds_sales := Qc_of_Z 5; ds_adjustments := 0;
              ds_closing_stock := Qc_of_Z 25 |}
  ∧ get_customer_credit Shop.after_sale.2 1 = Qc_of_Z 150.
Proof.
  splits; by_compute.
Qed.

Lemma add_sale_success faults conn date customer_id items total_amount
    cash_received previous_credit updated_credit notes transaction_type
    tid conn' :
  add_sale faults conn date customer_id items total_amount cash_received
    previous_credit updated_credit notes transaction_type = (Some tid, conn') →
  tid = (transactions_seq conn + 1)%Z
  ∧ conn' = record conn date customer_id items total_amount cash_received
              previous_credit updated_credit notes transaction_type.
Proof.
  rewrite add_sale_run.
  destruct (no_fault faults 0 (statements items)); [|done].
  by intros [= <- <-].
Qed.


(** The atomicity scenario of the specification (8): a failure after the
    header insert and before any item write leaves every table as it was. *)
Example failure_after_header :
  add_sale Shop.fails_after_header Shop.opening Shop.day1 1
    [Shop.line 1 5 50] (Qc_of_Z 250) (Qc_of_Z 200) (Qc_of_Z 100)
    (Qc_of_Z 150) "" "sale"
  = (None, Shop.opening).
Proof. by rewrite add_sale_run. Qed.



Lemma add_sale_item_success faults date transaction_type transaction_id item
    c c' :
  add_sale_item faults date transaction_type transaction_id item c
  = Ret ((), c') →
  working c' = record_item date transaction_type transaction_id item (working c).
Proof.
  destruct c as [e d]. rewrite runs_add_sale_item.
  destruct (no_fault faults e 9); [|done]. by intros [= <-].
Qed.

(** C4.  StockTracker.apply, the daily_stock upsert of one loop iteration
    of [add_sale], for a sale or a purchase.  With [pre] the product's
    stock read before the update and [post] the stock written after it:
    when (date, product) has no row, a row is created with opening_stock
    [pre], purchases = quantity for a purchase and 0 otherwise, sales =
    quantity for a sale and 0 otherwise, adjustments 0 and closing_stock
    [post]; when it has one, only the matching purchases or sales field
    grows by quantity and closing_stock becomes [post].  No other row of
    daily_stock changes. *)
Theorem daily_stock_upsert faults date transaction_type transaction_id item
    c c' :
  transaction_type = "sale"%string ∨ transaction_type = "purchase"%string →
  add_sale_item faults date transaction_type transaction_id item c
  = Ret ((), c') →
  let pre := stock_of (products (working c)) (product_id item) in
  let post := if decide (transaction_type = "sale"%string)
              then pre - quantity item else pre + quantity item in
  let is_sale := bool_decide (transaction_type = "sale"%string) in
  let is_purchase := bool_decide (transaction_type = "purchase"%string) in
  (∀ k, k ≠ (date, product_id item) →
        daily_stock (working c') !! k = daily_stock (working c) !! k)
  ∧ daily_stock (working c') !! (date, product_id item)
    = Some match daily_stock (working c) !! (date, product_id item) with
           | None =>
               {| ds_opening_stock := pre;
                  ds_purchases := if is_purchase then quantity item else 0;
                  ds_sales := if is_sale then quantity item else 0;
                  ds_adjustments := 0;
                  ds_closing_stock := post |}
           | Some row =>
               {| ds_opening_stock := ds_opening_stock row;
                  ds_purchases := if is_purchase
                                  then ds_purchases row + quantity item
                                  else ds_purchases row;
                  ds_sales := if is_sale
                              then ds_sales row + quantity item
                              else ds_sales row;
                  ds_adjustments := ds_adjustments row;
                  ds_closing_stock := post |}
           end.
Proof.
  intros Hkind Hrun. apply add_sale_item_success in Hrun.
  rewrite Hrun. unfold record_item. cbn [daily_stock]. split.
  - intros k Hk. rewrite apply_movement_daily. by rewrite decide_False.
  - rewrite apply_movement_daily, decide_True by done. cbn [fst snd].
    unfold tracked_row, signed_delta.
    destruct Hkind as [-> | ->];
      destruct (daily_stock (working c) !! (date, product_id item)); done.
Qed.

Lemma daily_stock_upsert_witness :
  is_Some (daily_stock (working Shop.item_done) !! (Shop.day1, 1%Z)).
Proof.
  assert (add_sale_item Shop.sound Shop.day1 "sale" 2 (Shop.line 1 5 50)
            Shop.item_next = Ret ((), Shop.item_done)) as Hrun.
  { unfold Shop.item_next, Shop.item_done. by rewrite runs_add_sale_item. }
  destruct (daily_stock_upsert Shop.sound Shop.day1 "sale" 2
              (Shop.line 1 5 50) Shop.item_next Shop.item_done
              (or_introl eq_refl) Hrun) as [_ Hrow].
  eexists. exact Hrow.
Defined.



End ledger.

(** ** Sequences of calls *)

Section history.
Import Store History.

Lemma replay_snoc conn calls c :
  replay conn (calls ++ [c])
  = match replay conn calls with
    | Some d => match place d c with
                | (Some _, d') => Some d'
                | (None, _) => None
                end
    | None => None
    end.
Proof. unfold replay. by rewrite foldl_app. Qed.

Lemma place_success d c tid d' :
  place d c = (Some tid, d') →
  d' = record d (call_date c) (call_customer_id c) (call_items c)
         (call_total_amount c) (call_cash_received c) (call_previous_credit c)
         (call_updated_credit c) (call_notes c) (call_transaction_type c).
Proof. intros H. by apply add_sale_success in H as [_ ->]. Qed.

Lemma replay_snoc_inv conn calls c d' :
  replay conn (calls ++ [c]) = Some d' →
  ∃ d, replay conn calls = Some d
       ∧ d' = record d (call_date c) (call_customer_id c) (call_items c)
                (call_total_amount c) (call_cash_received c)
                (call_previous_credit c) (call_updated_credit c)
                (call_notes c) (call_transaction_type c).
Proof.
  rewrite replay_snoc. destruct (replay conn calls) as [d|]; [|done].
  destruct (place d c) as [[tid|] d''] eqn:Hplace; [|done].
  intros [= <-]. exists d. split; [done|]. by eapply place_success.
Qed.
















(** *** The movement log and the snapshots *)


Lemma sum_case_none value dk p ms :
  (∀ m, m ∈ ms → ¬ (sm_product_id m = p ∧ sm_date m = dk)) →
  sum_case value dk p ms = 0.
Proof.
  induction ms as [|m ms IH]; intros Hnone; [done|]. simpl.
  rewrite decide_False by (apply Hnone; set_solver).
  apply IH. intros m' Hm'. apply Hnone. set_solver.
Qed.



Lemma apply_movements_daily_is_Some date transaction_type items st k :
  is_Some (st.2 !! k) →
  is_Some ((apply_movements date transaction_type items st).2 !! k).
Proof.
  revert st. induction items as [|item items IH]; intros st Hk; [done|].
  rewrite apply_movements_cons. apply IH.
  rewrite apply_movement_daily. case_decide; [by eexists|done].
Qed.




(** *** Valuation *)

Lemma or_zero_id x : or_zero x = x.
Proof. unfold or_zero. by case_decide. Qed.









(** For the earlier date of [Shop.in_order] the fallback reports the
    opening stock 17 where the snapshot of the day has 20: the sale of 3
    on the next day is counted in the current stock. *)
Example fallback_opening_of_earlier_date :
  e_opening_stock <$>
    r_products (calculate_daily_inventory (without_snapshots Shop.in_order_db)
                  Shop.day1) !! 1%Z
  = Some (Qc_of_Z 17)
  ∧ e_opening_stock <$>
      r_products (calculate_daily_inventory Shop.in_order_db Shop.day1) !! 1%Z
    = Some (Qc_of_Z 20).
Proof. splits; by_compute. Qed.

End history.

(** ** Partners *)

Section partners.
Import Store.

Lemma rows_named_lookup (t : gmap Z customer) name id r :
  t !! id = Some r → c_name r = name → rows_named c_name name t ≠ ∅.
Proof.
  intros Hr Hname Hempty.
  assert (rows_named c_name name t !! id = Some r) as Hin.
  { unfold rows_named. by apply map_lookup_filter_Some. }
  by rewrite Hempty, lookup_empty in Hin.
Qed.

(** C10.  [add_or_update_customer] on the name of an existing partner
    (the statement not failing) returns True, overwrites the partner's
    contact, credit_balance and is_supplier with the supplied values,
    keeps its id, name and active flag, adds no row and leaves the
    partners of other names alone; with the default credit_balance the
    partner's balance is 0 afterwards, whatever it was before. *)
Theorem upsert_overwrites_partner faults conn name contact credit_balance
    is_supplier id r :
  faults 0%nat = false →
  customers conn !! id = Some r →
  c_name r = name →
  let result :=
    add_or_update_customer faults conn name contact credit_balance is_supplier in
  let reset := add_or_update_customer_default faults conn name in
  result.1 = true
  ∧ customers result.2 !! id
    = Some {| c_name := name; c_contact := contact;
              c_credit_balance := credit_balance; c_active := c_active r;
              c_is_supplier := is_supplier |}
  ∧ (∀ id' r', customers conn !! id' = Some r' → c_name r' ≠ name →
               customers result.2 !! id' = Some r')
  ∧ dom (customers result.2) = dom (customers conn)
  ∧ reset.1 = true
  ∧ get_customer_credit reset.2 id = 0.
Proof.
  intros Hfault Hr Hname result reset. subst result reset.
  unfold add_or_update_customer_default, add_or_update_customer,
    get_customer_credit, execute, upsert_customer.
  cbn [executed working]. rewrite Hfault.
  rewrite !decide_False by by eapply rows_named_lookup.
  cbn [fst snd working customers with_customers].
  rewrite !lookup_fmap, Hr. simpl. rewrite !decide_True by done.
  splits; try done.
  - by rewrite Hname.
  - intros id' r' Hr' Hne. rewrite lookup_fmap, Hr'. simpl.
    by rewrite decide_False.
  - by rewrite dom_fmap_L.
Qed.

Lemma upsert_overwrites_partner_witness :
  get_customer_credit Shop.after_sale.2 1 = Qc_of_Z 150
  ∧ get_customer_credit Shop.reentered.2 1 = 0.
Proof.
  split; [by_compute|].
  apply (upsert_overwrites_partner Shop.sound Shop.after_sale.2 "C" ""
           (Qc_of_Z 7) 1 1 (set_credit (Qc_of_Z 150) Shop.customer_C)).
  - reflexivity.
  - by_compute.
  - reflexivity.
Defined.

(** A name that is not in the table is inserted under a fresh id, with
    the active flag set. *)
Lemma upsert_inserts_partner faults conn name contact credit_balance
    is_supplier :
  faults 0%nat = false →
  rows_named c_name name (customers conn) = ∅ →
  add_or_update_customer faults conn name contact credit_balance is_supplier
  = (true,
     with_customers_seq (customers_seq conn + 1)
       (with_customers
          (<[(customers_seq conn + 1)%Z :=
               {| c_name := name; c_contact := contact;
                  c_credit_balance := credit_balance; c_active := 1;
                  c_is_supplier := is_supplier |}]> (customers conn)) conn)).
Proof.
  intros Hfault Hnew.
  unfold add_or_update_customer, execute, upsert_customer.
  cbn [executed working]. rewrite Hfault. by rewrite decide_True.
Qed.

End partners.

(** ** Numeric coercion *)

Section coercion.
Import PyNum.

(** [float] of a str raises nothing but ValueError. *)
Lemma py_float_raises s e : py_float s = Raise e → e = ValueError.
Proof.
  unfold py_float. destruct (sign_of _) as [negative body].
  repeat case_match; congruence.
Qed.

(** [safe_float] never raises. *)
Lemma safe_float_returns value default :
  ∃ x, safe_float value default = Ret x.
Proof.
  unfold safe_float. destruct value as [text|]; [|by eexists].
  simpl. case_bool_decide; [by eexists|].
  destruct (negb _ && negb _); [|by eexists].
  destruct (py_float (re_sub_non_numeric text)) as [x|e] eqn:Hfloat.
  - by eexists.
  - apply py_float_raises in Hfloat as ->. by eexists.
Qed.

(** [safe_float] returns the default for None, for blank text, and
    whenever what is left after removing the non-numeric characters is
    not a number for [float]. *)
Lemma safe_float_default value default :
  match value with
  | None => True
  | Some text =>
      strip text = ""%string
      ∨ ∀ x, py_float (re_sub_non_numeric text) ≠ Ret x
  end →
  safe_float value default = Ret default.
Proof.
  unfold safe_float. destruct value as [text|]; [|done].
  intros [Hblank|Hbad]; simpl.
  - by rewrite bool_decide_eq_true_2.
  - case_bool_decide; [done|].
    destruct (negb _ && negb _); [|done].
    destruct (py_float (re_sub_non_numeric text)) as [x|e] eqn:Hfloat.
    + by destruct (Hbad x).
    + apply py_float_raises in Hfloat as ->. done.
Qed.

(** Where [safe_float] does parse, it returns the parsed number. *)
Example safe_float_examples :
  safe_float None (Finite 0) = Ret (Finite 0)
  ∧ safe_float (Some "   ") (Finite (Qc_of_Z 7)) = Ret (Finite (Qc_of_Z 7))
  ∧ safe_float (Some "$1,234.50") (Finite 0) = Ret (Finite (Q2Qc (2469 # 2)))
  ∧ safe_float (Some "abc") (Finite 0) = Ret (Finite 0)
  ∧ safe_float (Some "1.2.3") (Finite 0) = Ret (Finite 0)
  ∧ safe_float (Some "12-3") (Finite 0) = Ret (Finite 0)
  ∧ safe_float (Some "-") (Finite 0) = Ret (Finite 0)
  ∧ safe_float (Some "1e5") (Finite 0) = Ret (Finite (Qc_of_Z 15)).
Proof. splits; by_compute. Qed.

Example safe_int_examples :
  safe_int None 3 = Ret 3%Z
  ∧ safe_int (Some "") 3 = Ret 3%Z
  ∧ safe_int (Some "5.0") 0 = Ret 5%Z
  ∧ safe_int (Some "5.7") 0 = Ret 5%Z
  ∧ safe_int (Some "-5.7") 0 = Ret (-5)%Z
  ∧ safe_int (Some "abc") 3 = Ret 0%Z.
Proof. splits; by_compute. Qed.

(** [safe_int] raises nothing but OverflowError, and only on text whose
    digits overflow the floats. *)
Lemma safe_int_raises value default e :
  safe_int value default = Raise e →
  e = OverflowError
  ∧ ∃ negative, safe_float value (Finite 0) = Ret (Infinity negative).
Proof.
  unfold safe_int. destruct value as [text|]; [|by simpl].
  case_bool_decide; [by simpl|].
  destruct (safe_float_returns (Some text) (Finite 0)) as [x Hx].
  rewrite Hx. destruct x as [q|negative|]; simpl; try done.
  intros [= <-]. split; [done|]. by exists negative.
Qed.

(** C9.  [safe_float] is total, but [safe_int] is not: on the numeral
    10^309 (310 digits) [safe_float] returns infinity, [int] of it raises
    OverflowError, and the handler for ValueError and TypeError lets it
    through. *)
Theorem safe_int_overflow_escapes :
  safe_float (Some ten_to_the_309) (Finite 0) = Ret (Infinity false)
  ∧ safe_int (Some ten_to_the_309) 0 = Raise OverflowError.
Proof. splits; by_compute. Qed.

(** *** Two-decimal text read back by [float] *)




















End coercion.

(** ** The entry forms *)

Section forms.
Import PyNum Store App.

Lemma safe_float_cases value default :
  ∃ x, safe_float value default = Ret x.
Proof. apply safe_float_returns. Qed.

(** [calculate_totals] passes over the only exception it can meet. *)
Lemma calculate_totals_returns f : ∃ f', calculate_totals f = Ret f'.
Proof.
  unfold calculate_totals.
  destruct (py_float (total_amount_var f)) as [t|e] eqn:Ht; simpl.
  - destruct (safe_float_returns (Some (cash_var f)) (Finite 0)) as [c ->].
    destruct (safe_float_returns (Some (prev_credit_var f)) (Finite 0)) as [p ->].
    simpl. by eexists.
  - apply py_float_raises in Ht as ->. simpl. by eexists.
Qed.

Lemma calculate_totals_items_tree f f' :
  calculate_totals f = Ret f' → items_tree f' = items_tree f.
Proof.
  unfold calculate_totals.
  destruct (py_float (total_amount_var f)) as [t|e] eqn:Ht; simpl.
  - destruct (safe_float_returns (Some (cash_var f)) (Finite 0)) as [c ->].
    destruct (safe_float_returns (Some (prev_credit_var f)) (Finite 0)) as [p ->].
    simpl. by intros [= <-].
  - apply py_float_raises in Ht as ->. simpl. by intros [= <-].
Qed.


Lemma update_sales_total_items_tree f f' :
  update_sales_total f = Ret f' → items_tree f' = items_tree f.
Proof.
  unfold update_sales_total.
  destruct (sum_of_totals _ _) as [total|e]; simpl; [|done].
  by intros ->%calculate_totals_items_tree.
Qed.

Lemma update_purchase_total_eq f :
  update_purchase_total f = update_sales_total f.
Proof. reflexivity. Qed.

Lemma add_item_dialog_with_positive update product_var quantity_var
    price_var f f' dialogs :
  (∀ g g', update g = Ret g' → items_tree g' = items_tree g) →
  add_item_dialog_with update product_var quantity_var price_var f
  = Ret (f', dialogs) →
  positive_quantities f → positive_quantities f'.
Proof.
  intros Hupdate. unfold add_item_dialog_with, positive_quantities.
  case_bool_decide; [by intros [= <- _]|].
  destruct (py_float quantity_var) as [quantity|[]]; try done;
    [|by intros [= <- _]].
  destruct (py_float price_var) as [price|[]]; try done;
    [|by intros [= <- _]].
  destruct (fle_zero quantity) eqn:Hle; [by intros [= <- _]|].
  destruct (update _) as [f2|[]] eqn:Hup; try done.
  - intros [= <- _] Hpos. rewrite (Hupdate _ _ Hup). simpl.
    apply Forall_app. split; [done|]. by apply Forall_singleton.
  - intros [= <- _] Hpos. simpl.
    apply Forall_app. split; [done|]. by apply Forall_singleton.
Qed.

Lemma add_item_inline_positive f f' dialogs :
  add_item_inline f = Ret (f', dialogs) →
  positive_quantities f → positive_quantities f'.
Proof.
  unfold add_item_inline, positive_quantities.
  case_bool_decide; [by intros [= <- _]|].
  destruct (py_float (new_quantity_var f)) as [quantity|[]]; try done;
    [|by intros [= <- _]].
  destruct (py_float (new_price_var f)) as [price|[]]; try done;
    [|by intros [= <- _]].
  destruct (fle_zero quantity) eqn:Hle; [by intros [= <- _]|].
  destruct (update_sales_total _) as [f2|[]] eqn:Hup; try done.
  - intros [= <- _] Hpos. rewrite (update_sales_total_items_tree _ _ Hup).
    simpl. apply Forall_app. split; [done|]. by apply Forall_singleton.
  - intros [= <- _] Hpos. simpl.
    apply Forall_app. split; [done|]. by apply Forall_singleton.
Qed.

(** C8.  Rejection before persistence.  A save with an empty item list,
    on either tab, opens an "Input Error" warning and leaves the whole
    application, database included, as it was.  An item whose quantity
    is not positive never enters an item list: each of the four handlers
    that add an item answers it with an "Input Error" warning and leaves
    the form as it was (none of them touches the database), and whatever
    they are given, they keep the quantities of the item list positive. *)
Theorem rejected_before_persistence plans (a : app) (f : form)
    (product_var quantity_var price_var : string) :
  (items_tree (sales_tab a) = [] →
   ∃ message, save_transaction plans a = Done a [input_error message])
  ∧ (items_tree (purchases_tab a) = [] →
     ∃ message, save_purchase_transaction plans a = Done a [input_error message])
  ∧ (∀ quantity, py_float (new_quantity_var f) = Ret quantity →
                 fle_zero quantity = true →
       (∃ message, add_item_inline f = Ret (f, [input_error message]))
       ∧ (∃ message, add_purchase_item_inline f = Ret (f, [input_error message])))
  ∧ (∀ quantity, py_float quantity_var = Ret quantity →
                 fle_zero quantity = true →
       (∃ message, add_item_dialog product_var quantity_var price_var f
                   = Ret (f, [input_error message]))
       ∧ (∃ message, add_purchase_item_dialog product_var quantity_var price_var f
                     = Ret (f, [input_error message])))
  ∧ (∀ f' dialogs,
       add_item_inline f = Ret (f', dialogs)
       ∨ add_purchase_item_inline f = Ret (f', dialogs)
       ∨ add_item_dialog product_var quantity_var price_var f = Ret (f', dialogs)
       ∨ add_purchase_item_dialog product_var quantity_var price_var f
         = Ret (f', dialogs) →
       positive_quantities f → positive_quantities f').
Proof.
  splits.
  - intros Hempty. unfold save_transaction.
    case_bool_decide; [by eexists|].
    rewrite bool_decide_eq_true_2 by done. by eexists.
  - intros Hempty. unfold save_purchase_transaction.
    case_bool_decide; [by eexists|].
    rewrite bool_decide_eq_true_2 by done. by eexists.
  - intros quantity Hq Hle.
    unfold add_item_inline, add_purchase_item_inline.
    case_bool_decide; [split; by eexists|].
    rewrite Hq.
    destruct (py_float (new_price_var f)) as [price|e] eqn:Hp.
    + rewrite Hle. split; by eexists.
    + apply py_float_raises in Hp as ->. split; by eexists.
  - intros quantity Hq Hle.
    unfold add_item_dialog, add_purchase_item_dialog, add_item_dialog_with.
    case_bool_decide; [split; by eexists|].
    rewrite Hq.
    destruct (py_float price_var) as [price|e] eqn:Hp.
    + rewrite Hle. split; by eexists.
    + apply py_float_raises in Hp as ->. split; by eexists.
  - intros f' dialogs [H|[H|[H|H]]].
    + by eapply add_item_inline_positive.
    + by eapply add_item_inline_positive.
    + eapply add_item_dialog_with_positive; [|exact H].
      apply update_sales_total_items_tree.
    + eapply add_item_dialog_with_positive; [|exact H].
      apply update_sales_total_items_tree.
Qed.

Lemma rejected_before_persistence_witness :
  (∃ message,
     save_transaction Till.sound (Till.till Till.blank)
     = Done (Till.till Till.blank) [input_error message])
  ∧ (∃ message,
       add_item_inline Till.minus_two
       = Ret (Till.minus_two, [input_error message])).
Proof.
  pose proof (rejected_before_persistence Till.sound (Till.till Till.blank)
                Till.minus_two "A" "-2" "50") as (Hsale & _ & Hinline & _).
  split.
  - apply Hsale. reflexivity.
  - apply (Hinline (Finite (Qc_of_Z (-2)))); by_compute.
Defined.

(** [add_sale] itself takes any list of items: the checks are those of
    the forms. *)
Example add_sale_takes_any_items :
  ∃ tid d,
    add_sale Shop.sound Shop.opening Shop.day1 1 [] 0 0 0 0 "" "sale"
    = (Some tid, d)
    ∧ length (transactions d) = 1%nat.
Proof. eexists _, _. split; vm_compute; reflexivity. Qed.

(** ** Credit arithmetic *)







(** The example of the specification: 100.00 + 250.00 - 200.00 is shown
    as 150.00 and stored as 150, on the transaction and as the balance of
    the customer. *)
Example credit_of_the_specification :
  ∃ row,
    updated_credit_var (Till.totalled Till.paid) = "150.00"%string
    ∧ save_transaction Till.sound (Till.till (Till.totalled Till.paid))
      = Done (Till.saved (Till.till (Till.totalled Till.paid)))
          [showinfo "Success" "Transaction saved successfully"]
    ∧ last (transactions
              (conn (Till.saved (Till.till (Till.totalled Till.paid)))))
      = Some row
    ∧ t_previous_credit row = Qc_of_Z 100
    ∧ t_total_amount row = Qc_of_Z 250
    ∧ t_cash_received row = Qc_of_Z 200
    ∧ t_updated_credit row = Qc_of_Z 150
    ∧ c_credit_balance
        <$> customers (conn (Till.saved (Till.till (Till.totalled Till.paid))))
            !! 1%Z
      = Some (Qc_of_Z 150).
Proof.
  eexists. splits.
  - by_compute.
  - vm_compute. reflexivity.
  - vm_compute. reflexivity.
  - by_compute.
  - by_compute.
  - by_compute.
  - by_compute.
  - by_compute.
Qed.

(** The choice of another customer replaces the previous credit shown
    and leaves the updated credit: saved as they stand, the amounts of
    the transaction are 0, 250, 200 and 150. *)
Example updated_credit_not_recomputed :
  ∃ row,
    prev_credit_var (sales_tab Till.rechosen) = "0.00"%string
    ∧ updated_credit_var (sales_tab Till.rechosen) = "150.00"%string
    ∧ save_transaction Till.sound Till.rechosen
      = Done (Till.saved Till.rechosen)
          [showinfo "Success" "Transaction saved successfully"]
    ∧ last (transactions (conn (Till.saved Till.rechosen))) = Some row
    ∧ t_customer_id row = 2%Z
    ∧ t_previous_credit row = 0
    ∧ t_total_amount row = Qc_of_Z 250
    ∧ t_cash_received row = Qc_of_Z 200
    ∧ t_updated_credit row = Qc_of_Z 150.
Proof.
  eexists. splits.
  - by_compute.
  - by_compute.
  - vm_compute. reflexivity.
  - vm_compute. reflexivity.
  - by_compute.
  - by_compute.
  - by_compute.
  - by_compute.
  - by_compute.
Qed.

End forms.

(** ** More on numeric coercion *)

Section cleaning.
Import PyNum.

(** A character [re.sub] keeps is no white space. *)
Lemma kept_is_no_space c :
  is_digit c || bool_decide (c = "."%char) || bool_decide (c = "-"%char) = true →
  is_space c = false.
Proof. destruct c as [[] [] [] [] [] [] [] []]; vm_compute; congruence. Qed.

Lemma lstrip_head space s c r : lstrip space s = String c r → space c = false.
Proof.
  induction s as [|a s IH]; [done|]. simpl.
  destruct (space a) eqn:Ha; [done|]. by intros [= <- _].
Qed.

Lemma strip_blank s : strip s = ""%string → lstrip is_space s = ""%string.
Proof.
  unfold strip. destruct (lstrip is_space s) as [|c r] eqn:Hl; [done|].
  apply lstrip_head in Hl. simpl.
  destruct (rstrip is_space r); [by rewrite Hl|done].
Qed.

Lemma blank_cleaned s :
  lstrip is_space s = ""%string → re_sub_non_numeric s = ""%string.
Proof.
  induction s as [|c s IH]; [done|]. simpl.
  destruct (is_space c) eqn:Hc; [|done].
  destruct (is_digit c || _ || _) eqn:Hkept; [|done].
  apply kept_is_no_space in Hkept. congruence.
Qed.

Lemma re_sub_non_numeric_idemp s :
  re_sub_non_numeric (re_sub_non_numeric s) = re_sub_non_numeric s.
Proof.
  induction s as [|c s IH]; [done|]. simpl.
  destruct (is_digit c || _ || _) eqn:Hkept; [|done].
  simpl. by rewrite Hkept, IH.
Qed.

Lemma cleaned_blank s :
  strip (re_sub_non_numeric s) = ""%string → re_sub_non_numeric s = ""%string.
Proof.
  intros H. apply strip_blank, blank_cleaned in H.
  by rewrite re_sub_non_numeric_idemp in H.
Qed.

Lemma re_sub_non_numeric_app s1 s2 :
  re_sub_non_numeric (s1 +:+ s2)
  = re_sub_non_numeric s1 +:+ re_sub_non_numeric s2.
Proof.
  induction s1 as [|c s1 IH]; [done|].
  change (String c s1 +:+ s2) with (String c (s1 +:+ s2)). simpl.
  destruct (is_digit c || _ || _); by rewrite IH.
Qed.

(** [safe_float] sees a text only through what [re.sub] leaves of it. *)
Lemma safe_float_cleaned text default :
  safe_float (Some text) default
  = safe_float (Some (re_sub_non_numeric text)) default.
Proof.
  unfold safe_float. rewrite re_sub_non_numeric_idemp.
  destruct (decide (strip text = ""%string)) as [Hblank|Hblank].
  - rewrite (bool_decide_eq_true_2 _ Hblank).
    apply strip_blank, blank_cleaned in Hblank. by rewrite Hblank.
  - rewrite (bool_decide_eq_false_2 _ Hblank).
    destruct (decide (re_sub_non_numeric text = ""%string)) as [Hnone|Hsome].
    + by rewrite Hnone.
    + rewrite (bool_decide_eq_false_2 (strip _ = _)); [done|].
      intros H. by apply cleaned_blank in H.
Qed.

(** X1.  [safe_float] never raises: for None and for every text, with
    every default, it returns a float, which is the default or what
    [float] reads in the text that [re.sub] leaves. *)
Theorem safe_float_never_raises value default :
  ∃ x, safe_float value default = Ret x
       ∧ (x = default
          ∨ ∃ text, value = Some text
                    ∧ py_float (re_sub_non_numeric text) = Ret x).
Proof.
  unfold safe_float. destruct value as [text|]; [|by eexists; split; [|left]].
  simpl. case_bool_decide; [by eexists; split; [|left]|].
  destruct (negb _ && negb _); [|by eexists; split; [|left]].
  destruct (py_float (re_sub_non_numeric text)) as [x|e] eqn:Hfloat.
  - exists x. split; [done|]. right. by exists text.
  - apply py_float_raises in Hfloat as ->. by eexists; split; [|left].
Qed.

(** X2.  [safe_float] reads nothing but digits, dots and minus signs: a
    character that is none of these, anywhere in the text (a currency
    sign, a thousands separator, a space, the letter of an exponent),
    does not change the result. *)
Theorem safe_float_ignores_other_characters s1 c s2 default :
  is_digit c = false → c ≠ "."%char → c ≠ "-"%char →
  safe_float (Some (s1 +:+ String c s2)) default
  = safe_float (Some (s1 +:+ s2)) default.
Proof.
  intros Hdigit Hdot Hminus.
  rewrite (safe_float_cleaned (s1 +:+ String c s2)),
    (safe_float_cleaned (s1 +:+ s2)), !re_sub_non_numeric_app.
  simpl. by rewrite Hdigit, !bool_decide_eq_false_2.
Qed.

Lemma safe_float_ignores_other_characters_witness :
  safe_float (Some ("1" +:+ String "e" "5")) (Finite 0)
  = safe_float (Some ("1" +:+ "5")) (Finite 0).
Proof.
  apply (safe_float_ignores_other_characters "1" "e" "5" (Finite 0));
    by_compute.
Defined.

(** X3.  [safe_int] uses its default for None and for blank text only.
    For any other text it is [int] of [safe_float(value, 0.0)]: the
    truncation towards zero of the number read, and 0, not the default,
    when the text holds no number. *)
Theorem safe_int_of_text text default :
  strip text ≠ ""%string →
  (∀ q, safe_float (Some text) (Finite 0) = Ret (Finite q) →
        safe_int (Some text) default
        = Ret (Z.quot (Qnum q) (Z.pos (Qden q))))
  ∧ ((∀ x, py_float (re_sub_non_numeric text) ≠ Ret x) →
     safe_int (Some text) default = Ret 0%Z).
Proof.
  intros Hblank. unfold safe_int.
  rewrite (bool_decide_eq_false_2 _ Hblank). split.
  - intros q ->. reflexivity.
  - intros Hbad.
    rewrite (safe_float_default (Some text) (Finite 0)) by (by right).
    reflexivity.
Qed.

Lemma safe_int_of_text_witness :
  safe_int (Some "abc") 7 = Ret 0%Z
  ∧ safe_int (Some "-5.7") 7 = Ret (-5)%Z.
Proof.
  assert (strip "abc" ≠ ""%string) as Habc by by_compute.
  assert (strip "-5.7" ≠ ""%string) as Hnum by by_compute.
  split.
  - apply (safe_int_of_text "abc" 7 Habc).
    intros x. by_compute.
  - change (-5)%Z with (Z.quot (Qnum (Q2Qc (-57 # 10)))
                          (Z.pos (Qden (Q2Qc (-57 # 10))))).
    apply (safe_int_of_text "-5.7" 7 Hnum). by_compute.
Defined.

End cleaning.

(** ** Master data *)

Section catalog.
Import PyNum Store App Catalog.

Lemma rows_named_is_row {R : Type} (col : R → string) (t : gmap Z R) name id r :
  t !! id = Some r → col r = name → rows_named col name t ≠ ∅.
Proof.
  intros Hr Hname Hempty.
  assert (rows_named col name t !! id = Some r) as Hin.
  { unfold rows_named. by apply map_lookup_filter_Some. }
  by rewrite Hempty, lookup_empty in Hin.
Qed.

Lemma rows_named_no_row {R : Type} (col : R → string) (t : gmap Z R) name :
  (∀ id r, t !! id = Some r → col r ≠ name) → rows_named col name t = ∅.
Proof.
  intros Hnone. apply map_empty. intros id.
  destruct (rows_named col name t !! id) as [r|] eqn:Hr; [|done].
  apply map_lookup_filter_Some in Hr as [Hr Hname]. by destruct (Hnone id r).
Qed.

(** What [add_or_update_product] does to a product of the given name. *)
Lemma add_or_update_product_existing faults conn name price id r :
  faults 0%nat = false →
  products conn !! id = Some r →
  p_name r = name →
  add_or_update_product faults conn name price
  = (true,
     with_products
       ((λ r, if decide (p_name r = name)
              then {| p_name := p_name r; p_price := price;
                      p_current_stock := p_current_stock r;
                      p_active := p_active r |}
              else r) <$> products conn) conn).
Proof.
  intros Hfault Hr Hname.
  unfold add_or_update_product, execute, upsert_product.
  cbn [executed working]. rewrite Hfault.
  by rewrite decide_False by by eapply rows_named_is_row.
Qed.



(** X5.  [add_or_update_product] on a name that no product has (the
    statement not failing) returns True and adds one row under the next
    id of the counter, with the given price, no stock and the active
    flag set; when that id is free, as AUTOINCREMENT sees to, every
    existing product is left as it was. *)
Theorem upsert_product_inserts faults conn name price :
  faults 0%nat = false →
  (∀ id r, products conn !! id = Some r → p_name r ≠ name) →
  let result := add_or_update_product faults conn name price in
  let id := (products_seq conn + 1)%Z in
  result.1 = true
  ∧ products_seq result.2 = id
  ∧ products result.2 !! id
    = Some {| p_name := name; p_price := price; p_current_stock := 0;
              p_active := 1 |}
  ∧ (∀ id', id' ≠ id → products result.2 !! id' = products conn !! id')
  ∧ result.2 = with_products_seq id (with_products (products result.2) conn).
Proof.
  intros Hfault Hnone result id. subst result id.
  unfold add_or_update_product, execute, upsert_product.
  cbn [executed working]. rewrite Hfault.
  rewrite decide_True by by apply rows_named_no_row.
  cbn [fst snd working products products_seq with_products with_products_seq].
  splits; try done.
  - by rewrite lookup_insert_eq.
  - intros id' Hne. by rewrite lookup_insert_ne.
Qed.

Lemma upsert_product_inserts_witness :
  products (add_or_update_product Shop.sound Shop.opening "Z" (Qc_of_Z 7)).2
    !! (products_seq Shop.opening + 1)%Z
  = Some {| p_name := "Z"; p_price := Qc_of_Z 7; p_current_stock := 0;
            p_active := 1 |}.
Proof.
  pose proof (upsert_product_inserts Shop.sound Shop.opening "Z" (Qc_of_Z 7))
    as H.
  destruct H as (_ & _ & H & _); [reflexivity| |exact H].
  intros id r Hr.
  assert (id = 1%Z ∨ id = 2%Z) as [->| ->].
  { destruct (decide (id = 1%Z)); [by left|].
    destruct (decide (id = 2%Z)); [by right|].
    unfold Shop.opening in Hr. cbn [products] in Hr.
    rewrite lookup_insert_ne, lookup_singleton_ne in Hr by done. done. }
  - assert (r = Shop.product_A) as -> by (apply (inj Some); rewrite <- Hr; reflexivity).
    by_compute.
  - assert (r = Shop.product_B) as -> by (apply (inj Some); rewrite <- Hr; reflexivity).
    by_compute.
Defined.

(** X6.  Deleting a product in the products manager is a soft delete
    that adding it again does not undo.  After a confirmed
    [delete_product] the row is still there, with its name, price and
    stock, and [get_all_products] no longer lists it; "Add Product" with
    the same name then updates the price of that row and leaves it
    inactive, so the list still does not show it. *)
Theorem deleted_product_stays_hidden faults faults' conn id r name_var
    price_var price :
  faults 0%nat = false →
  faults' 0%nat = false →
  products conn !! id = Some r →
  strip name_var = p_name r →
  p_name r ≠ ""%string →
  safe_float (Some price_var) (Finite 0) = Ret (Finite price) →
  let deleted := delete_product faults conn (Some id) true in
  ∃ conn',
    deleted.2 = []
    ∧ products deleted.1 !! id
      = Some {| p_name := p_name r; p_price := p_price r;
                p_current_stock := p_current_stock r; p_active := 0 |}
    ∧ get_all_products deleted.1 !! id = None
    ∧ add_product faults' deleted.1 name_var price_var = Some (conn', [])
    ∧ products conn' !! id
      = Some {| p_name := p_name r; p_price := price;
                p_current_stock := p_current_stock r; p_active := 0 |}
    ∧ get_all_products conn' !! id = None.
Proof.
  intros Hfault Hfault' Hr Hname Hne Hprice deleted. subst deleted.
  unfold delete_product, execute, deactivate_product.
  cbn [executed working]. rewrite Hfault.
  cbn [fst snd working].
  set (d1 := with_products _ conn).
  assert (products d1 !! id
          = Some {| p_name := p_name r; p_price := p_price r;
                    p_current_stock := p_current_stock r; p_active := 0 |})
    as Hr1.
  { unfold d1. cbn [products with_products].
    by rewrite lookup_alter_eq, Hr. }
  assert (∀ d row, products d !! id = Some row → p_active row = 0%Z →
                   get_all_products d !! id = None) as Hhidden.
  { intros d row Hrow Hactive. unfold get_all_products.
    apply map_lookup_filter_None. right. intros row' Hrow'. simpl.
    rewrite Hrow in Hrow'. injection Hrow' as <-. by rewrite Hactive. }
  unfold add_product. rewrite Hprice, Hname.
  rewrite (bool_decide_eq_false_2 _ Hne). cbn [to_real].
  rewrite (add_or_update_product_existing _ _ _ _ _ _ Hfault' Hr1 eq_refl).
  eexists. splits; try done.
  - by eapply Hhidden.
  - cbn [products with_products]. rewrite lookup_fmap, Hr1. simpl.
    by rewrite decide_True.
  - eapply Hhidden; [|shelve].
    cbn [products with_products]. rewrite lookup_fmap, Hr1. simpl.
    by rewrite decide_True.
    Unshelve. done.
Qed.

Lemma deleted_product_stays_hidden_witness :
  ∃ conn',
    (delete_product Shop.sound Shop.opening (Some 1%Z) true).2 = []
    ∧ products (delete_product Shop.sound Shop.opening (Some 1%Z) true).1
        !! 1%Z
      = Some {| p_name := p_name Shop.product_A;
                p_price := p_price Shop.product_A;
                p_current_stock := p_current_stock Shop.product_A;
                p_active := 0 |}
    ∧ get_all_products
        (delete_product Shop.sound Shop.opening (Some 1%Z) true).1 !! 1%Z
      = None
    ∧ add_product Shop.sound
        (delete_product Shop.sound Shop.opening (Some 1%Z) true).1
        " A " "$55.00"
      = Some (conn', [])
    ∧ products conn' !! 1%Z
      = Some {| p_name := p_name Shop.product_A; p_price := Qc_of_Z 55;
                p_current_stock := p_current_stock Shop.product_A;
                p_active := 0 |}
    ∧ get_all_products conn' !! 1%Z = None.
Proof.
  apply (deleted_product_stays_hidden Shop.sound Shop.sound Shop.opening 1
           Shop.product_A " A " "$55.00" (Qc_of_Z 55)); by_compute.
Defined.

End catalog.

(** ** The shape of the ledger *)

Section ledger_shape.
Import PyNum Store History Catalog.

(** X7.  Transaction ids.  Whatever [add_sale] returns, it keeps the
    transactions listed by increasing id below the counter, and every
    row of transaction_items and stock_movements referring to a row of
    transactions; the id it returns on success was not in use, and the
    rows it adds all carry it. *)
Theorem transaction_ids_in_order faults conn date customer_id items
    total_amount cash_received previous_credit updated_credit notes
    transaction_type result conn' :
  ids_in_order conn →
  rows_refer conn →
  add_sale faults conn date customer_id items total_amount cash_received
    previous_credit updated_credit notes transaction_type = (result, conn') →
  ids_in_order conn' ∧ rows_refer conn'
  ∧ ∀ tid, result = Some tid →
      (tid ∉ t_id <$> transactions conn)
      ∧ t_id <$> transactions conn' = (t_id <$> transactions conn) ++ [tid]
      ∧ ti_transaction_id <$> transaction_items conn'
        = (ti_transaction_id <$> transaction_items conn)
          ++ replicate (length items) tid
      ∧ sm_transaction_id <$> stock_movements conn'
        = (sm_transaction_id <$> stock_movements conn)
          ++ replicate (length items) tid.
Proof.
  intros [Horder Hseq] [Hitems Hmoves]. rewrite add_sale_run.
  destruct (no_fault faults 0 (statements items)); intros [= <- <-];
    [|by splits].
  set (tid := (transactions_seq conn + 1)%Z).
  assert (tid ∉ (t_id <$> transactions conn)) as Hfresh.
  { intros Hin. apply list_elem_of_fmap in Hin as (t & Ht & Hin).
    rewrite Forall_forall in Hseq. specialize (Hseq t Hin). lia. }
  unfold ids_in_order, rows_refer.
  cbn [transactions transactions_seq transaction_items stock_movements record].
  fold tid. splits.
  - intros i j t t' Hij Ht Ht'.
    destruct (decide (j < length (transactions conn))%nat) as [Hj|Hj].
    + rewrite lookup_app_l in Ht, Ht' by lia.
      exact (Horder i j t t' Hij Ht Ht').
    + rewrite lookup_app_l in Ht.
      2:{ apply lookup_lt_Some in Ht'. rewrite length_app in Ht'.
          simpl in Ht'. lia. }
      rewrite lookup_app_r in Ht' by lia.
      apply list_lookup_singleton_Some in Ht' as [_ <-]. simpl.
      rewrite Forall_forall in Hseq.
      specialize (Hseq t (list_elem_of_lookup_2 _ _ _ Ht)). lia.
  - apply Forall_app. split.
    + eapply Forall_impl; [exact Hseq|]. simpl. intros t Ht. lia.
    + apply Forall_singleton. simpl. lia.
  - apply Forall_app. split.
    + eapply Forall_impl; [exact Hitems|]. simpl. intros i Hi.
      rewrite fmap_app. apply elem_of_app. by left.
    + apply Forall_forall. intros i Hi.
      apply list_elem_of_fmap in Hi as (item & -> & _). simpl.
      rewrite fmap_app. apply elem_of_app. right. simpl. set_solver.
  - apply Forall_app. split.
    + eapply Forall_impl; [exact Hmoves|]. simpl. intros m Hm.
      rewrite fmap_app. apply elem_of_app. by left.
    + apply Forall_forall. intros m Hm.
      apply list_elem_of_fmap in Hm as (item & -> & _). simpl.
      rewrite fmap_app. apply elem_of_app. right. simpl. set_solver.
  - intros tid' [= <-]. splits.
    + exact Hfresh.
    + by rewrite fmap_app.
    + rewrite fmap_app. f_equal. clear. induction items as [|item items IH];
        [done|]. simpl. f_equal. exact IH.
    + rewrite fmap_app. f_equal. clear. induction items as [|item items IH];
        [done|]. simpl. f_equal. exact IH.
Qed.

Lemma transaction_ids_in_order_witness :
  ids_in_order Shop.after_purchase.2 ∧ rows_refer Shop.after_purchase.2.
Proof.
  pose proof (transaction_ids_in_order Shop.sound Shop.opening Shop.day1 1
                [Shop.line 1 10 45] (Qc_of_Z 450) (Qc_of_Z 450) 0 0 ""
                "purchase" Shop.after_purchase.1 Shop.after_purchase.2) as H.
  destruct H as (H1 & H2 & _).
  - split; [|by apply Forall_nil]. intros i j t t' _ Ht. by destruct i.
  - split; by apply Forall_nil.
  - apply surjective_pairing.
  - by split.
Defined.





(** X9.  A transaction without items.  [add_sale] takes an empty item
    list: when no statement fails it returns a new id and writes the
    header row and the credit balance, and nothing else: no item row, no
    stock movement, no snapshot, no change of stock. *)
Theorem empty_item_list_is_recorded faults conn date customer_id total_amount
    cash_received previous_credit updated_credit notes transaction_type
    tid conn' :
  add_sale faults conn date customer_id [] total_amount cash_received
    previous_credit updated_credit notes transaction_type = (Some tid, conn') →
  tid = (transactions_seq conn + 1)%Z
  ∧ transactions conn'
    = transactions conn
      ++ [header_row tid date customer_id transaction_type total_amount
            cash_received previous_credit updated_credit notes]
  ∧ transaction_items conn' = transaction_items conn
  ∧ stock_movements conn' = stock_movements conn
  ∧ products conn' = products conn
  ∧ daily_stock conn' = daily_stock conn.
Proof.
  intros [-> ->]%add_sale_success.
  cbn [transactions transaction_items stock_movements products daily_stock
       record map apply_movements foldl fst snd].
  by rewrite !app_nil_r.
Qed.

Lemma empty_item_list_is_recorded_witness :
  (add_sale Shop.sound Shop.opening Shop.day1 1 [] 0 0 0 0 "" "sale").1
  = Some 1%Z
  ∧ products (add_sale Shop.sound Shop.opening Shop.day1 1 [] 0 0 0 0 ""
                "sale").2
    = products Shop.opening.
Proof.
  pose proof (empty_item_list_is_recorded Shop.sound Shop.opening Shop.day1 1
                0 0 0 0 "" "sale" 1
                (add_sale Shop.sound Shop.opening Shop.day1 1 [] 0 0 0 0 ""
                   "sale").2) as H.
  destruct H as (_ & _ & _ & _ & H & _); [vm_compute; reflexivity|].
  split; [vm_compute; reflexivity|exact H].
Defined.

Lemma apply_movements_snoc date transaction_type items item st :
  apply_movements date transaction_type (items ++ [item]) st
  = apply_movement date transaction_type
      (apply_movements date transaction_type items st) item.
Proof. by rewrite apply_movements_app. Qed.

Lemma apply_movements_unknown_opening date transaction_type items st p row :
  st.1 !! p = None →
  st.2 !! (date, p) = None →
  (apply_movements date transaction_type items st).2 !! (date, p) = Some row →
  ds_opening_stock row = 0.
Proof.
  intros Hp Hnone. revert row.
  induction items as [|item items IH] using rev_ind; intros row.
  - simpl. by rewrite Hnone.
  - rewrite apply_movements_snoc, apply_movement_daily.
    case_decide as Hkey; [|apply IH].
    injection Hkey as Hitem. rewrite Hitem. intros [= <-].
    unfold tracked_row.
    destruct ((apply_movements _ _ items st).2 !! (date, p)) as [row0|]
      eqn:Hrow0; simpl.
    + by apply IH.
    + unfold stock_of.
      by rewrite (apply_movements_products_None _ _ _ _ _ Hp).
Qed.

Lemma apply_movements_touched_row date transaction_type items st p :
  p ∈ product_id <$> items →
  is_Some ((apply_movements date transaction_type items st).2 !! (date, p)).
Proof.
  revert st. induction items as [|item items IH]; intros st Hin.
  - by apply elem_of_nil in Hin.
  - rewrite apply_movements_cons.
    destruct (decide (product_id item = p)) as [Hitem|Hitem].
    + apply apply_movements_daily_is_Some. rewrite apply_movement_daily.
      rewrite decide_True by by rewrite Hitem. by eexists.
    + apply IH. rewrite fmap_cons in Hin.
      apply elem_of_cons in Hin as [Hin|Hin]; [by destruct Hitem|done].
Qed.

(** X10.  An item for a product id without a row.  A successful
    [add_sale] creates no product: the id still has no row afterwards.
    The item, its stock movement and a snapshot for (date, id) are
    written all the same, the snapshot opening at stock 0 when the date
    had none for this id. *)
Theorem unknown_product_is_not_created faults conn date customer_id items
    total_amount cash_received previous_credit updated_credit notes
    transaction_type tid conn' p :
  add_sale faults conn date customer_id items total_amount cash_received
    previous_credit updated_credit notes transaction_type = (Some tid, conn') →
  products conn !! p = None →
  p ∈ product_id <$> items →
  products conn' !! p = None
  ∧ p ∈ ti_product_id <$> transaction_items conn'
  ∧ p ∈ sm_product_id <$> stock_movements conn'
  ∧ ∃ row, daily_stock conn' !! (date, p) = Some row
           ∧ (daily_stock conn !! (date, p) = None → ds_opening_stock row = 0).
Proof.
  intros [-> ->]%add_sale_success Hp Hin.
  cbn [transaction_items stock_movements products daily_stock record].
  assert (∀ {A} (f : sale_item → A) (col : A → Z) (old : list A),
            (∀ item, col (f item) = product_id item) →
            p ∈ col <$> (old ++ map f items)) as Hrows.
  { intros A f col old Hcol. rewrite fmap_app. apply elem_of_app. right.
    apply list_elem_of_fmap in Hin as (item & -> & Hitem).
    apply list_elem_of_fmap. exists (f item). split; [by rewrite Hcol|].
    apply list_elem_of_fmap. by exists item. }
  splits.
  - by apply apply_movements_products_None.
  - by apply Hrows.
  - by apply Hrows.
  - destruct (apply_movements_touched_row date transaction_type items
                (products conn, daily_stock conn) p Hin) as [row Hrow].
    exists row. split; [done|]. intros Hnone.
    exact (apply_movements_unknown_opening date transaction_type items
             (products conn, daily_stock conn) p row Hp Hnone Hrow).
Qed.

Lemma unknown_product_is_not_created_witness :
  products (add_sale Shop.sound Shop.opening Shop.day1 1 [Shop.line 9 4 5]
              (Qc_of_Z 20) (Qc_of_Z 20) 0 0 "" "sale").2 !! 9%Z
  = None.
Proof.
  pose proof (unknown_product_is_not_created Shop.sound Shop.opening Shop.day1
                1 [Shop.line 9 4 5] (Qc_of_Z 20) (Qc_of_Z 20) 0 0 "" "sale" 1
                (add_sale Shop.sound Shop.opening Shop.day1 1
                   [Shop.line 9 4 5] (Qc_of_Z 20) (Qc_of_Z 20) 0 0 ""
                   "sale").2 9) as H.
  destruct H as [H _]; [vm_compute; reflexivity|reflexivity| |exact H].
  apply list_elem_of_singleton. reflexivity.
Defined.

(** X11.  The credit balance after a transaction.  In a database without
    the legacy table of the kind (clients for a sale, suppliers
    otherwise), a successful [add_sale] sets the credit_balance of the
    partner to updated_credit, so [get_customer_credit] returns it, and
    changes nothing else of the row and no other partner; for an id
    without a row it creates none, and [get_customer_credit] returns 0. *)
Theorem credit_balance_after_transaction faults conn date customer_id items
    total_amount cash_received previous_credit updated_credit notes
    transaction_type tid conn' :
  add_sale faults conn date customer_id items total_amount cash_received
    previous_credit updated_credit notes transaction_type = (Some tid, conn') →
  (if decide (transaction_type = "sale"%string)
   then clients conn else suppliers conn) = None →
  customers conn' !! customer_id
  = set_credit updated_credit <$> customers conn !! customer_id
  ∧ get_customer_credit conn' customer_id
    = (if customers conn !! customer_id is Some _ then updated_credit else 0)
  ∧ (∀ id, id ≠ customer_id → customers conn' !! id = customers conn !! id)
  ∧ customers_seq conn' = customers_seq conn.
Proof.
  intros [-> ->]%add_sale_success Hlegacy.
  unfold get_customer_credit. cbn [customers customers_seq record].
  assert ((if bool_decide (transaction_type = "sale"%string)
           then bool_decide (is_Some (clients conn))
           else bool_decide (is_Some (suppliers conn))) = false) as ->.
  { case_bool_decide; [rewrite decide_True in Hlegacy by done
                      |rewrite decide_False in Hlegacy by done];
      rewrite Hlegacy; apply bool_decide_eq_false_2; by intros [? ?]. }
  rewrite lookup_alter_eq. splits; try done.
  - by destruct (customers conn !! customer_id).
  - intros id Hid. by rewrite lookup_alter_ne.
Qed.

Lemma credit_balance_after_transaction_witness :
  get_customer_credit Shop.after_sale.2 1
  = (if customers Shop.after_purchase.2 !! 1%Z is Some _
     then Qc_of_Z 150 else 0).
Proof.
  pose proof (credit_balance_after_transaction Shop.sound
                Shop.after_purchase.2 Shop.day1 1 [Shop.line 1 5 50]
                (Qc_of_Z 250) (Qc_of_Z 200) (Qc_of_Z 100) (Qc_of_Z 150) ""
                "sale" 2 Shop.after_sale.2) as H.
  destruct H as (_ & H & _); [vm_compute; reflexivity|reflexivity|exact H].
Defined.

(** X12.  With a legacy table.  In a database that has the legacy table
    of the kind (clients for a sale, suppliers for another kind), a
    successful [add_sale] writes updated_credit there and leaves the
    customers table exactly as it was: [get_customer_credit] still
    returns the balance from before the transaction. *)
Theorem legacy_table_takes_the_credit faults conn date customer_id items
    total_amount cash_received previous_credit updated_credit notes
    transaction_type tid conn' legacy :
  add_sale faults conn date customer_id items total_amount cash_received
    previous_credit updated_credit notes transaction_type = (Some tid, conn') →
  (if decide (transaction_type = "sale"%string)
   then clients conn else suppliers conn) = Some legacy →
  customers conn' = customers conn
  ∧ (∀ id, get_customer_credit conn' id = get_customer_credit conn id)
  ∧ (if decide (transaction_type = "sale"%string)
     then clients conn' else suppliers conn')
    = Some (alter (λ _, updated_credit) customer_id legacy).
Proof.
  intros [-> ->]%add_sale_success Hlegacy.
  unfold get_customer_credit. cbn [customers clients suppliers record].
  destruct (decide (transaction_type = "sale"%string)) as [Hsale|Hother].
  - rewrite !(bool_decide_eq_true_2 _ Hsale), Hlegacy.
    by rewrite bool_decide_eq_true_2 by by eexists.
  - rewrite !(bool_decide_eq_false_2 _ Hother), Hlegacy.
    by rewrite bool_decide_eq_true_2 by by eexists.
Qed.

Lemma legacy_table_takes_the_credit_witness :
  get_customer_credit
    (add_sale Shop.sound (with_clients (Some ∅) Shop.after_purchase.2)
       Shop.day1 1 [Shop.line 1 5 50] (Qc_of_Z 250) (Qc_of_Z 200)
       (Qc_of_Z 100) (Qc_of_Z 150) "" "sale").2 1
  = get_customer_credit (with_clients (Some ∅) Shop.after_purchase.2) 1.
Proof.
  pose proof (legacy_table_takes_the_credit Shop.sound
                (with_clients (Some ∅) Shop.after_purchase.2) Shop.day1 1
                [Shop.line 1 5 50] (Qc_of_Z 250) (Qc_of_Z 200) (Qc_of_Z 100)
                (Qc_of_Z 150) "" "sale" 2
                (add_sale Shop.sound
                   (with_clients (Some ∅) Shop.after_purchase.2) Shop.day1 1
                   [Shop.line 1 5 50] (Qc_of_Z 250) (Qc_of_Z 200)
                   (Qc_of_Z 100) (Qc_of_Z 150) "" "sale").2 ∅) as H.
  destruct H as (_ & H & _); [vm_compute; reflexivity|reflexivity|apply H].
Defined.

Lemma apply_movements_opening date transaction_type items st k row :
  st.2 !! k = Some row →
  ∃ row', (apply_movements date transaction_type items st).2 !! k = Some row'
          ∧ ds_opening_stock row' = ds_opening_stock row
          ∧ ds_adjustments row' = ds_adjustments row.
Proof.
  revert st row. induction items as [|item items IH]; intros st row Hrow.
  - by exists row.
  - rewrite apply_movements_cons.
    destruct (decide ((date, product_id item) = k)) as [Hkey|Hkey].
    + destruct (IH (apply_movement date transaction_type st item)
                  (tracked_row transaction_type (quantity item)
                     (stock_of st.1 (product_id item))
                     (stock_of st.1 (product_id item)
                      + signed_delta transaction_type (quantity item))
                     (Some row)))
        as (row' & Hrow' & Hopening & Hadjust).
      { rewrite apply_movement_daily, decide_True by done. by rewrite Hrow. }
      by exists row'.
    + apply IH. by rewrite apply_movement_daily, decide_False.
Qed.

(** X13.  The opening stock of a snapshot is written once.  Through any
    sequence of successful [add_sale] calls, of any kinds and dates, a
    DailyStock row that exists keeps its opening_stock and its
    adjustments: later movements change purchases, sales and
    closing_stock only. *)
Theorem opening_stock_is_written_once conn calls d k row :
  replay conn calls = Some d →
  daily_stock conn !! k = Some row →
  ∃ row', daily_stock d !! k = Some row'
          ∧ ds_opening_stock row' = ds_opening_stock row
          ∧ ds_adjustments row' = ds_adjustments row.
Proof.
  intros Hreplay Hrow. revert d Hreplay.
  induction calls as [|c calls IH] using rev_ind; intros d Hreplay.
  - injection Hreplay as <-. by exists row.
  - apply replay_snoc_inv in Hreplay as (d0 & Hd0 & ->).
    destruct (IH d0 Hd0) as (row0 & Hrow0 & Hopening & Hadjust).
    destruct (apply_movements_opening (call_date c) (call_transaction_type c)
                (call_items c) (products d0, daily_stock d0) k row0 Hrow0)
      as (row' & Hrow' & Hopening' & Hadjust').
    exists row'. cbn [daily_stock record]. splits; congruence.
Qed.

Lemma opening_stock_is_written_once_witness :
  ∃ row', daily_stock Shop.back_dated_db !! (Shop.day1, 1%Z) = Some row'
          ∧ ds_opening_stock row' = Qc_of_Z 20
          ∧ ds_adjustments row' = 0.
Proof.
  apply (opening_stock_is_written_once Shop.after_purchase.2
           [Shop.sale_day2; Shop.sale_day1] Shop.back_dated_db
           (Shop.day1, 1%Z)
           {| ds_opening_stock := Qc_of_Z 20; ds_purchases := Qc_of_Z 10;
              ds_sales := 0; ds_adjustments := 0;
              ds_closing_stock := Qc_of_Z 30 |}).
  - vm_compute. reflexivity.
  - by_compute.
Defined.



End ledger_shape.

(** ** The inventory report *)

Section inventory.
Import PyNum Store History.

Lemma total_value_ext (f g : inventory_entry → Qc) (m : gmap Z inventory_entry) :
  (∀ p e, m !! p = Some e → f e = g e) → total_value f m = total_value g m.
Proof.
  intros Hfg. unfold total_value. rewrite !map_fold_foldr.
  assert (Forall (λ pe, f pe.2 = g pe.2) (map_to_list m)) as Hall.
  { apply Forall_forall. intros [p e] Hin. simpl.
    apply elem_of_map_to_list in Hin. by eapply Hfg. }
  induction Hall as [|[p e] l Hpe _ IH]; [done|]. simpl in *.
  by rewrite IH, Hpe.
Qed.

Lemma total_value_zero (m : gmap Z inventory_entry) :
  total_value (λ _, 0) m = 0.
Proof.
  unfold total_value. rewrite map_fold_foldr.
  induction (map_to_list m) as [|[p e] l IH]; [done|]. simpl.
  rewrite IH. ring.
Qed.

(** X15.  The report of a quiet day.  For a date without DailyStock row
    and without stock movement, [calculate_daily_inventory] takes the
    fallback path and lists every active product, and only those, with
    the current stock as opening and closing stock and no purchase, sale
    or adjustment; the purchased and sold values and the net value
    change are 0. *)
Theorem quiet_day_report d date :
  (∀ p, daily_stock d !! (date, p) = None) →
  (∀ m, m ∈ stock_movements d → sm_date m ≠ date) →
  let report := calculate_daily_inventory d date in
  (∀ p, r_products report !! p
        = match products d !! p with
          | Some r =>
              if decide (p_active r = 1%Z)
              then Some {| e_product_name := p_name r; e_price := p_price r;
                           e_opening_stock := p_current_stock r;
                           e_purchases := 0; e_sales := 0;
                           e_adjustments := 0;
                           e_closing_stock := p_current_stock r;
                           e_net_change := 0 |}
              else None
          | None => None
          end)
  ∧ r_total_opening_value report = r_total_closing_value report
  ∧ r_total_purchased_value report = 0
  ∧ r_total_sold_value report = 0
  ∧ r_net_value_change report = 0.
Proof.
  intros Hrows Hlog report.
  assert (daily_stock_summary d date = ∅) as Hprimary.
  { apply map_empty. intros p. unfold daily_stock_summary.
    rewrite map_lookup_imap. destruct (products d !! p); [|done].
    simpl. by rewrite Hrows. }
  assert (∀ value p, sum_case value date p (stock_movements d) = 0) as Hsum.
  { intros value p. apply sum_case_none. intros m Hm [_ Hdate].
    by destruct (Hlog m Hm). }
  assert (∀ p, movements_summary d date !! p
               = match products d !! p with
                 | Some r =>
                     if decide (p_active r = 1%Z)
                     then Some {| e_product_name := p_name r;
                                  e_price := p_price r;
                                  e_opening_stock := p_current_stock r;
                                  e_purchases := 0; e_sales := 0;
                                  e_adjustments := 0;
                                  e_closing_stock := p_current_stock r;
                                  e_net_change := 0 |}
                     else None
                 | None => None
                 end) as Hentries.
  { intros p. unfold movements_summary. rewrite map_lookup_imap.
    destruct (products d !! p) as [r|]; [|done]. simpl.
    case_decide; [|done]. rewrite !Hsum, !or_zero_id.
    f_equal. f_equal; ring. }
  assert (∀ p e, movements_summary d date !! p = Some e →
                 e_opening_stock e = e_closing_stock e
                 ∧ e_purchases e = 0 ∧ e_sales e = 0) as Hquiet.
  { intros p e. rewrite Hentries. destruct (products d !! p); [|done].
    case_decide; [|done]. by intros [= <-]. }
  subst report. unfold calculate_daily_inventory.
  rewrite Hprimary, decide_True by done.
  cbn [r_products r_total_opening_value r_total_closing_value
       r_total_purchased_value r_total_sold_value r_net_value_change].
  assert (total_value e_opening_stock (movements_summary d date)
          = total_value e_closing_stock (movements_summary d date)) as Hsame.
  { apply total_value_ext. intros p e He. by destruct (Hquiet p e He). }
  splits.
  - exact Hentries.
  - exact Hsame.
  - rewrite <- (total_value_zero (movements_summary d date)).
    apply total_value_ext. intros p e He. by destruct (Hquiet p e He) as (_ & ? & _).
  - rewrite <- (total_value_zero (movements_summary d date)).
    apply total_value_ext. intros p e He. by destruct (Hquiet p e He) as (_ & _ & ?).
  - rewrite Hsame. ring.
Qed.

Lemma quiet_day_report_witness :
  r_net_value_change (calculate_daily_inventory Shop.opening Shop.day2) = 0.
Proof.
  pose proof (quiet_day_report Shop.opening Shop.day2) as H.
  destruct H as (_ & _ & _ & _ & H); [done| |exact H].
  intros m Hm. by apply elem_of_nil in Hm.
Defined.



End inventory.

(** ** More on the entry forms *)

Section saving_more.
Import PyNum Store App Catalog.

Lemma same_ledger_refl d : same_ledger d d.
Proof. by unfold same_ledger. Qed.

Lemma same_ledger_trans d1 d2 d3 :
  same_ledger d1 d2 → same_ledger d2 d3 → same_ledger d1 d3.
Proof. unfold same_ledger. intros ? ?. splits; naive_solver congruence. Qed.

Lemma add_or_update_product_ledger faults d name price :
  same_ledger d (add_or_update_product faults d name price).2
  ∧ customers (add_or_update_product faults d name price).2 = customers d.
Proof.
  unfold add_or_update_product, execute, upsert_product. cbn [executed working].
  destruct (faults 0%nat); [by split; [apply same_ledger_refl|]|].
  case_decide; by split.
Qed.


Lemma resolve_item_ledger plans d k row :
  match resolve_item plans d k row with
  | Next d' _ _ | Raised d' _ => same_ledger d d' ∧ customers d' = customers d
  | Beyond => True
  end.
Proof.
  unfold resolve_item.
  destruct (py_float (row_price row)) as [price|e];
    [|by split; [apply same_ledger_refl|]].
  destruct (to_real (row_quantity row)) as [quantity|]; [|done].
  destruct (to_real price) as [price'|]; [|done].
  destruct (select_id _ (products d));
    [by split; [apply same_ledger_refl|]|].
  destruct (select_id _ _); apply add_or_update_product_ledger.
Qed.

Lemma resolve_items_ledger plans rows d k items_list :
  match resolve_items plans d k rows items_list with
  | Next d' _ _ | Raised d' _ => same_ledger d d' ∧ customers d' = customers d
  | Beyond => True
  end.
Proof.
  revert d k items_list.
  induction rows as [|row rows IH]; intros d k items_list; simpl.
  - by split; [apply same_ledger_refl|].
  - pose proof (resolve_item_ledger plans d k row) as Hitem.
    destruct (resolve_item plans d k row) as [d1 k1 item|d1 e|]; [|done|done].
    specialize (IH d1 k1 (items_list ++ [item])).
    destruct (resolve_items plans d1 k1 rows _) as [d2 k2 l|d2 e|]; [| |done].
    + destruct Hitem as [H1 H1'], IH as [H2 H2'].
      split; [by eapply same_ledger_trans|congruence].
    + destruct Hitem as [H1 H1'], IH as [H2 H2'].
      split; [by eapply same_ledger_trans|congruence].
Qed.







Lemma select_id_None {R : Type} (condition : R → bool) (t : gmap Z R) :
  (∀ id r, t !! id = Some r → condition r = false) →
  select_id condition t = None.
Proof.
  intros Hnone. unfold select_id.
  assert (filter (λ kr : Z * R, condition kr.2 = true) t = ∅) as ->.
  { apply map_empty. intros id. apply map_lookup_filter_None. right.
    intros r Hr. simpl. rewrite (Hnone id r Hr). done. }
  by rewrite map_to_list_empty.
Qed.

Lemma select_id_unique {R : Type} (condition : R → bool) (t : gmap Z R) id r :
  t !! id = Some r →
  condition r = true →
  (∀ id' r', t !! id' = Some r' → condition r' = true → id' = id) →
  select_id condition t = Some id.
Proof.
  intros Hr Hcond Hunique. unfold select_id.
  assert (filter (λ kr : Z * R, condition kr.2 = true) t = {[id := r]}) as ->.
  { apply map_eq. intros id'.
    destruct (decide (id' = id)) as [->|Hne].
    - rewrite lookup_singleton_eq. by apply map_lookup_filter_Some.
    - rewrite lookup_singleton_ne by done.
      apply map_lookup_filter_None. right. intros r' Hr' Hcond'.
      by destruct (Hne (Hunique id' r' Hr' Hcond')). }
  by rewrite map_to_list_singleton.
Qed.

Lemma add_or_update_customer_existing faults conn name contact credit_balance
    is_supplier id r :
  faults 0%nat = false →
  customers conn !! id = Some r →
  c_name r = name →
  add_or_update_customer faults conn name contact credit_balance is_supplier
  = (true,
     with_customers
       ((λ r, if decide (c_name r = name)
              then {| c_name := c_name r; c_contact := contact;
                      c_credit_balance := credit_balance;
                      c_active := c_active r;
                      c_is_supplier := is_supplier |}
              else r) <$> customers conn) conn).
Proof.
  intros Hfault Hr Hname.
  unfold add_or_update_customer, execute, upsert_customer.
  cbn [executed working]. rewrite Hfault.
  by rewrite decide_False by by eapply rows_named_is_row.
Qed.

(** X18.  A purchase under the name of a customer.  The purchases tab
    looks its partner up among the suppliers only.  When the name typed
    there belongs to a partner that is no supplier, the save handler
    (its first statement not failing) turns that partner into a
    supplier, empties its contact and overwrites its balance with the
    previous credit of the form; whatever happens afterwards, the
    partner is a supplier with the previous or the updated credit of
    the form as balance, and [get_all_customers] no longer lists it. *)
Theorem purchase_turns_customer_into_supplier plans a a' dialogs id r
    t c p u :
  partner_var (purchases_tab a) = c_name r →
  c_name r ≠ ""%string →
  items_tree (purchases_tab a) ≠ [] →
  read_amounts (purchases_tab a)
  = Ret (Finite t, Finite c, Finite p, Finite u) →
  customers (conn a) !! id = Some r →
  c_is_supplier r ≠ 1%Z →
  (∀ id' r', customers (conn a) !! id' = Some r' → c_name r' = c_name r →
             id' = id) →
  plans 0%nat 0%nat = false →
  save_purchase_transaction plans a = Done a' dialogs →
  ∃ r', customers (conn a') !! id = Some r'
        ∧ c_name r' = c_name r
        ∧ c_is_supplier r' = 1%Z
        ∧ c_contact r' = ""%string
        ∧ c_active r' = c_active r
        ∧ (c_credit_balance r' = p ∨ c_credit_balance r' = u)
        ∧ get_all_customers (conn a') !! id = None.
Proof.
  intros Hname Hne Hitems Hread Hr Hflag Hunique Hfault.
  assert (∀ d r', customers d !! id = Some r' → c_name r' = c_name r →
                  c_is_supplier r' = 1%Z → c_contact r' = ""%string →
                  c_active r' = c_active r →
                  c_credit_balance r' = p ∨ c_credit_balance r' = u →
                  ∃ r', customers d !! id = Some r'
                        ∧ c_name r' = c_name r
                        ∧ c_is_supplier r' = 1%Z
                        ∧ c_contact r' = ""%string
                        ∧ c_active r' = c_active r
                        ∧ (c_credit_balance r' = p ∨ c_credit_balance r' = u)
                        ∧ get_all_customers d !! id = None) as Hdone.
  { intros d r' Hr' ? Hsupplier ? ? ?. exists r'. splits; try done.
    unfold get_all_customers. apply map_lookup_filter_None. right.
    intros r'' Hr''. simpl. rewrite Hr' in Hr''. injection Hr'' as <-.
    rewrite Hsupplier. by intros [_ ?]. }
  set (named := λ r0 : customer,
         bool_decide (c_name r0 = c_name r)
         && bool_decide (c_is_supplier r0 = 1%Z)).
  set (g := λ r0 : customer,
         if decide (c_name r0 = c_name r)
         then {| c_name := c_name r0; c_contact := "";
                 c_credit_balance := p; c_active := c_active r0;
                 c_is_supplier := 1 |}
         else r0).
  set (d1 := with_customers (g <$> customers (conn a)) (conn a)).
  assert (resolve_partner plans (λ r0, bool_decide (c_is_supplier r0 = 1%Z)) 1
            (conn a) (c_name r) p = Next d1 1 id) as Hpartner.
  { unfold resolve_partner. fold named.
    rewrite (select_id_None named).
    2:{ intros id' r' Hr'. unfold named.
        destruct (decide (c_name r' = c_name r)) as [Hsame|Hother].
        - rewrite (Hunique id' r' Hr' Hsame), Hr in Hr'.
          injection Hr' as <-.
          by rewrite (bool_decide_eq_false_2 (c_is_supplier r = 1%Z)),
            andb_false_r.
        - by rewrite (bool_decide_eq_false_2 _ Hother). }
    rewrite (add_or_update_customer_existing _ _ _ _ _ _ id r Hfault Hr eq_refl).
    cbn [snd]. fold g d1.
    rewrite (select_id_unique named (customers d1) id (g r)); [done|..].
    - unfold d1. cbn [customers with_customers]. by rewrite lookup_fmap, Hr.
    - unfold named, g. rewrite decide_True by done. simpl.
      by rewrite !bool_decide_eq_true_2.
    - intros id' r'. unfold d1. cbn [customers with_customers].
      rewrite lookup_fmap.
      destruct (customers (conn a) !! id') as [r0|] eqn:Hr0; [|done].
      simpl. intros [= <-]. unfold named, g.
      destruct (decide (c_name r0 = c_name r)) as [Hsame|Hother].
      + intros _. by eapply Hunique.
      + by rewrite (bool_decide_eq_false_2 _ Hother). }
  set (r1 := {| c_name := c_name r; c_contact := "";
                c_credit_balance := p; c_active := c_active r;
                c_is_supplier := 1 |}).
  assert (customers d1 !! id = Some r1) as Hr1.
  { unfold d1. cbn [customers with_customers]. rewrite lookup_fmap, Hr.
    simpl. unfold g. by rewrite decide_True. }
  unfold save_purchase_transaction.
  rewrite Hname, (bool_decide_eq_false_2 _ Hne),
    (bool_decide_eq_false_2 _ Hitems), Hread.
  cbn [to_real]. rewrite Hpartner.
  pose proof (resolve_items_ledger plans (items_tree (purchases_tab a)) d1 1 [])
    as Hresolved.
  destruct (resolve_items _ _ _ _ _) as [d2 k2 items_list|d2 e|]; [| |done].
  2:{ intros [= <- <-]. cbn [conn]. destruct Hresolved as [_ Hsame].
      apply (Hdone d2 r1); [by rewrite Hsame|done..|by left]. }
  destruct Hresolved as [_ Hsame].
  unfold add_purchase. rewrite add_sale_run.
  assert (∀ d3, customers d3 = customers d2
                ∨ customers d3 = alter (set_credit u) id (customers d2) →
                ∃ r', customers d3 !! id = Some r'
                      ∧ c_name r' = c_name r
                      ∧ c_is_supplier r' = 1%Z
                      ∧ c_contact r' = ""%string
                      ∧ c_active r' = c_active r
                      ∧ (c_credit_balance r' = p ∨ c_credit_balance r' = u)
                      ∧ get_all_customers d3 !! id = None) as Hcases.
  { intros d3 [Hd3|Hd3].
    - apply (Hdone d3 r1); [by rewrite Hd3, Hsame|done..|by left].
    - apply (Hdone d3 (set_credit u r1)); [|done..|by right].
      by rewrite Hd3, lookup_alter_eq, Hsame, Hr1. }
  destruct (no_fault (plans k2) 0 (statements items_list)).
  - assert (customers
              (record d2 (date_entry (purchases_tab a)) id items_list t c p u
                 "" "purchase") = customers d2
            ∨ customers
                (record d2 (date_entry (purchases_tab a)) id items_list t c p
                   u "" "purchase")
              = alter (set_credit u) id (customers d2)) as Hrecord.
    { cbn [customers record].
      destruct (if bool_decide ("purchase"%string = "sale"%string)
                then bool_decide (is_Some (clients d2))
                else bool_decide (is_Some (suppliers d2))); auto. }
    case_bool_decide; intros [= <- <-]; cbn [conn]; by apply Hcases.
  - intros [= <- <-]. cbn [conn]. apply Hcases. by left.
Qed.

Lemma purchase_turns_customer_into_supplier_witness :
  ∃ r', customers (conn Scenes.purchase_saved) !! 1%Z = Some r'
        ∧ c_name r' = c_name Shop.customer_C
        ∧ c_is_supplier r' = 1%Z
        ∧ c_contact r' = ""%string
        ∧ c_active r' = c_active Shop.customer_C
        ∧ (c_credit_balance r' = Qc_of_Z 100
           ∨ c_credit_balance r' = Qc_of_Z 150)
        ∧ get_all_customers (conn Scenes.purchase_saved) !! 1%Z = None.
Proof.
  apply (purchase_turns_customer_into_supplier Till.sound
           Scenes.purchase_entered Scenes.purchase_saved
           Scenes.purchase_dialogs 1 (set_credit 0 Shop.customer_C)
           (Qc_of_Z 250) (Qc_of_Z 200) (Qc_of_Z 100) (Qc_of_Z 150)).
  - reflexivity.
  - by_compute.
  - by_compute.
  - by_compute.
  - by_compute.
  - by_compute.
  - intros id' r' Hr' _.
    destruct (decide (id' = 1%Z)) as [->|Hne]; [done|].
    change (customers (conn Scenes.purchase_entered))
      with (alter (set_credit 0) 1%Z
              ({[ 1%Z := Shop.customer_C ]} : gmap Z customer)) in Hr'.
    rewrite lookup_alter_ne in Hr' by done.
    by rewrite lookup_singleton_ne in Hr'.
  - reflexivity.
  - vm_compute. reflexivity.
Defined.



(** The line of the witness: 8 units at 0.125 show a total of 1.00 and
    are stored at the price 0.12, a subtotal of 0.96. *)
Example shown_total_and_stored_subtotal :
  format_2f (Finite (Qc_of_Z 8 * Q2Qc (1 # 8))) = "1.00"%string
  ∧ round2 (Q2Qc (1 # 8)) = Q2Qc (12 # 100)
  ∧ Qc_of_Z 8 * round2 (Q2Qc (1 # 8)) = Q2Qc (96 # 100).
Proof. splits; by_compute. Qed.

Lemma credit_balance_of_sale faults d date customer_id items total_amount
    cash_received previous_credit updated_credit notes tid d' :
  add_sale faults d date customer_id items total_amount cash_received
    previous_credit updated_credit notes "sale" = (Some tid, d') →
  clients d = None →
  customers d' !! customer_id
  = set_credit updated_credit <$> customers d !! customer_id
  ∧ ∀ id, id ≠ customer_id → customers d' !! id = customers d !! id.
Proof.
  intros [-> ->]%add_sale_success Hlegacy. cbn [customers record].
  rewrite (bool_decide_eq_true_2 ("sale"%string = "sale"%string)) by done.
  rewrite Hlegacy, bool_decide_eq_false_2 by by intros [? ?].
  split; [by rewrite lookup_alter_eq|].
  intros id Hid. by rewrite lookup_alter_ne.
Qed.

Lemma select_credit_balance_unique (t : gmap Z customer) name id r :
  t !! id = Some r →
  c_name r = name →
  (∀ id' r', t !! id' = Some r' → c_name r' = name → id' = id) →
  select_credit_balance name t = Some (c_credit_balance r).
Proof.
  intros Hr Hname Hunique. unfold select_credit_balance.
  assert (filter (λ kr : Z * customer, c_name kr.2 = name) t = {[id := r]})
    as ->.
  { apply map_eq. intros id'.
    destruct (decide (id' = id)) as [->|Hne].
    - rewrite lookup_singleton_eq. by apply map_lookup_filter_Some.
    - rewrite lookup_singleton_ne by done.
      apply map_lookup_filter_None. right. intros r' Hr' Hname'.
      by destruct (Hne (Hunique id' r' Hr' Hname')). }
  by rewrite map_to_list_singleton.
Qed.

(** X20.  The credit carries over.  After a successful sale in a
    database without the legacy clients table, choosing the customer of
    that sale in the sales tab shows the updated credit of the sale,
    with two decimals, as the previous credit of the next one;
    [update_customer_credit] changes nothing else of the form and
    nothing in the database. *)
Theorem credit_carries_over faults d date customer_id items total_amount
    cash_received previous_credit updated_credit notes tid d' r f purchases :
  add_sale faults d date customer_id items total_amount cash_received
    previous_credit updated_credit notes "sale" = (Some tid, d') →
  clients d = None →
  customers d !! customer_id = Some r →
  c_name r ≠ ""%string →
  (∀ id' r', customers d !! id' = Some r' → c_name r' = c_name r →
             id' = customer_id) →
  let a := {| conn := d'; sales_tab := with_partner_var (c_name r) f;
              purchases_tab := purchases |} in
  update_customer_credit a
  = {| conn := d';
       sales_tab := with_prev_credit_var (format_2f (Finite updated_credit))
                      (with_partner_var (c_name r) f);
       purchases_tab := purchases |}.
Proof.
  intros Hsale Hlegacy Hr Hne Hunique a. subst a.
  destruct (credit_balance_of_sale faults d date customer_id items
              total_amount cash_received previous_credit updated_credit notes
              tid d' Hsale Hlegacy) as [Hrow Hothers].
  unfold update_customer_credit.
  cbn [conn sales_tab purchases_tab partner_var with_partner_var].
  rewrite (bool_decide_eq_false_2 _ Hne).
  rewrite (select_credit_balance_unique (customers d') (c_name r) customer_id
             (set_credit updated_credit r)); [done|..].
  - by rewrite Hrow, Hr.
  - done.
  - intros id' r' Hr' Hname'.
    destruct (decide (id' = customer_id)) as [|Hother]; [done|].
    rewrite (Hothers id' Hother) in Hr'. by eapply Hunique.
Qed.

Lemma credit_carries_over_witness :
  update_customer_credit
    {| conn := Shop.after_sale.2;
       sales_tab := with_partner_var (c_name (set_credit 0 Shop.customer_C))
                      Till.blank;
       purchases_tab := Till.blank |}
  = {| conn := Shop.after_sale.2;
       sales_tab := with_prev_credit_var (format_2f (Finite (Qc_of_Z 150)))
                      (with_partner_var
                         (c_name (set_credit 0 Shop.customer_C)) Till.blank);
       purchases_tab := Till.blank |}.
Proof.
  apply (credit_carries_over Shop.sound Shop.after_purchase.2 Shop.day1 1
           [Shop.line 1 5 50] (Qc_of_Z 250) (Qc_of_Z 200) (Qc_of_Z 100)
           (Qc_of_Z 150) "" 2 Shop.after_sale.2 (set_credit 0 Shop.customer_C)
           Till.blank Till.blank).
  - vm_compute. reflexivity.
  - reflexivity.
  - by_compute.
  - by_compute.
  - intros id' r' Hr' _.
    destruct (decide (id' = 1%Z)) as [->|Hne]; [done|].
    change (customers Shop.after_purchase.2)
      with (alter (set_credit 0) 1%Z
              ({[ 1%Z := Shop.customer_C ]} : gmap Z customer)) in Hr'.
    rewrite lookup_alter_ne in Hr' by done.
    by rewrite lookup_singleton_ne in Hr'.
Defined.

(** X24.  The previous credit of the purchases tab.  When the name
    chosen in the purchases tab is the name of one partner,
    [update_supplier_credit] shows the balance of that partner with two
    decimals if it is a supplier, and 0.00 if it is not, whatever its
    balance; it changes nothing else. *)
Theorem supplier_credit_shown (a : app) id r :
  customers (conn a) !! id = Some r →
  partner_var (purchases_tab a) = c_name r →
  c_name r ≠ ""%string →
  (∀ id' r', customers (conn a) !! id' = Some r' → c_name r' = c_name r →
             id' = id) →
  update_supplier_credit a
  = {| conn := conn a; sales_tab := sales_tab a;
       purchases_tab :=
         with_prev_credit_var
           (if decide (c_is_supplier r = 1%Z)
            then format_2f (Finite (c_credit_balance r)) else "0.00"%string)
           (purchases_tab a) |}.
Proof.
  intros Hr Hname Hne Hunique. unfold update_supplier_credit.
  rewrite Hname, (bool_decide_eq_false_2 _ Hne).
  unfold select_supplier_credit_balance.
  destruct (decide (c_is_supplier r = 1%Z)) as [Hsupplier|Hcustomer].
  - assert (filter (λ kr : Z * customer,
                      c_name kr.2 = c_name r ∧ c_is_supplier kr.2 = 1%Z)
              (customers (conn a)) = {[id := r]}) as ->.
    { apply map_eq. intros id'.
      destruct (decide (id' = id)) as [->|Hother].
      - rewrite lookup_singleton_eq. by apply map_lookup_filter_Some.
      - rewrite lookup_singleton_ne by done.
        apply map_lookup_filter_None. right. intros r' Hr' [Hname' _].
        by destruct (Hother (Hunique id' r' Hr' Hname')). }
    by rewrite map_to_list_singleton.
  - assert (filter (λ kr : Z * customer,
                      c_name kr.2 = c_name r ∧ c_is_supplier kr.2 = 1%Z)
              (customers (conn a)) = ∅) as ->.
    { apply map_empty. intros id'. apply map_lookup_filter_None. right.
      intros r' Hr' [Hname' Hflag]. simpl in *.
      rewrite (Hunique id' r' Hr' Hname'), Hr in Hr'.
      injection Hr' as <-. done. }
    by rewrite map_to_list_empty.
Qed.

Lemma supplier_credit_shown_witness :
  update_supplier_credit Scenes.customer_chosen
  = {| conn := conn Scenes.customer_chosen;
       sales_tab := sales_tab Scenes.customer_chosen;
       purchases_tab :=
         with_prev_credit_var
           (if decide (c_is_supplier (set_credit (Qc_of_Z 150) Shop.customer_C)
                       = 1%Z)
            then format_2f
                   (Finite (c_credit_balance
                              (set_credit (Qc_of_Z 150) Shop.customer_C)))
            else "0.00"%string)
           (purchases_tab Scenes.customer_chosen) |}.
Proof.
  apply (supplier_credit_shown Scenes.customer_chosen 1
           (set_credit (Qc_of_Z 150) Shop.customer_C)).
  - by_compute.
  - reflexivity.
  - by_compute.
  - intros id' r' Hr' _.
    destruct (decide (id' = 1%Z)) as [->|Hne]; [done|].
    change (customers (conn Scenes.customer_chosen))
      with (alter (set_credit (Qc_of_Z 150)) 1%Z
              (alter (set_credit 0) 1%Z
                 ({[ 1%Z := Shop.customer_C ]} : gmap Z customer))) in Hr'.
    rewrite !lookup_alter_ne in Hr' by done.
    by rewrite lookup_singleton_ne in Hr'.
Defined.

End saving_more.

(** ** The daily detail queries *)

Section reports.
Import PyNum Store History Catalog Reports.

Lemma record_legacy_tables d date customer_id items total_amount
    cash_received previous_credit updated_credit notes transaction_type :
  let d' := record d date customer_id items total_amount cash_received
              previous_credit updated_credit notes transaction_type in
  (clients d = None → clients d' = None)
  ∧ (suppliers d = None → suppliers d' = None).
Proof.
  cbn [clients suppliers record].
  split; intros ->; by destruct (bool_decide _).
Qed.

Lemma replay_legacy_tables conn calls d :
  replay conn calls = Some d →
  (clients conn = None → clients d = None)
  ∧ (suppliers conn = None → suppliers d = None).
Proof.
  revert d. induction calls as [|c calls IH] using rev_ind; intros d Hreplay.
  - by injection Hreplay as <-.
  - apply replay_snoc_inv in Hreplay as (d0 & Hd0 & ->).
    destruct (IH d0 Hd0) as [Hclients Hsuppliers].
    destruct (record_legacy_tables d0 (call_date c) (call_customer_id c)
                (call_items c) (call_total_amount c) (call_cash_received c)
                (call_previous_credit c) (call_updated_credit c)
                (call_notes c) (call_transaction_type c)) as [H1 H2].
    split; intros Hnone; [apply H1, Hclients, Hnone|apply H2, Hsuppliers, Hnone].
Qed.

(** X21.  The detail queries need the legacy tables.  In a database
    without the clients table, which [create_tables] never creates, and
    after any sequence of successful [add_sale] calls on it,
    [get_daily_sales] and [get_daily_sales_detail] raise
    OperationalError for every date instead of returning the sales;
    without the suppliers table so does [get_daily_purchases_detail]. *)
Theorem detail_queries_need_legacy_tables conn calls d partner_name date :
  replay conn calls = Some d →
  (clients conn = None →
   get_daily_sales_detail partner_name d date = Raise OperationalError
   ∧ get_daily_sales partner_name d date = Raise OperationalError)
  ∧ (suppliers conn = None →
     get_daily_purchases_detail partner_name d date = Raise OperationalError).
Proof.
  intros Hreplay.
  destruct (replay_legacy_tables conn calls d Hreplay) as [Hclients Hsuppliers].
  unfold get_daily_sales_detail, get_daily_sales, get_daily_purchases_detail.
  assert (table_exists "transactions" d = true) as -> by done.
  split; intros Hnone.
  - by rewrite (Hclients Hnone).
  - by rewrite (Hsuppliers Hnone).
Qed.

Lemma detail_queries_need_legacy_tables_witness :
  get_daily_sales_detail (λ _, None) Shop.in_order_db Shop.day1
  = Raise OperationalError
  ∧ get_daily_sales (λ _, None) Shop.in_order_db Shop.day1
    = Raise OperationalError.
Proof.
  pose proof (detail_queries_need_legacy_tables Shop.opening Shop.in_order
                Shop.in_order_db (λ _, None) Shop.day1) as H.
  destruct H as [H _]; [vm_compute; reflexivity|].
  by apply H.
Defined.

Lemma insert_by_id_last t ts :
  Forall (λ t', (t_id t' <= t_id t)%Z) ts → insert_by_id t ts = ts ++ [t].
Proof.
  induction 1 as [|t' ts Ht' _ IH]; [done|]. simpl.
  rewrite decide_False by lia. by rewrite IH.
Qed.

Lemma elem_of_insert_by_id t t' ts :
  t' ∈ insert_by_id t ts ↔ t' = t ∨ t' ∈ ts.
Proof.
  induction ts as [|t0 ts IH]; simpl; [set_solver|].
  case_decide; [set_solver|]. rewrite !elem_of_cons, IH. naive_solver.
Qed.

Lemma elem_of_by_id t ts : t ∈ by_id ts ↔ t ∈ ts.
Proof.
  unfold by_id. rewrite <- (elem_of_reverse t ts).
  induction (reverse ts) as [|t0 l IH]; simpl; [done|].
  rewrite elem_of_insert_by_id, elem_of_cons, IH. done.
Qed.

Lemma by_id_snoc ts t :
  Forall (λ t', (t_id t' <= t_id t)%Z) ts → by_id (ts ++ [t]) = by_id ts ++ [t].
Proof.
  intros Hle. unfold by_id at 1. rewrite reverse_snoc. simpl.
  fold (by_id ts). apply insert_by_id_last.
  apply Forall_forall. intros t' Ht'. apply (proj1 (elem_of_by_id _ _)) in Ht'.
  rewrite Forall_forall in Hle. by apply Hle.
Qed.

Lemma bind_ext_elem {A B : Type} (f g : A → list B) (l : list A) :
  (∀ x, x ∈ l → f x = g x) → l ≫= f = l ≫= g.
Proof.
  induction l as [|x l IH]; intros Hfg; [done|]. rewrite !bind_cons.
  rewrite (Hfg x) by set_solver. rewrite IH; [done|].
  intros y Hy. apply Hfg. set_solver.
Qed.

Lemma append_item_last sale_id item (sales : list (Z * detail)) e :
  sale_id ∉ sales.*1 →
  append_item sale_id item (sales ++ [(sale_id, e)])
  = sales ++ [(sale_id,
               {| dt_id := dt_id e; dt_date := dt_date e;
                  dt_partner_name := dt_partner_name e;
                  dt_total_amount := dt_total_amount e; dt_cash := dt_cash e;
                  dt_previous_credit := dt_previous_credit e;
                  dt_updated_credit := dt_updated_credit e;
                  dt_notes := dt_notes e;
                  dt_items := dt_items e ++ [item] |})].
Proof.
  induction sales as [|[k s] sales IH]; intros Hfresh; simpl.
  - by rewrite decide_True.
  - rewrite decide_False by set_solver. rewrite IH; [done|set_solver].
Qed.

Lemma collect_known sales row :
  t_id (f_transaction row) ∈ sales.*1 →
  collect sales row
  = match f_item row with
    | Some item =>
        if decide (di_product_id item = 0%Z) then sales
        else append_item (t_id (f_transaction row)) item sales
    | None => sales
    end.
Proof. intros Hin. unfold collect. by rewrite decide_True. Qed.

Lemma collect_new sales row :
  t_id (f_transaction row) ∉ sales.*1 →
  collect sales row
  = match f_item row with
    | Some item =>
        if decide (di_product_id item = 0%Z)
        then sales ++ [(t_id (f_transaction row), detail_of_row row)]
        else append_item (t_id (f_transaction row)) item
               (sales ++ [(t_id (f_transaction row), detail_of_row row)])
    | None => sales ++ [(t_id (f_transaction row), detail_of_row row)]
    end.
Proof. intros Hin. unfold collect. by rewrite decide_False. Qed.

Lemma collect_keys sales row :
  (collect sales row).*1 ⊆ t_id (f_transaction row) :: sales.*1.
Proof.
  assert (∀ sale_id item (l : list (Z * detail)),
            (append_item sale_id item l).*1 = l.*1) as Happend.
  { intros sale_id item l. induction l as [|[k s] l IH]; [done|]. simpl.
    case_decide; simpl; [done|by f_equal]. }
  unfold collect.
  destruct (f_item row) as [item|]; [case_decide|];
    rewrite ?Happend; case_decide; rewrite ?fmap_app; set_solver.
Qed.

Lemma foldl_collect_keys rows sales :
  (foldl collect sales rows).*1
  ⊆ sales.*1 ++ (t_id ∘ f_transaction <$> rows).
Proof.
  revert sales. induction rows as [|row rows IH]; intros sales; simpl.
  - set_solver.
  - etrans; [apply IH|]. pose proof (collect_keys sales row). set_solver.
Qed.

Lemma record_product_names d date customer_id items total_amount
    cash_received previous_credit updated_credit notes transaction_type p :
  p_name <$> products (record d date customer_id items total_amount
                         cash_received previous_credit updated_credit notes
                         transaction_type) !! p
  = p_name <$> products d !! p.
Proof.
  cbn [products record].
  destruct (products d !! p) as [r|] eqn:Hr.
  - destruct (apply_movements_products date transaction_type items
                (products d, daily_stock d) p r Hr) as (r' & -> & Hname & _).
    simpl. by rewrite Hname.
  - by rewrite apply_movements_products_None.
Qed.

Lemma filter_item_rows_other tid id items :
  id ≠ tid →
  filter (λ ti, ti_transaction_id ti = id) (map (item_row tid) items) = [].
Proof.
  intros Hne. induction items as [|item items IH]; [done|]. simpl.
  rewrite filter_cons_False by (simpl; congruence). exact IH.
Qed.

Lemma filter_item_rows_same tid items :
  filter (λ ti, ti_transaction_id ti = tid) (map (item_row tid) items)
  = map (item_row tid) items.
Proof.
  induction items as [|item items IH]; [done|]. simpl.
  rewrite filter_cons_True by done. by rewrite IH.
Qed.

Lemma filter_none {A : Type} (P : A → Prop) `{∀ x, Decision (P x)} (l : list A) :
  Forall (λ x, ¬ P x) l → filter P l = [].
Proof.
  induction 1 as [|x l Hx _ IH]; [done|].
  by rewrite filter_cons_False.
Qed.

Section one_sale.
Variables (conn : db) (date : string) (customer_id : Z)
  (items : list sale_item)
  (total_amount cash_received previous_credit updated_credit : Qc)
  (notes : string) (partner_name : Z → option string).
Hypothesis Hids : ids_in_order conn.
Hypothesis Hrefer : rows_refer conn.

Let tid : Z := (transactions_seq conn + 1)%Z.
Let conn' : db :=
  record conn date customer_id items total_amount cash_received
    previous_credit updated_credit notes "sale".
Let header : transaction :=
  header_row tid date customer_id "sale" total_amount cash_received
    previous_credit updated_credit notes.
Let listed : list detail_item :=
  (λ item, {| di_product_id := product_id item;
              di_product_name := p_name <$> products conn !! product_id item;
              di_quantity := quantity item; di_price := price item |})
    <$> items.

Lemma old_ids_below t : t ∈ transactions conn → (t_id t < tid)%Z.
Proof.
  intros Ht. destruct Hids as [_ Hseq]. rewrite Forall_forall in Hseq.
  specialize (Hseq t Ht). unfold tid. lia.
Qed.

Lemma old_items_elsewhere :
  Forall (λ ti, ¬ ti_transaction_id ti = tid) (transaction_items conn).
Proof.
  destruct Hrefer as [Hitems _].
  eapply Forall_impl; [exact Hitems|]. simpl. intros ti Hti Heq.
  apply list_elem_of_fmap in Hti as (t & Ht & Hin).
  pose proof (old_ids_below t Hin). lia.
Qed.

Lemma items_of_old_transaction t :
  t ∈ transactions conn →
  items_of_transaction conn' (t_id t) = items_of_transaction conn (t_id t).
Proof.
  intros Ht. pose proof (old_ids_below t Ht) as Hlt.
  unfold items_of_transaction, conn'. cbn [transaction_items record].
  fold tid. rewrite filter_app, filter_item_rows_other, app_nil_r by lia.
  apply list_fmap_ext. intros i ti _. f_equal.
  apply record_product_names.
Qed.

Lemma items_of_new_transaction : items_of_transaction conn' tid = listed.
Proof.
  unfold items_of_transaction, conn'. cbn [transaction_items record].
  fold tid.
  rewrite filter_app, (filter_none _ _ old_items_elsewhere),
    filter_item_rows_same, app_nil_l.
  unfold listed.
  assert (∀ (g : transaction_item → detail_item) l,
            g <$> map (item_row tid) l = (λ item, g (item_row tid item)) <$> l)
    as ->.
  { intros g l. induction l as [|item l IH]; [done|]. simpl. by f_equal. }
  apply list_fmap_ext. intros i item _. unfold conn'.
  by rewrite record_product_names.
Qed.

Lemma joined_old t :
  t ∈ transactions conn →
  joined partner_name conn' t = joined partner_name conn t.
Proof. intros Ht. unfold joined. by rewrite items_of_old_transaction. Qed.

Lemma joined_transaction d t row :
  row ∈ joined partner_name d t → f_transaction row = t.
Proof.
  unfold joined. destruct (items_of_transaction d (t_id t)) as [|i l].
  - intros ->%list_elem_of_singleton. done.
  - intros (item & -> & _)%list_elem_of_fmap. done.
Qed.

Lemma select_details_old (day : string) :
  select_details partner_name conn' day "sale"
  = select_details partner_name conn day "sale"
    ++ (if decide (day = date) then joined partner_name conn' header else []).
Proof.
  assert (transactions conn' = transactions conn ++ [header]) as Htx by done.
  unfold select_details. rewrite Htx, filter_app.
  set (kept := filter (λ t, t_date t = day ∧ t_transaction_type t = "sale"%string)
                 (transactions conn)).
  assert (∀ t, t ∈ kept → t ∈ transactions conn) as Hkept.
  { intros t Ht. unfold kept in Ht. by apply list_elem_of_filter in Ht as [_ ?]. }
  assert (by_id kept ≫= (λ t, joined partner_name conn' t)
          = by_id kept ≫= (λ t, joined partner_name conn t)) as Hold.
  { apply bind_ext_elem. intros t Ht. apply joined_old, Hkept.
    by apply (proj1 (elem_of_by_id _ _)). }
  case_decide as Hday.
  - rewrite filter_cons_True, filter_nil by (by rewrite Hday).
    rewrite by_id_snoc.
    + by rewrite bind_app, bind_singleton, Hold.
    + apply Forall_forall. intros t Ht.
      pose proof (old_ids_below t (Hkept t Ht)). simpl. lia.
  - rewrite filter_cons_False, filter_nil, app_nil_r by (simpl; naive_solver).
    by rewrite Hold, app_nil_r.
Qed.

Lemma foldl_collect_items (l : list detail_item) (sales : list (Z * detail)) e :
  tid ∉ sales.*1 →
  Forall (λ item, di_product_id item ≠ 0%Z) l →
  foldl collect (sales ++ [(tid, e)])
    ((λ item, {| f_transaction := header;
                 f_partner_name := partner_name customer_id;
                 f_item := Some item |}) <$> l)
  = sales ++ [(tid,
               {| dt_id := dt_id e; dt_date := dt_date e;
                  dt_partner_name := dt_partner_name e;
                  dt_total_amount := dt_total_amount e; dt_cash := dt_cash e;
                  dt_previous_credit := dt_previous_credit e;
                  dt_updated_credit := dt_updated_credit e;
                  dt_notes := dt_notes e;
                  dt_items := dt_items e ++ l |})].
Proof.
  intros Hfresh Hl. revert e.
  induction Hl as [|item l Hitem _ IH]; intros e.
  - simpl. rewrite app_nil_r. by destruct e.
  - rewrite fmap_cons. cbn [foldl]. rewrite collect_known.
    2:{ rewrite fmap_app. apply elem_of_app. right. simpl. set_solver. }
    cbn [f_transaction f_item header header_row t_id].
    rewrite decide_False by done.
    rewrite append_item_last by done. rewrite IH.
    cbn [dt_id dt_date dt_partner_name dt_total_amount dt_cash
         dt_previous_credit dt_updated_credit dt_notes dt_items].
    by rewrite <- app_assoc.
Qed.

Lemma details_with_new (rows : list fetched) :
  (∀ row, row ∈ rows → f_transaction row ∈ transactions conn) →
  Forall (λ item, product_id item ≠ 0%Z) items →
  details (rows ++ joined partner_name conn' header)
  = details rows
    ++ [{| dt_id := tid; dt_date := date;
           dt_partner_name := partner_name customer_id;
           dt_total_amount := total_amount; dt_cash := cash_received;
           dt_previous_credit := previous_credit;
           dt_updated_credit := updated_credit; dt_notes := notes;
           dt_items := listed |}].
Proof.
  intros Hrows Hitems. unfold details. rewrite foldl_app.
  set (sales := foldl collect [] rows).
  assert (tid ∉ sales.*1) as Hfresh.
  { intros Hin. apply (foldl_collect_keys rows []) in Hin. simpl in Hin.
    apply list_elem_of_fmap in Hin as (row & Hrow & Hin). simpl in Hrow.
    pose proof (old_ids_below _ (Hrows row Hin)). lia. }
  assert (Forall (λ item, di_product_id item ≠ 0%Z) listed) as Hlisted.
  { unfold listed. apply Forall_fmap. eapply Forall_impl; [exact Hitems|].
    done. }
  unfold joined. cbn [header header_row t_id t_customer_id].
  fold tid header. rewrite items_of_new_transaction.
  destruct listed as [|item l] eqn:Hl.
  - cbn [foldl]. rewrite collect_new by done.
    cbn [f_item]. by rewrite fmap_app.
  - rewrite fmap_cons. cbn [foldl]. rewrite collect_new by done.
    cbn [f_transaction f_item header header_row t_id].
    apply Forall_cons in Hlisted as [Hitem Hrest].
    rewrite decide_False by done.
    rewrite append_item_last by done.
    rewrite foldl_collect_items by done.
    by rewrite fmap_app.
Qed.

End one_sale.

Lemma select_details_transactions partner_name d day kind row :
  row ∈ select_details partner_name d day kind →
  f_transaction row ∈ transactions d.
Proof.
  unfold select_details. intros (t & Hrow & Ht)%list_elem_of_bind.
  apply joined_transaction in Hrow as ->.
  apply (proj1 (elem_of_by_id _ _)) in Ht.
  by apply list_elem_of_filter in Ht as [_ ?].
Qed.

(** X22.  A sale is found again in the daily detail.  In a database
    with the legacy clients table and a well-formed ledger, after a
    successful sale whose items have product ids other than 0,
    [get_daily_sales_detail] for the date of the sale returns what it
    returned before followed by one entry for the new sale, with the id
    returned, the amounts given and the items in the order given, each
    with the name of its product; for every other date it returns what
    it returned before. *)
Theorem sale_appears_in_daily_detail faults conn date customer_id items
    total_amount cash_received previous_credit updated_credit notes tid
    conn' legacy partner_name :
  ids_in_order conn →
  rows_refer conn →
  clients conn = Some legacy →
  add_sale faults conn date customer_id items total_amount cash_received
    previous_credit updated_credit notes "sale" = (Some tid, conn') →
  Forall (λ item, product_id item ≠ 0%Z) items →
  ∃ before,
    get_daily_sales_detail partner_name conn date = Ret before
    ∧ get_daily_sales_detail partner_name conn' date
      = Ret (before
             ++ [{| dt_id := tid; dt_date := date;
                    dt_partner_name := partner_name customer_id;
                    dt_total_amount := total_amount;
                    dt_cash := cash_received;
                    dt_previous_credit := previous_credit;
                    dt_updated_credit := updated_credit;
                    dt_notes := notes;
                    dt_items :=
                      (λ item,
                         {| di_product_id := product_id item;
                            di_product_name :=
                              p_name <$> products conn !! product_id item;
                            di_quantity := quantity item;
                            di_price := price item |}) <$> items |}])
    ∧ ∀ day, day ≠ date →
             get_daily_sales_detail partner_name conn' day
             = get_daily_sales_detail partner_name conn day.
Proof.
  intros Hids Hrefer Hlegacy [-> ->]%add_sale_success Hitems.
  unfold get_daily_sales_detail.
  assert (∀ d, table_exists "transactions" d = true) as Htable by done.
  rewrite !Htable, Hlegacy.
  cbn [clients record].
  rewrite (bool_decide_eq_true_2 ("sale"%string = "sale"%string)) by done.
  rewrite Hlegacy. cbn [fmap option_fmap option_map].
  eexists. split; [done|]. split.
  - rewrite (select_details_old conn date customer_id items total_amount
               cash_received previous_credit updated_credit notes
               partner_name Hids date).
    rewrite decide_True by done.
    rewrite (details_with_new conn date customer_id items total_amount
               cash_received previous_credit updated_credit notes
               partner_name Hids Hrefer); [done| |done].
    intros row. apply select_details_transactions.
  - intros day Hday.
    rewrite (select_details_old conn date customer_id items total_amount
               cash_received previous_credit updated_credit notes
               partner_name Hids day).
    by rewrite decide_False, app_nil_r.
Qed.

Lemma sale_appears_in_daily_detail_witness :
  ∃ before,
    get_daily_sales_detail (λ _, None) Scenes.legacy_shop Shop.day1
    = Ret before
    ∧ get_daily_sales_detail (λ _, None) Scenes.legacy_sale.2 Shop.day1
      = Ret (before
             ++ [{| dt_id := 2; dt_date := Shop.day1;
                    dt_partner_name := None;
                    dt_total_amount := Qc_of_Z 250;
                    dt_cash := Qc_of_Z 200;
                    dt_previous_credit := Qc_of_Z 100;
                    dt_updated_credit := Qc_of_Z 150;
                    dt_notes := "";
                    dt_items :=
                      (λ item,
                         {| di_product_id := product_id item;
                            di_product_name :=
                              p_name <$> products Scenes.legacy_shop
                                         !! product_id item;
                            di_quantity := quantity item;
                            di_price := price item |})
                        <$> [Shop.line 1 5 50] |}])
    ∧ ∀ day, day ≠ Shop.day1 →
             get_daily_sales_detail (λ _, None) Scenes.legacy_sale.2 day
             = get_daily_sales_detail (λ _, None) Scenes.legacy_shop day.
Proof.
  apply (sale_appears_in_daily_detail Shop.sound Scenes.legacy_shop Shop.day1
           1 [Shop.line 1 5 50] (Qc_of_Z 250) (Qc_of_Z 200) (Qc_of_Z 100)
           (Qc_of_Z 150) "" 2 Scenes.legacy_sale.2 ∅ (λ _, None)).
  - split.
    + intros i j t t' Hij Ht Ht'. apply lookup_lt_Some in Ht'.
      change (length (transactions Scenes.legacy_shop)) with 1%nat in Ht'. lia.
    + apply Forall_singleton. vm_compute. discriminate.
  - split; apply Forall_singleton; apply list_elem_of_singleton; reflexivity.
  - reflexivity.
  - vm_compute. reflexivity.
  - apply Forall_singleton. discriminate.
Defined.

End reports.

(** ** Rows for the remote sheet *)

Section sheets.
Import PyNum Store Reports Sheets.
Variable str_float : Qc → string.

Lemma product_column_first header l1 a l2 :
  di_product_name a = Some header →
  Forall (λ item, di_product_name item ≠ Some header) l1 →
  product_column header (l1 ++ a :: l2) = CNumber (di_quantity a).
Proof.
  intros Ha Hl1. induction Hl1 as [|item l1 Hitem _ IH]; simpl.
  - by rewrite decide_True.
  - by rewrite decide_False.
Qed.

(** X23.  What a sheet row holds.  [_convert_sale_to_row] returns one
    cell per header.  For the header row the program passes, followed by
    the name of a product as a further column, the row is the customer
    name, the total amount, the previous credit, the cash received, the
    updated credit, the text of the items, and, in the product column,
    the quantity of the first line of that product: further lines of
    the same product are not added to it. *)
Theorem product_column_shows_first_line sale header_row header l1 a l2 :
  header ∉ sales_header →
  dt_items sale = l1 ++ a :: l2 →
  di_product_name a = Some header →
  Forall (λ item, di_product_name item ≠ Some header) l1 →
  length (_convert_sale_to_row str_float sale header_row) = length header_row
  ∧ _convert_sale_to_row str_float sale (sales_header ++ [header])
    = [name_cell (dt_partner_name sale); CNumber (dt_total_amount sale);
       CNumber (dt_previous_credit sale); CNumber (dt_cash sale);
       CNumber (dt_updated_credit sale);
       CText (items_str str_float (dt_items sale));
       CNumber (di_quantity a)].
Proof.
  intros Hheader Hitems Ha Hl1. split.
  - unfold _convert_sale_to_row. by rewrite length_fmap.
  - unfold _convert_sale_to_row, sales_header. cbn [fmap list_fmap app].
    unfold sale_cell at 1 2 3 4 5 6.
    repeat (first [rewrite decide_True by done|rewrite decide_False by done]).
    do 6 f_equal. unfold sale_cell.
    unfold sales_header in Hheader.
    rewrite !decide_False by set_solver.
    rewrite Hitems. f_equal. by apply product_column_first.
Qed.

End sheets.

Section sheets_examples.
Import PyNum Store Reports Sheets.

Lemma product_column_shows_first_line_witness :
  length (_convert_sale_to_row (λ _, "?"%string) Exported.two_lines [])
  = length ([] : list string)
  ∧ _convert_sale_to_row (λ _, "?"%string) Exported.two_lines
      (sales_header ++ ["A"%string])
    = [name_cell (dt_partner_name Exported.two_lines);
       CNumber (dt_total_amount Exported.two_lines);
       CNumber (dt_previous_credit Exported.two_lines);
       CNumber (dt_cash Exported.two_lines);
       CNumber (dt_updated_credit Exported.two_lines);
       CText (items_str (λ _, "?"%string) (dt_items Exported.two_lines));
       CNumber (di_quantity (Exported.line_of_A 2))].
Proof.
  apply (product_column_shows_first_line (λ _, "?"%string)
           Exported.two_lines [] "A" [] (Exported.line_of_A 2)
           [Exported.line_of_A 3]).
  - by_compute.
  - reflexivity.
  - reflexivity.
  - apply Forall_nil_2.
Defined.

End sheets_examples.
